(** * ANTSDR DMA driver: frame extraction and repacketization pipeline

    A shallow embedding of [drivers/antsdr_dma/antsdr_dma.c]: the FPGA frame
    parser, the gap tracker, the frame detection (accumulation) buffer, the
    payload ring, the frame worker, the UDP packetizer, the statistics
    ioctl and the DMA completion path, followed by the properties of the
    pipeline.

    Conventions.
    - C integers are [Z]; an operation that can leave the range of its C
      type is wrapped explicitly ([u32] for [uint32_t] and [unsigned int],
      [ulong] for [unsigned long], whose width [BITS_PER_LONG] is a
      parameter of the target).
    - A buffer is a [list byte]; a pointer into a buffer together with a
      length is the corresponding slice.  The slot a ring pointer refers
      to is kept as the slot index, so that reads through the pointer see
      later writes to the slot.
    - [antsdr_debug_log] expands to nothing ([ANTSDR_DEBUG_CONSOLE] is 0)
      and [antsdr_export_frame_to_file] returns 0 at once
      ([ANTSDR_ENABLE_FRAME_EXPORT] is 0); neither appears below. *)

From Stdlib Require Import ZArith.
From Stdlib.Strings Require Import Byte.
From stdpp Require Import base tactics option list numbers.

Local Open Scope Z_scope.

(** ** Constants of the driver *)

Definition ANTSDR_PACKET_START_MARKER : Z := 0xABCD1234.
Definition ANTSDR_PACKET_END_MARKER : Z := 0x5678DCBA.
Definition ANTSDR_MAX_PAYLOAD_SIZE : Z := 1360.
(* sizeof(struct antsdr_packet_header): twelve packed uint32_t fields (the
   comment in the source still says 44 bytes). *)
Definition ANTSDR_PACKET_HEADER_SIZE : Z := 12 * 4.

Definition RING_BUFFER_COUNT : Z := 256.
Definition RING_BUFFER_SIZE : Z := 1600.
Definition FRAME_DETECTION_BUFFER_SIZE : Z := 64 * 1024.

Definition FPGA_HEADER_MARKER_1 : Z := 0xFEFFFFFF.
Definition FPGA_HEADER_MARKER_2 : Z := 0xFFFFFFFE.
Definition FPGA_FOOTER_MARKER : Z := 0xFFFFFFFF.
Definition FPGA_LONG_PULSE_WORDS : Z := 403.
Definition FPGA_SHORT_PULSE_WORDS : Z := 53.

(* Linux errno values used by the driver (include/uapi/asm-generic). *)
Definition EINVAL : Z := 22.
Definition ENOSPC : Z := 28.
Definition ENODATA : Z := 61.
Definition EFAULT : Z := 14.
Definition ENOMEM : Z := 12.

(** ** Machine integers, bytes and words *)

Definition u32 (x : Z) : Z := x mod 2 ^ 32.

(* [int]: the value of a conversion to a signed 32-bit integer. *)
Definition s32 (x : Z) : Z := (x + 2 ^ 31) mod 2 ^ 32 - 2 ^ 31.

(* One little-endian 32-bit word, as the ARM core reads
   [((const uint32_t * )data)[i]]. *)
Definition le32 (b0 b1 b2 b3 : byte) : Z :=
  Z.of_N (Byte.to_N b0) + 2 ^ 8 * Z.of_N (Byte.to_N b1)
  + 2 ^ 16 * Z.of_N (Byte.to_N b2) + 2 ^ 24 * Z.of_N (Byte.to_N b3).

(* The words of a buffer of [length data] bytes: [data_len / 4] of them,
   trailing bytes that do not fill a word are not looked at. *)
Fixpoint words_of (data : list byte) : list Z :=
  match data with
  | b0 :: b1 :: b2 :: b3 :: rest => le32 b0 b1 b2 b3 :: words_of rest
  | _ => []
  end.

(* [words[i]]; reading past the array is not something the driver does on
   the paths modelled here, the default only makes the function total. *)
Definition word_at (words : list Z) (i : Z) : Z :=
  default 0 (words !! Z.to_nat i).

(* The [len] bytes starting at byte offset [off] of [buf]. *)
Definition slice (buf : list byte) (off len : Z) : list byte :=
  take (Z.to_nat len) (drop (Z.to_nat off) buf).

(* [memcpy(dst + off, src, length src)] on the contents of [dst]. *)
Definition memcpy_at (dst : list byte) (off : Z) (src : list byte) : list byte :=
  take (Z.to_nat off) dst ++ src ++ drop (Z.to_nat off + length src) dst.

(** ** Data model *)

(* struct antsdr_dma_stats: seven [unsigned long] counters. *)
Record antsdr_dma_stats := mk_stats {
  transfers_completed : Z;
  bytes_transferred : Z;
  udp_packets_sent : Z;
  errors : Z;
  valid_frames : Z;
  invalid_frames : Z;
  extracted_frames : Z
}.

(* The ring buffer fields of struct antsdr_dma_dev. *)
Record ring_state := mk_ring {
  ring_buffers : list (list byte);
  ring_size : Z;
  ring_head : Z;
  ring_tail : Z;
  ring_count : Z;
  ring_buffer_size : Z
}.

(* The frame detection buffer fields of struct antsdr_dma_dev. *)
Record frame_buffer_state := mk_fbuf {
  frame_detection_buffer : list byte;
  frame_buffer_size : Z;
  frame_buffer_used : Z;
  frames_accumulated : Z
}.

(* The gap tracking fields of struct antsdr_dma_dev. *)
Record gap_state := mk_gap {
  missing_frame_count : Z;
  last_frame_counter : Z;
  first_frame_received : bool
}.

(* struct antsdr_dma_dev, restricted to the fields the pipeline reads or
   writes; the groups follow the sections of the C structure.  [sock] is
   whether the socket pointer is non-NULL. *)
Record antsdr_dma_dev := mk_dev {
  stats : antsdr_dma_stats;
  ring : ring_state;
  fbuf : frame_buffer_state;
  gap : gap_state;
  pulse_mode : Z;
  total_frames_processed : Z;
  packet_sequence_number : Z;
  frame_id_counter : Z;
  sock : bool;
  dest_set : bool;
  udp_work_pending : bool;
  frame_work_pending : bool;
  raw_frame_fifo : list (list byte)
}.

Definition set_stats (s : antsdr_dma_stats) (d : antsdr_dma_dev) : antsdr_dma_dev :=
  mk_dev s (ring d) (fbuf d) (gap d) (pulse_mode d) (total_frames_processed d)
    (packet_sequence_number d) (frame_id_counter d) (sock d) (dest_set d)
    (udp_work_pending d) (frame_work_pending d) (raw_frame_fifo d).

Definition set_ring (r : ring_state) (d : antsdr_dma_dev) : antsdr_dma_dev :=
  mk_dev (stats d) r (fbuf d) (gap d) (pulse_mode d) (total_frames_processed d)
    (packet_sequence_number d) (frame_id_counter d) (sock d) (dest_set d)
    (udp_work_pending d) (frame_work_pending d) (raw_frame_fifo d).

Definition set_fbuf (b : frame_buffer_state) (d : antsdr_dma_dev) : antsdr_dma_dev :=
  mk_dev (stats d) (ring d) b (gap d) (pulse_mode d) (total_frames_processed d)
    (packet_sequence_number d) (frame_id_counter d) (sock d) (dest_set d)
    (udp_work_pending d) (frame_work_pending d) (raw_frame_fifo d).

Definition set_gap (g : gap_state) (d : antsdr_dma_dev) : antsdr_dma_dev :=
  mk_dev (stats d) (ring d) (fbuf d) g (pulse_mode d) (total_frames_processed d)
    (packet_sequence_number d) (frame_id_counter d) (sock d) (dest_set d)
    (udp_work_pending d) (frame_work_pending d) (raw_frame_fifo d).

Definition set_total_frames_processed (n : Z) (d : antsdr_dma_dev) : antsdr_dma_dev :=
  mk_dev (stats d) (ring d) (fbuf d) (gap d) (pulse_mode d) n
    (packet_sequence_number d) (frame_id_counter d) (sock d) (dest_set d)
    (udp_work_pending d) (frame_work_pending d) (raw_frame_fifo d).

Definition set_packet_sequence_number (n : Z) (d : antsdr_dma_dev) : antsdr_dma_dev :=
  mk_dev (stats d) (ring d) (fbuf d) (gap d) (pulse_mode d) (total_frames_processed d)
    n (frame_id_counter d) (sock d) (dest_set d)
    (udp_work_pending d) (frame_work_pending d) (raw_frame_fifo d).

Definition set_frame_id_counter (n : Z) (d : antsdr_dma_dev) : antsdr_dma_dev :=
  mk_dev (stats d) (ring d) (fbuf d) (gap d) (pulse_mode d) (total_frames_processed d)
    (packet_sequence_number d) n (sock d) (dest_set d)
    (udp_work_pending d) (frame_work_pending d) (raw_frame_fifo d).

Definition set_udp_work_pending (b : bool) (d : antsdr_dma_dev) : antsdr_dma_dev :=
  mk_dev (stats d) (ring d) (fbuf d) (gap d) (pulse_mode d) (total_frames_processed d)
    (packet_sequence_number d) (frame_id_counter d) (sock d) (dest_set d)
    b (frame_work_pending d) (raw_frame_fifo d).

Definition set_frame_work_pending (b : bool) (d : antsdr_dma_dev) : antsdr_dma_dev :=
  mk_dev (stats d) (ring d) (fbuf d) (gap d) (pulse_mode d) (total_frames_processed d)
    (packet_sequence_number d) (frame_id_counter d) (sock d) (dest_set d)
    (udp_work_pending d) b (raw_frame_fifo d).

Definition set_raw_frame_fifo (q : list (list byte)) (d : antsdr_dma_dev) : antsdr_dma_dev :=
  mk_dev (stats d) (ring d) (fbuf d) (gap d) (pulse_mode d) (total_frames_processed d)
    (packet_sequence_number d) (frame_id_counter d) (sock d) (dest_set d)
    (udp_work_pending d) (frame_work_pending d) q.

(** ** Payload ring *)

(* antsdr_ring_init, every allocation succeeding.  [kmalloc] does not clear
   what it returns: [mem i k] is the byte that slot [i] holds at offset [k]
   when it is allocated. *)
Definition antsdr_ring_init (mem : nat -> nat -> byte) (d : antsdr_dma_dev) : antsdr_dma_dev :=
  set_ring
    {| ring_size := RING_BUFFER_COUNT;
       ring_buffer_size := RING_BUFFER_SIZE;
       ring_head := 0;
       ring_tail := 0;
       ring_count := 0;
       ring_buffers :=
         map (fun i => map (mem i) (seq 0 (Z.to_nat RING_BUFFER_SIZE)))
             (seq 0 (Z.to_nat RING_BUFFER_COUNT)) |}
    d.

(* antsdr_ring_put(dma_dev, data, size) with [size = length data]. *)
Definition antsdr_ring_put (d : antsdr_dma_dev) (data : list byte) : Z * antsdr_dma_dev :=
  let r := ring d in
  let size := Z.of_nat (length data) in
  if ring_buffer_size r <? size then (- EINVAL, d)
  else if ring_size r <=? ring_count r then (- ENOSPC, d)
  else
    let ring_buffer := default [] (ring_buffers r !! Z.to_nat (ring_head r)) in
    let next_head := u32 (ring_head r + 1) mod ring_size r in
    (0, set_ring
          {| ring_buffers :=
               <[Z.to_nat (ring_head r) := memcpy_at ring_buffer 0 data]> (ring_buffers r);
             ring_size := ring_size r;
             ring_head := next_head;
             ring_tail := ring_tail r;
             ring_count := u32 (ring_count r + 1);
             ring_buffer_size := ring_buffer_size r |}
          d).

(* antsdr_ring_get: the return code and, on success, [*data] (the slot the
   returned pointer designates) and [*size]. *)
Definition antsdr_ring_get (d : antsdr_dma_dev) : Z * option (Z * Z) :=
  let r := ring d in
  if ring_count r =? 0 then (- ENODATA, None)
  else (0, Some (ring_tail r, ring_buffer_size r)).

(* antsdr_ring_return_buffer *)
Definition antsdr_ring_return_buffer (d : antsdr_dma_dev) : antsdr_dma_dev :=
  let r := ring d in
  if 0 <? ring_count r then
    set_ring
      {| ring_buffers := ring_buffers r;
         ring_size := ring_size r;
         ring_head := ring_head r;
         ring_tail := u32 (ring_tail r + 1) mod ring_size r;
         ring_count := u32 (ring_count r - 1);
         ring_buffer_size := ring_buffer_size r |}
      d
  else d.

(* The bytes of slot [slot], what a read through the pointer handed out by
   [antsdr_ring_get] sees. *)
Definition ring_slot (d : antsdr_dma_dev) (slot : Z) : list byte :=
  default [] (ring_buffers (ring d) !! Z.to_nat slot).

(** ** Frame detection buffer: storage *)

(* antsdr_frame_buffer_init, the allocation succeeding; [mem k] is the byte
   the buffer holds at offset [k] when [kmalloc] returns it. *)
Definition antsdr_frame_buffer_init (mem : nat -> byte) (d : antsdr_dma_dev) : antsdr_dma_dev :=
  set_fbuf
    {| frame_detection_buffer := map mem (seq 0 (Z.to_nat FRAME_DETECTION_BUFFER_SIZE));
       frame_buffer_size := FRAME_DETECTION_BUFFER_SIZE;
       frame_buffer_used := 0;
       frames_accumulated := 0 |}
    d.

(* antsdr_frame_buffer_add(dma_dev, data, size) with [size = length data].
   The sizes are [size_t] values bounded by the buffer size. *)
Definition antsdr_frame_buffer_add (d : antsdr_dma_dev) (data : list byte) : Z * antsdr_dma_dev :=
  let b := fbuf d in
  let size := Z.of_nat (length data) in
  if frame_buffer_size b <? frame_buffer_used b + size then
    (- ENOSPC,
     set_fbuf
       {| frame_detection_buffer := frame_detection_buffer b;
          frame_buffer_size := frame_buffer_size b;
          frame_buffer_used := 0;
          frames_accumulated := 0 |}
       d)
  else
    (0,
     set_fbuf
       {| frame_detection_buffer :=
            memcpy_at (frame_detection_buffer b) (frame_buffer_used b) data;
          frame_buffer_size := frame_buffer_size b;
          frame_buffer_used := frame_buffer_used b + size;
          frames_accumulated := u32 (frames_accumulated b + 1) |}
       d).

(* antsdr_frame_buffer_reset *)
Definition antsdr_frame_buffer_reset (d : antsdr_dma_dev) : antsdr_dma_dev :=
  let b := fbuf d in
  set_fbuf
    {| frame_detection_buffer := frame_detection_buffer b;
       frame_buffer_size := frame_buffer_size b;
       frame_buffer_used := 0;
       frames_accumulated := 0 |}
    d.

(** ** Gap tracking *)

(* The gap detection block of antsdr_parse_fpga_frame (the body of
   [if (footer_pos > header_pos + 1)]), on the tracking fields. *)
Definition gap_track (g : gap_state) (frame_counter : Z) : gap_state :=
  if negb (first_frame_received g) then
    {| missing_frame_count := missing_frame_count g;
       last_frame_counter := frame_counter;
       first_frame_received := true |}
  else
    let expected_counter := u32 (last_frame_counter g + 1) in
    {| missing_frame_count :=
         if expected_counter <? frame_counter then
           let missing_frames := u32 (frame_counter - expected_counter) in
           u32 (missing_frame_count g + missing_frames)
         else (* frame_counter < expected_counter is only logged *)
           missing_frame_count g;
       last_frame_counter := frame_counter;
       first_frame_received := first_frame_received g |}.

(* The reset of the tracking fields in antsdr_dma_start_streaming. *)
Definition gap_reset : gap_state :=
  {| missing_frame_count := 0; last_frame_counter := 0; first_frame_received := false |}.

(** ** Marker scan *)

Definition is_header (w : Z) : bool :=
  (w =? FPGA_HEADER_MARKER_1) || (w =? FPGA_HEADER_MARKER_2).

(* The [for (i = 0; i < word_count; i++)] loop of antsdr_parse_fpga_frame,
   entered at index [i] with the remaining words [ws]. *)
Fixpoint scan_markers (ws : list Z) (i header_pos footer_pos : Z) : Z * Z :=
  match ws with
  | [] => (header_pos, footer_pos)
  | w :: ws' =>
      let header_pos' :=
        if is_header w && (header_pos =? -1) then i else header_pos in
      let footer_pos' :=
        if w =? FPGA_FOOTER_MARKER then i else footer_pos in
      scan_markers ws' (i + 1) header_pos' footer_pos'
  end.

(* Word [h] is the first start marker of [ws]. *)
Definition first_header (ws : list Z) (h : nat) : Prop :=
  (exists w, ws !! h = Some w /\ is_header w = true)
  /\ forall j w, (j < h)%nat -> ws !! j = Some w -> is_header w = false.

(* Word [f] is the last end marker of [ws]. *)
Definition last_footer (ws : list Z) (f : nat) : Prop :=
  ws !! f = Some FPGA_FOOTER_MARKER
  /\ forall j w, (f < j)%nat -> ws !! j = Some w -> w <> FPGA_FOOTER_MARKER.

(* What antsdr_parse_fpga_frame returns, by the return statement taken. *)
Inductive parse_outcome :=
  | FrameValid (payload : list byte)  (* return 0, *payload and *payload_len set *)
  | FrameTooShort                     (* falls through to the last return -1 *)
  | FrameLengthMismatch               (* return -1, span differs from the expected one *)
  | FrameRecovered (found_frames : Z) (* return 0 from the header-only branch;
                                         *payload and *payload_len are not written *)
  | FrameIncomplete                   (* return -1, only a header was found *)
  | FrameNoMarkers.                   (* return -1, no header *)

Definition parse_ret (o : parse_outcome) : Z :=
  match o with
  | FrameValid _ | FrameRecovered _ => 0
  | _ => -1
  end.

(** ** Wire packets *)

Module hdr.
(* struct antsdr_packet_header; each field holds the value that
   [cpu_to_be32] puts on the wire in network byte order. *)
Record t := mk {
  start_marker : Z;
  sequence_number : Z;
  total_length : Z;
  payload_length : Z;
  frame_id : Z;
  fragment_offset : Z;
  fragment_count : Z;
  fragment_index : Z;
  frame_payload_total : Z;
  missing_frame_count : Z;
  checksum : Z;
  end_marker : Z
}.
End hdr.

Record packet := mk_packet {
  header : hdr.t;
  packet_payload : list byte
}.

(** ** Ring histories *)

(* The two operations that change the ring. *)
Inductive ring_op :=
  | RingPut (data : list byte)
  | RingReturn.

Definition ring_apply (d : antsdr_dma_dev) (op : ring_op) : antsdr_dma_dev :=
  match op with
  | RingPut data => snd (antsdr_ring_put d data)
  | RingReturn => antsdr_ring_return_buffer d
  end.

(* What antsdr_ring_init establishes and the ring operations keep. *)
Record ring_wf (r : ring_state) : Prop := mk_ring_wf {
  wf_size_pos : 0 < ring_size r;
  wf_size_u32 : ring_size r < 2 ^ 32;
  wf_slots : Z.of_nat (length (ring_buffers r)) = ring_size r;
  wf_head : 0 <= ring_head r < ring_size r;
  wf_tail : 0 <= ring_tail r < ring_size r;
  wf_count : 0 <= ring_count r <= ring_size r;
  wf_head_tail : ring_head r = (ring_tail r + ring_count r) mod ring_size r;
  wf_slot_size :
    Forall (fun slot => Z.of_nat (length slot) = ring_buffer_size r) (ring_buffers r)
}.

(* No end marker among the words of the bytes accumulated so far, which
   are whole words. *)
Record fbuf_clean (b : frame_buffer_state) : Prop := mk_fbuf_clean {
  clean_used : 0 <= frame_buffer_used b;
  clean_words : (frame_buffer_used b) mod 4 = 0;
  clean_size : frame_buffer_size b <= Z.of_nat (length (frame_detection_buffer b));
  clean_fit : frame_buffer_used b <= frame_buffer_size b;
  clean_no_footer :
    forall j w,
      words_of (take (Z.to_nat (frame_buffer_used b)) (frame_detection_buffer b)) !! j
      = Some w ->
      w <> FPGA_FOOTER_MARKER
}.


(** ** Synthetic transfers and devices *)

Definition byte_of_Z (x : Z) : byte :=
  default x00 (Byte.of_N (Z.to_N (x mod 256))).

(* The four bytes of a word in memory order (little endian). *)
Definition bytes_of_word (w : Z) : list byte :=
  [byte_of_Z w; byte_of_Z (w / 2 ^ 8); byte_of_Z (w / 2 ^ 16); byte_of_Z (w / 2 ^ 24)].

Definition bytes_of_words (ws : list Z) : list byte :=
  concat (map bytes_of_word ws).

(* A frame as the FPGA sends it: start marker, [n] payload words
   1, 2, ..., n, the frame counter, the end marker. *)
Definition fpga_frame (marker : Z) (n : nat) (counter : Z) : list Z :=
  marker :: map Z.of_nat (seq 1 n) ++ [counter; FPGA_FOOTER_MARKER].

Definition short_transfer (counter : Z) : list byte :=
  bytes_of_words (fpga_frame FPGA_HEADER_MARKER_1 50 counter).

Definition long_transfer (counter : Z) : list byte :=
  bytes_of_words (fpga_frame FPGA_HEADER_MARKER_2 400 counter).

(* The device after probe: counters cleared, short pulse mode, ring and
   detection buffer allocated (their memory holding 0x55 and 0xaa), socket
   created; [dest] is whether a UDP destination has been set. *)
Definition probed (dest : bool) : antsdr_dma_dev :=
  antsdr_frame_buffer_init (fun _ => xaa)
    (antsdr_ring_init (fun _ _ => x55)
       {| stats := mk_stats 0 0 0 0 0 0 0;
          ring := mk_ring [] 0 0 0 0 0;
          fbuf := mk_fbuf [] 0 0 0;
          gap := gap_reset;
          pulse_mode := 0;
          total_frames_processed := 0;
          packet_sequence_number := 0;
          frame_id_counter := 0;
          sock := true;
          dest_set := dest;
          udp_work_pending := false;
          frame_work_pending := false;
          raw_frame_fifo := [] |}).

Definition set_pulse_mode (m : Z) (d : antsdr_dma_dev) : antsdr_dma_dev :=
  mk_dev (stats d) (ring d) (fbuf d) (gap d) m (total_frames_processed d)
    (packet_sequence_number d) (frame_id_counter d) (sock d) (dest_set d)
    (udp_work_pending d) (frame_work_pending d) (raw_frame_fifo d).

(* [n] payloads of [len] bytes put one after the other, the [k]-th made of
   the byte [k]. *)
Fixpoint fill_ring (n : nat) (len : nat) (d : antsdr_dma_dev) : antsdr_dma_dev :=
  match n with
  | O => d
  | S n' =>
      let d' := fill_ring n' len d in
      snd (antsdr_ring_put d' (replicate len (byte_of_Z (Z.of_nat n'))))
  end.

(* A device in pulse mode [mode] whose detection buffer received one frame
   with counter [counter] in two pieces: transfer A, the first 100 bytes
   (start marker and the first payload words), then transfer B, the rest up
   to and including the end marker. *)
Definition split_frame_dev (mode counter : Z) : antsdr_dma_dev :=
  let whole := if mode =? 0 then short_transfer counter else long_transfer counter in
  let d := set_pulse_mode mode (probed true) in
  snd (antsdr_frame_buffer_add
         (snd (antsdr_frame_buffer_add d (take 100 whole)))
         (drop 100 whole)).

(* A short-pulse transfer of 53 words in which the frame is ten words too
   short: ten words of other data, then a frame with 40 payload words. *)
Definition mismatch_transfer : list byte :=
  bytes_of_words (replicate 10 0 ++ fpga_frame FPGA_HEADER_MARKER_1 40 9).

(* A network that takes every datagram: kernel_sendmsg returns the number
   of bytes handed to it. *)
Definition sendmsg_all (p : packet) : Z :=
  ANTSDR_PACKET_HEADER_SIZE + Z.of_nat (length (packet_payload p)).

(* A network that takes none: kernel_sendmsg returns -ENETUNREACH. *)
Definition sendmsg_unreachable (p : packet) : Z := -101.

(* An allocator that leaves a freed block as it was: a read at offset [i]
   of the block that held [raw] finds byte [i] of [raw]. *)
Definition kfree_intact (d : antsdr_dma_dev) (raw : list byte) (i : nat) : byte :=
  default x00 (raw !! i).

(* An allocator that overwrites a freed block with the poison byte 0x6b,
   as the slab allocator does with poisoning enabled. *)
Definition kfree_poison (d : antsdr_dma_dev) (raw : list byte) (i : nat) : byte := x6b.

(* The ring holding [RING_BUFFER_COUNT] short-pulse payloads. *)
Definition full_ring_dev : antsdr_dma_dev := fill_ring 256 200 (probed true).

(* The allocations are never unfolded by [simpl]: a ring is 256 slots of
   1600 bytes. *)
Arguments antsdr_ring_init : simpl never.
Arguments antsdr_frame_buffer_init : simpl never.
Arguments probed : simpl never.
Arguments full_ring_dev : simpl never.
Arguments split_frame_dev : simpl never.

(** ** The ring seen as a queue *)

(* The slots that hold payloads not yet returned, oldest first: the slots
   at tail, tail + 1, ... (modulo [ring_size]), [ring_count] of them. *)
Definition ring_contents (r : ring_state) : list (list byte) :=
  map (fun k =>
         default [] (ring_buffers r !! Z.to_nat ((ring_tail r + Z.of_nat k) mod ring_size r)))
      (seq 0 (Z.to_nat (ring_count r))).

(* antsdr_ring_put of each payload in turn. *)
Definition put_all (d : antsdr_dma_dev) (payloads : list (list byte)) : antsdr_dma_dev :=
  foldl (fun d p => snd (antsdr_ring_put d p)) d payloads.

(* The frame counters [cs] that follow the counter [c] are strictly
   increasing 32-bit values above it. *)
Fixpoint counters_ascending (c : Z) (cs : list Z) : Prop :=
  match cs with
  | [] => True
  | c' :: cs' => c < c' < 2 ^ 32 /\ counters_ascending c' cs'
  end.

(** ** DMA control *)

Definition NUM_BUFFERS : Z := 16.
Definition MAX_S2MM_TRANSFER_SIZE : Z := 512 * 4.
(* RAW_FRAME_FIFO_SIZE / sizeof(struct antsdr_raw_frame): the FIFO is
   allocated for 256 records, a power of two in bytes for both pointer
   widths, and only whole records go in and out. *)
Definition RAW_FRAME_FIFO_FRAMES : Z := 256.
Definition EBUSY : Z := 16.
Definition ENODEV : Z := 19.

(* The fields of struct antsdr_dma_dev that drive the DMA engine, around
   the pipeline state [dma_dev].  [rx_chan] is whether the channel pointer
   is non-null; a DMA buffer is [None] while its pointer is null.  The
   fields [s2mm_requested_length] and [s2mm_actual_length] are written and
   never read; they are left out. *)
Record dma_control := mk_control {
  dma_dev : antsdr_dma_dev;
  rx_chan : bool;
  long_dma_buffers : list (option (list byte));
  short_dma_buffers : list (option (list byte));
  current_buffer : Z;
  streaming : bool
}.

Definition set_dma_dev (d : antsdr_dma_dev) (c : dma_control) : dma_control :=
  mk_control d (rx_chan c) (long_dma_buffers c) (short_dma_buffers c)
    (current_buffer c) (streaming c).

Definition set_current_buffer (n : Z) (c : dma_control) : dma_control :=
  mk_control (dma_dev c) (rx_chan c) (long_dma_buffers c) (short_dma_buffers c)
    n (streaming c).

Definition set_streaming (b : bool) (c : dma_control) : dma_control :=
  mk_control (dma_dev c) (rx_chan c) (long_dma_buffers c) (short_dma_buffers c)
    (current_buffer c) b.

(* antsdr_get_transfer_size *)
Definition antsdr_get_transfer_size (d : antsdr_dma_dev) : Z :=
  if negb (pulse_mode d =? 0) then FPGA_LONG_PULSE_WORDS * 4
  else FPGA_SHORT_PULSE_WORDS * 4.

(* antsdr_get_current_buffer: the contents of the buffer the returned
   pointer designates, [None] for a null pointer. *)
Definition antsdr_get_current_buffer (c : dma_control) : option (list byte) :=
  let buffers :=
    if negb (pulse_mode (dma_dev c) =? 0) then long_dma_buffers c
    else short_dma_buffers c in
  mjoin (buffers !! Z.to_nat (current_buffer c)).

(* antsdr_submit_dma_transfer.  [engine] is what the DMA engine makes of
   the request: 0, the error of dmaengine_slave_config, -ENOMEM when no
   descriptor is prepared or -EIO when the submission fails.  The function
   changes no field of the device; the transfer is the hardware's. *)
Definition antsdr_submit_dma_transfer (engine : Z) (c : dma_control) : Z :=
  if rx_chan c then engine else - ENODEV.

(* What antsdr_dma_probe leaves and no function changes: a channel, the
   sixteen long buffers of MAX_S2MM_TRANSFER_SIZE bytes, no short buffer
   (only [long_dma_buffers] is ever assigned an allocation), and a buffer
   index inside the arrays. *)
Record probe_layout (c : dma_control) : Prop := mk_probe_layout {
  layout_chan : rx_chan c = true;
  layout_long :
    Forall (fun b => exists buf, b = Some buf
                       /\ Z.of_nat (length buf) = MAX_S2MM_TRANSFER_SIZE)
           (long_dma_buffers c);
  layout_long_count : Z.of_nat (length (long_dma_buffers c)) = NUM_BUFFERS;
  layout_short : short_dma_buffers c = replicate (Z.to_nat NUM_BUFFERS) None;
  layout_index : 0 <= current_buffer c < NUM_BUFFERS
}.

(* What the environment decides during one run of antsdr_dma_callback. *)
Record callback_env := mk_callback_env {
  tx_status_error : bool;  (* dmaengine_tx_status returned DMA_ERROR *)
  raw_alloc_ok : bool;     (* kmalloc(transfer_size, GFP_ATOMIC) succeeded *)
  resubmit_engine : Z;     (* the engine on the next transfer *)
  restart_engine : Z       (* the engine on the transfer of a reset *)
}.

(* The device antsdr_dma_probe leaves, not streaming, put in pulse mode
   [mode]; the first long DMA buffer holds [buf0], the others zeros. *)
Definition probed_control (mode : Z) (buf0 : list byte) : dma_control :=
  {| dma_dev := set_pulse_mode mode (probed true);
     rx_chan := true;
     long_dma_buffers :=
       Some buf0 :: replicate 15 (Some (replicate 2048 x00));
     short_dma_buffers := replicate 16 None;
     current_buffer := 0;
     streaming := false |}.

(* A DMA buffer of MAX_S2MM_TRANSFER_SIZE bytes that received a long-pulse
   frame with counter [counter]. *)
Definition long_capture (counter : Z) : list byte :=
  long_transfer counter ++ replicate 436 x00.

(* A completion without incident: no DMA error, the copy allocated, the
   next transfer accepted. *)
Definition quiet_completion : callback_env :=
  {| tx_status_error := false; raw_alloc_ok := true;
     resubmit_engine := 0; restart_engine := 0 |}.

Arguments probed_control : simpl never.

Section Pipeline.

(* Width of [unsigned long] on the target. *)
Variable BITS_PER_LONG : Z.
(* The kernel's [crc32(seed, buf, len)] from <linux/crc32.h>. *)
Variable crc32 : Z -> list byte -> Z.
(* The value [kernel_sendmsg] returns for a datagram: the number of bytes
   sent, or a negative errno. *)
Variable kernel_sendmsg : packet -> Z.
(* What a read through a dangling pointer finds after [kfree]:
   [kfree_leaves d raw i] is the byte at offset [i] of the block that held
   [raw] and was freed with the device in state [d].  The allocator may
   leave the bytes, write its free-list link or a poison pattern over
   them, or hand the block to the next [kmalloc] of that size (the DMA
   callback allocates its copies from the same cache). *)
Variable kfree_leaves : antsdr_dma_dev -> list byte -> nat -> byte.

Definition ulong (x : Z) : Z := x mod 2 ^ BITS_PER_LONG.

(** Statistics updates, each the body of one [spin_lock_irqsave(&lock)]
    region. *)

(* stats.valid_frames++; stats.extracted_frames++; *)
Definition count_valid_frame (d : antsdr_dma_dev) : antsdr_dma_dev :=
  let s := stats d in
  set_stats
    (mk_stats (transfers_completed s) (bytes_transferred s) (udp_packets_sent s)
       (errors s) (ulong (valid_frames s + 1)) (invalid_frames s)
       (ulong (extracted_frames s + 1)))
    d.

(* stats.invalid_frames++; *)
Definition count_invalid_frame (d : antsdr_dma_dev) : antsdr_dma_dev :=
  let s := stats d in
  set_stats
    (mk_stats (transfers_completed s) (bytes_transferred s) (udp_packets_sent s)
       (errors s) (valid_frames s) (ulong (invalid_frames s + 1))
       (extracted_frames s))
    d.

(* stats.errors++; *)
Definition count_error (d : antsdr_dma_dev) : antsdr_dma_dev :=
  let s := stats d in
  set_stats
    (mk_stats (transfers_completed s) (bytes_transferred s) (udp_packets_sent s)
       (ulong (errors s + 1)) (valid_frames s) (invalid_frames s)
       (extracted_frames s))
    d.

(* stats.udp_packets_sent++; *)
Definition count_packet_sent (d : antsdr_dma_dev) : antsdr_dma_dev :=
  let s := stats d in
  set_stats
    (mk_stats (transfers_completed s) (bytes_transferred s)
       (ulong (udp_packets_sent s + 1))
       (errors s) (valid_frames s) (invalid_frames s) (extracted_frames s))
    d.

(** ** Frame detection buffer: reprocessing *)

(* The payload antsdr_frame_buffer_process queues for the frame whose header
   is word [i] of the detection buffer:
   [payload = (uint8_t * )&words[i + 1]],
   [payload_len = (expected_frame_size - 2) * 4]. *)
Definition recovered_payload (buf : list byte) (expected_frame_size i : Z) : list byte :=
  slice buf ((i + 1) * 4) ((expected_frame_size - 2) * 4).

(* The [for (i = 0; i < word_count - 1; i++)] loop of
   antsdr_frame_buffer_process, entered at index [i].  [buf] and [words]
   are the detection buffer and its words, which the loop does not modify.
   Every pass increases [i], so [fuel] passes suffice when
   [word_count - 1 - i <= fuel].  The search for a misaligned footer in the
   ten-word window only feeds a debug message and is left out. *)
Fixpoint frame_buffer_scan (fuel : nat) (buf : list byte) (words : list Z)
    (word_count expected_frame_size i frames_found : Z) (d : antsdr_dma_dev)
    : Z * antsdr_dma_dev :=
  match fuel with
  | O => (frames_found, d)
  | S fuel' =>
      if i <? word_count - 1 then
        if is_header (word_at words i) then
          if i + expected_frame_size <=? word_count then
            let footer_pos := i + expected_frame_size - 1 in
            if word_at words footer_pos =? FPGA_FOOTER_MARKER then
              let payload := recovered_payload buf expected_frame_size i in
              let '(ret, d1) := antsdr_ring_put d payload in
              let '(frames_found', d2) :=
                if ret =? 0 then
                  (frames_found + 1, set_udp_work_pending true (count_valid_frame d1))
                else (frames_found, d1) in
              frame_buffer_scan fuel' buf words word_count expected_frame_size
                (i + (expected_frame_size - 1) + 1) frames_found' d2
            else
              frame_buffer_scan fuel' buf words word_count expected_frame_size
                (i + 1) frames_found d
          else
            frame_buffer_scan fuel' buf words word_count expected_frame_size
              (i + 1) frames_found d
        else
          frame_buffer_scan fuel' buf words word_count expected_frame_size
            (i + 1) frames_found d
      else (frames_found, d)
  end.

(* antsdr_frame_buffer_process: the number of frames found and the device
   afterwards. *)
Definition antsdr_frame_buffer_process (d : antsdr_dma_dev) : Z * antsdr_dma_dev :=
  let b := fbuf d in
  if frame_buffer_used b <? 8 then (0, d)
  else
    let buf := frame_detection_buffer b in
    let words := words_of (take (Z.to_nat (frame_buffer_used b)) buf) in
    let word_count := frame_buffer_used b / 4 in
    let expected_frame_size :=
      if pulse_mode d =? 0 then FPGA_SHORT_PULSE_WORDS else FPGA_LONG_PULSE_WORDS in
    let '(frames_found, d1) :=
      frame_buffer_scan (Z.to_nat word_count) buf words word_count
        expected_frame_size 0 0 d in
    (frames_found, antsdr_frame_buffer_reset d1).

(** ** Frame extractor *)

(* [dma_dev->pulse_mode ? FPGA_LONG_PULSE_WORDS : FPGA_SHORT_PULSE_WORDS] *)
Definition expected_frame_words (d : antsdr_dma_dev) : Z :=
  if negb (pulse_mode d =? 0) then FPGA_LONG_PULSE_WORDS else FPGA_SHORT_PULSE_WORDS.

(* antsdr_parse_fpga_frame(dma_dev, data, data_len, &payload, &payload_len)
   with [data_len = length data]. *)
Definition antsdr_parse_fpga_frame (d0 : antsdr_dma_dev) (data : list byte)
    : parse_outcome * antsdr_dma_dev :=
  let words := words_of data in
  let d := set_total_frames_processed (u32 (total_frames_processed d0 + 1)) d0 in
  let '(header_pos, footer_pos) := scan_markers words 0 (-1) (-1) in
  if negb (header_pos =? -1) && negb (footer_pos =? -1) then
    let actual_frame_words := footer_pos - header_pos + 1 in
    if actual_frame_words =? expected_frame_words d then
      let d1 :=
        if header_pos + 1 <? footer_pos then
          set_gap (gap_track (gap d) (word_at words (footer_pos - 1))) d
        else d in
      if 3 <=? actual_frame_words then
        (FrameValid (slice data ((header_pos + 1) * 4) ((actual_frame_words - 3) * 4)), d1)
      else (FrameTooShort, d1)
    else (FrameLengthMismatch, d)
  else if negb (header_pos =? -1) then
    let '(ret, d1) := antsdr_frame_buffer_add d data in
    if ret =? 0 then
      if (3 <=? frames_accumulated (fbuf d1))
         || (FRAME_DETECTION_BUFFER_SIZE / 2 <=? frame_buffer_used (fbuf d1)) then
        let '(found_frames, d2) := antsdr_frame_buffer_process d1 in
        if 0 <? found_frames then (FrameRecovered found_frames, d2)
        else (FrameIncomplete, d2)
      else (FrameIncomplete, d1)
    else (FrameIncomplete, d1)
  else (FrameNoMarkers, d).

(** ** Frame worker *)

(* The byte offset in [data] of the pointer the parser stores in
   [*payload] on its valid branch, [&words[header_pos + 1]]. *)
Definition payload_offset (data : list byte) : nat :=
  Z.to_nat ((fst (scan_markers (words_of data) 0 (-1) (-1)) + 1) * 4).

(* The [len] bytes a memcpy reads at offset [off] of the block that held
   [raw], after the block was freed in state [d]. *)
Definition read_after_kfree (d : antsdr_dma_dev) (raw : list byte) (off len : nat)
    : list byte :=
  map (kfree_leaves d raw) (seq off len).

(* The allocator leaves the bytes of the freed block that held [raw] as
   they were, for as long as they are read. *)
Definition kfree_keeps (raw : list byte) : Prop :=
  forall d (i : nat) b, raw !! i = Some b -> kfree_leaves d raw i = b.

(* One pass of the [while (processed_frames < 50)] loop of antsdr_frame_work
   on the raw frame [raw] taken from the FIFO.  The payload pointer refers
   to the raw frame's storage, which is handed to [kfree] before
   antsdr_ring_put copies [payload_len] bytes from it: the put receives
   what the freed block holds by then, [read_after_kfree], not the bytes
   the parser saw.  When the parser returns 0 from its header-only branch,
   [payload] and [payload_len] are read without having been written: the
   result is undefined, [None]. *)
Definition frame_work_frame (d : antsdr_dma_dev) (raw : list byte) : option antsdr_dma_dev :=
  let '(o, d1) := antsdr_parse_fpga_frame d raw in
  match o with
  | FrameValid payload =>
      let freed := read_after_kfree d1 raw (payload_offset raw) (length payload) in
      let '(ret, d2) := antsdr_ring_put d1 freed in
      if ret =? 0 then Some (count_valid_frame (set_udp_work_pending true d2))
      else Some (count_error d2)
  | FrameRecovered _ => None
  | _ => Some (count_invalid_frame d1)
  end.

Fixpoint frame_work_loop (budget : nat) (d : antsdr_dma_dev) : option antsdr_dma_dev :=
  match budget with
  | O => Some d
  | S budget' =>
      match raw_frame_fifo d with
      | [] => Some d
      | raw :: rest =>
          match frame_work_frame (set_raw_frame_fifo rest d) raw with
          | Some d' => frame_work_loop budget' d'
          | None => None
          end
      end
  end.

(* antsdr_frame_work: at most 50 raw frames, then either the work is queued
   again (the pending flag stays set) or the flag is cleared. *)
Definition antsdr_frame_work (d : antsdr_dma_dev) : option antsdr_dma_dev :=
  match frame_work_loop 50 d with
  | Some d' =>
      Some (match raw_frame_fifo d' with
            | [] => set_frame_work_pending false d'
            | _ => d'
            end)
  | None => None
  end.

(** ** Packetizer *)

(* The locals of one pass of the [while (packets_sent < 200)] loop of
   antsdr_udp_work once the slot has been taken: [ring_data] is the slot the
   pointer returned by antsdr_ring_get designates. *)
Record udp_locals := mk_locals {
  ring_data : Z;
  payload_len : Z;
  current_frame_id : Z;
  fragments_needed : Z
}.

(* The datagram the body of the [for] loop builds for fragment
   [fragment_idx] at [fragment_offset]: the memcpy out of the slot as it is
   at that moment, and the header. *)
Definition udp_fragment (d : antsdr_dma_dev) (l : udp_locals)
    (fragment_idx fragment_offset : Z) : packet :=
  let current_fragment_size :=
    Z.min (payload_len l - fragment_offset) ANTSDR_MAX_PAYLOAD_SIZE in
  let bytes := slice (ring_slot d (ring_data l)) fragment_offset current_fragment_size in
  {| header :=
       {| hdr.start_marker := ANTSDR_PACKET_START_MARKER;
          hdr.sequence_number := u32 (packet_sequence_number d);
          hdr.total_length := u32 (ANTSDR_PACKET_HEADER_SIZE + current_fragment_size);
          hdr.payload_length := u32 current_fragment_size;
          hdr.frame_id := u32 (current_frame_id l);
          hdr.fragment_offset := u32 fragment_offset;
          hdr.fragment_count := u32 (fragments_needed l);
          hdr.fragment_index := u32 fragment_idx;
          hdr.frame_payload_total := u32 (payload_len l);
          hdr.missing_frame_count := u32 (missing_frame_count (gap d));
          hdr.checksum := u32 (crc32 0 bytes);
          hdr.end_marker := ANTSDR_PACKET_END_MARKER |};
     packet_payload := bytes |}.

(* How one pass of the [for] loop ends. *)
Inductive fragment_result :=
  | FragmentSent (p : packet)  (* kernel_sendmsg returned > 0 *)
  | FragmentSkipped            (* no socket or no destination: nothing is sent *)
  | FragmentFailed.            (* kernel_sendmsg failed: goto loop_end *)

(* One pass of the [for] loop. *)
Definition udp_fragment_step (d : antsdr_dma_dev) (l : udp_locals)
    (fragment_idx fragment_offset : Z) : fragment_result * antsdr_dma_dev :=
  let p := udp_fragment d l fragment_idx fragment_offset in
  let d1 := set_packet_sequence_number (u32 (packet_sequence_number d + 1)) d in
  if sock d1 && dest_set d1 then
    if 0 <? kernel_sendmsg p then (FragmentSent p, count_packet_sent d1)
    else (FragmentFailed, count_error d1)
  else (FragmentSkipped, d1).

(* The result of the fragments of one slot: the device, the datagrams that
   went out, [packets_sent], and whether the loop left through
   [goto loop_end]. *)
Record fragments_outcome := mk_outcome {
  out_dev : antsdr_dma_dev;
  out_sent : list packet;
  out_packets_sent : Z;
  out_aborted : bool
}.

(* The [for (fragment_idx = 0; fragment_idx < fragments_needed; ...)] loop
   with [n] passes left, entered at [fragment_idx], [fragment_offset]. *)
Fixpoint udp_fragment_loop (n : nat) (l : udp_locals)
    (fragment_idx fragment_offset packets_sent : Z) (d : antsdr_dma_dev)
    : fragments_outcome :=
  match n with
  | O => mk_outcome d [] packets_sent false
  | S n' =>
      let current_fragment_size :=
        Z.min (payload_len l - fragment_offset) ANTSDR_MAX_PAYLOAD_SIZE in
      match udp_fragment_step d l fragment_idx fragment_offset with
      | (FragmentSent p, d1) =>
          let r := udp_fragment_loop n' l (fragment_idx + 1)
                     (fragment_offset + current_fragment_size) (packets_sent + 1) d1 in
          mk_outcome (out_dev r) (p :: out_sent r) (out_packets_sent r) (out_aborted r)
      | (FragmentSkipped, d1) =>
          udp_fragment_loop n' l (fragment_idx + 1)
            (fragment_offset + current_fragment_size) packets_sent d1
      | (FragmentFailed, d1) => mk_outcome d1 [] packets_sent true
      end
  end.

(* The number of passes the [for] loop still makes at offset [o] of a
   payload of [len] bytes; at offset 0 it is [fragments_needed]. *)
Definition fragments_left (len o : Z) : Z :=
  (len - o + ANTSDR_MAX_PAYLOAD_SIZE - 1) / ANTSDR_MAX_PAYLOAD_SIZE.

(* From antsdr_ring_get having returned [ring_data], [ring_size] up to the
   [for] loop: the slot is returned to the ring, then the frame id is
   drawn. *)
Definition udp_take_slot (d : antsdr_dma_dev) (ring_data ring_size : Z)
    : udp_locals * antsdr_dma_dev :=
  let payload_len := ring_size in
  let d1 := antsdr_ring_return_buffer d in
  let fragments_needed :=
    (payload_len + ANTSDR_MAX_PAYLOAD_SIZE - 1) / ANTSDR_MAX_PAYLOAD_SIZE in
  let current_frame_id := frame_id_counter d1 in
  (mk_locals ring_data payload_len current_frame_id fragments_needed,
   set_frame_id_counter (u32 (frame_id_counter d1 + 1)) d1).

(* One pass of the [while] loop after a successful antsdr_ring_get. *)
Definition udp_work_slot (d : antsdr_dma_dev) (ring_data ring_size packets_sent : Z)
    : fragments_outcome :=
  let '(l, d1) := udp_take_slot d ring_data ring_size in
  udp_fragment_loop (Z.to_nat (fragments_needed l)) l 0 0 packets_sent d1.

(* The [while (packets_sent < 200)] loop.  Every pass returns one slot to
   the ring, so [ring_count] passes empty it when nothing is put meanwhile;
   [fuel] bounds the passes. *)
Fixpoint udp_work_loop (fuel : nat) (packets_sent : Z) (d : antsdr_dma_dev)
    : antsdr_dma_dev * list packet :=
  match fuel with
  | O => (d, [])
  | S fuel' =>
      if packets_sent <? 200 then
        match antsdr_ring_get d with
        | (_, Some (ring_data, ring_size)) =>
            let r := udp_work_slot d ring_data ring_size packets_sent in
            if out_aborted r then (out_dev r, out_sent r)
            else
              let '(d', more) := udp_work_loop fuel' (out_packets_sent r) (out_dev r) in
              (d', out_sent r ++ more)
        | (_, None) => (d, [])
        end
      else (d, [])
  end.

(* antsdr_udp_work; [kmalloc_ok] is whether the packet buffer could be
   allocated.  Returns the device and the datagrams sent, in order. *)
Definition antsdr_udp_work (kmalloc_ok : bool) (d : antsdr_dma_dev)
    : antsdr_dma_dev * list packet :=
  if kmalloc_ok then
    let '(d1, sent) := udp_work_loop (S (Z.to_nat (ring_count (ring d)))) 0 d in
    (if 0 <? ring_count (ring d1) then d1 else set_udp_work_pending false d1, sent)
  else (set_udp_work_pending false d, []).

(** ** Packetizer and producer running concurrently

    antsdr_udp_work runs on the system workqueue while antsdr_frame_work puts
    payloads from the frame workqueue.  The ring operations are atomic (each
    holds [ring_lock]); between them the two contexts interleave.  The
    program points of the packetizer are those of one pass of its [while]
    loop. *)

Inductive udp_pc :=
  | AtRingGet
  | AtReturnBuffer (ring_data ring_size : Z)
  | AtFragment (n : nat) (l : udp_locals) (fragment_idx fragment_offset : Z)
  | AtLoopEnd.

Record system := mk_system {
  sys_dev : antsdr_dma_dev;
  sys_pc : udp_pc;
  sys_packets_sent : Z;
  sys_sent : list packet
}.

Inductive actor :=
  | Packetizer                     (* the next atomic step of antsdr_udp_work *)
  | Producer (payload : list byte). (* antsdr_ring_put by the frame worker *)

Definition packetizer_step (s : system) : system :=
  let d := sys_dev s in
  match sys_pc s with
  | AtRingGet =>
      if sys_packets_sent s <? 200 then
        match antsdr_ring_get d with
        | (_, Some (ring_data, ring_size)) =>
            mk_system d (AtReturnBuffer ring_data ring_size) (sys_packets_sent s) (sys_sent s)
        | (_, None) => mk_system d AtLoopEnd (sys_packets_sent s) (sys_sent s)
        end
      else mk_system d AtLoopEnd (sys_packets_sent s) (sys_sent s)
  | AtReturnBuffer ring_data ring_size =>
      let '(l, d1) := udp_take_slot d ring_data ring_size in
      mk_system d1 (AtFragment (Z.to_nat (fragments_needed l)) l 0 0)
        (sys_packets_sent s) (sys_sent s)
  | AtFragment O _ _ _ =>
      mk_system d AtRingGet (sys_packets_sent s) (sys_sent s)
  | AtFragment (S n') l fragment_idx fragment_offset =>
      let current_fragment_size :=
        Z.min (payload_len l - fragment_offset) ANTSDR_MAX_PAYLOAD_SIZE in
      match udp_fragment_step d l fragment_idx fragment_offset with
      | (FragmentSent p, d1) =>
          mk_system d1
            (AtFragment n' l (fragment_idx + 1) (fragment_offset + current_fragment_size))
            (sys_packets_sent s + 1) (sys_sent s ++ [p])
      | (FragmentSkipped, d1) =>
          mk_system d1
            (AtFragment n' l (fragment_idx + 1) (fragment_offset + current_fragment_size))
            (sys_packets_sent s) (sys_sent s)
      | (FragmentFailed, d1) => mk_system d1 AtLoopEnd (sys_packets_sent s) (sys_sent s)
      end
  | AtLoopEnd => s
  end.

Definition system_step (s : system) (a : actor) : system :=
  match a with
  | Packetizer => packetizer_step s
  | Producer payload =>
      mk_system (snd (antsdr_ring_put (sys_dev s) payload)) (sys_pc s)
        (sys_packets_sent s) (sys_sent s)
  end.

(* The system after the schedule [sched], leftmost action first. *)
Definition run (sched : list actor) (s : system) : system :=
  foldl system_step s sched.

(* What antsdr_dma_read hands back: the return value, the bytes
   copy_to_user stored in the caller's buffer (none unless it succeeded)
   and the device. *)
Record read_result := mk_read {
  read_ret : Z;
  read_bytes : list byte;
  read_dev : antsdr_dma_dev
}.

(* antsdr_dma_read, the other consumer of the ring, for a request of
   [count] bytes ([count] is a [size_t]).  [kmalloc_ok] is whether
   [kmalloc(count)] succeeds, [copy_ok] whether copy_to_user does.  Without
   the kernel buffer the function returns -ENOMEM before it touches the
   ring.  Otherwise it copies [min(count, ring_size)] bytes out of the
   slot and returns the slot to the ring; [ret], an [int], takes that
   number; copy_to_user is called for [ret] bytes when [ret] is positive,
   and its failure gives -EFAULT after the slot has been released. *)
Definition antsdr_dma_read (kmalloc_ok copy_ok : bool) (d : antsdr_dma_dev) (count : Z)
    : read_result :=
  if negb kmalloc_ok then mk_read (- ENOMEM) [] d
  else
    match antsdr_ring_get d with
    | (_, Some (ring_data, ring_size)) =>
        let copy_size := Z.min count ring_size in
        let kbuf := slice (ring_slot d ring_data) 0 copy_size in
        let d' := antsdr_ring_return_buffer d in
        let ret := s32 copy_size in
        if 0 <? ret then
          if copy_ok then mk_read ret (slice kbuf 0 ret) d'
          else mk_read (- EFAULT) [] d'
        else mk_read ret [] d'
    | (_, None) => mk_read 0 [] d
    end.

(** ** Statistics snapshot *)

(* The ANTSDR_IOC_GET_STATS case of antsdr_dma_ioctl: the return value and
   what copy_to_user stores in the caller's struct antsdr_dma_stats;
   [copy_ok] is whether copy_to_user succeeds. *)
Definition antsdr_dma_ioctl_get_stats (d : antsdr_dma_dev) (copy_ok : bool)
    : Z * option antsdr_dma_stats :=
  let stats := stats d in
  if copy_ok then (0, Some stats) else (- EFAULT, None).

(** ** Predicates used to state further properties *)

(* The fields that neither the frame worker's parsing nor the ring
   operations write. *)
Definition same_control (d d' : antsdr_dma_dev) : Prop :=
  raw_frame_fifo d' = raw_frame_fifo d
  /\ frame_work_pending d' = frame_work_pending d
  /\ pulse_mode d' = pulse_mode d
  /\ sock d' = sock d
  /\ dest_set d' = dest_set d
  /\ packet_sequence_number d' = packet_sequence_number d
  /\ frame_id_counter d' = frame_id_counter d
  /\ ring_size (ring d') = ring_size (ring d)
  /\ ring_buffer_size (ring d') = ring_buffer_size (ring d).

(* The bounds the parser keeps on the detection buffer: at most two
   transfers, each of at least a word, and less than half the buffer in
   use between two calls. *)
Record fbuf_bounded (b : frame_buffer_state) : Prop := mk_fbuf_bounded {
  bounded_size : frame_buffer_size b = FRAME_DETECTION_BUFFER_SIZE;
  bounded_count : 0 <= frames_accumulated b <= 2;
  bounded_words : 4 * frames_accumulated b <= frame_buffer_used b;
  bounded_used : frame_buffer_used b < FRAME_DETECTION_BUFFER_SIZE / 2
}.

(* A transfer holds a frame of the current pulse mode: its first start
   marker [h] and its last end marker [f] span the expected number of
   words. *)
Definition frame_at (d : antsdr_dma_dev) (data : list byte) (h f : nat) : Prop :=
  first_header (words_of data) h
  /\ last_footer (words_of data) f
  /\ Z.of_nat f - Z.of_nat h + 1 = expected_frame_words d.

(* A queued transfer the frame worker can take: whole words, at most
   half the detection buffer. *)
Definition frame_fits (raw : list byte) : Prop :=
  Z.of_nat (length raw) mod 4 = 0
  /\ Z.of_nat (length raw) <= FRAME_DETECTION_BUFFER_SIZE / 2.

(* The three counters the frame worker increments. *)
Definition frames_accounted (d : antsdr_dma_dev) : Z :=
  valid_frames (stats d) + invalid_frames (stats d) + errors (stats d).

(* What a receiver can check on one datagram [p], the [k]-th handed to the
   socket since the sequence number stood at [seq0], while the gap tracker
   reports [missing]. *)
Definition datagram_ok (seq0 missing : Z) (k : nat) (p : packet) : Prop :=
  hdr.sequence_number (header p) = u32 (seq0 + Z.of_nat k)
  /\ hdr.payload_length (header p) = Z.of_nat (length (packet_payload p))
  /\ 0 < Z.of_nat (length (packet_payload p)) <= ANTSDR_MAX_PAYLOAD_SIZE
  /\ hdr.total_length (header p)
     = ANTSDR_PACKET_HEADER_SIZE + Z.of_nat (length (packet_payload p))
  /\ hdr.checksum (header p) = u32 (crc32 0 (packet_payload p))
  /\ hdr.start_marker (header p) = ANTSDR_PACKET_START_MARKER
  /\ hdr.end_marker (header p) = ANTSDR_PACKET_END_MARKER
  /\ hdr.missing_frame_count (header p) = u32 missing.

(* The two datagrams [p], [q] that carry the 1600-byte payload [payload]
   under frame id [fid]. *)
Definition payload_datagrams (fid : Z) (payload : list byte) (p q : packet) : Prop :=
  packet_payload p = take (Z.to_nat ANTSDR_MAX_PAYLOAD_SIZE) payload
  /\ packet_payload q = drop (Z.to_nat ANTSDR_MAX_PAYLOAD_SIZE) payload
  /\ hdr.frame_id (header p) = u32 fid
  /\ hdr.frame_id (header q) = u32 fid
  /\ hdr.fragment_index (header p) = 0
  /\ hdr.fragment_index (header q) = 1
  /\ hdr.fragment_count (header p) = 2
  /\ hdr.fragment_count (header q) = 2.

(** ** DMA completion and restart *)

(* stats.transfers_completed++; stats.bytes_transferred += transfer_size; *)
Definition count_transfer (transfer_size : Z) (d : antsdr_dma_dev) : antsdr_dma_dev :=
  let s := stats d in
  set_stats
    (mk_stats (ulong (transfers_completed s + 1))
       (ulong (bytes_transferred s + transfer_size)) (udp_packets_sent s)
       (errors s) (valid_frames s) (invalid_frames s) (extracted_frames s))
    d.

(* antsdr_dma_reset_and_restart: the return value and the device. *)
Definition antsdr_dma_reset_and_restart (engine : Z) (c : dma_control)
    : Z * dma_control :=
  if negb (streaming c) then (0, c)
  else
    let d := dma_dev c in
    let r := ring d in
    let d1 :=
      set_ring
        {| ring_buffers := ring_buffers r;
           ring_size := ring_size r;
           ring_head := 0;
           ring_tail := 0;
           ring_count := 0;
           ring_buffer_size := ring_buffer_size r |}
        d in
    let c1 := set_dma_dev (antsdr_frame_buffer_reset d1) c in
    let ret := antsdr_submit_dma_transfer engine c1 in
    if ret =? 0 then (0, c1) else (ret, set_streaming false c1).

(* The part of antsdr_dma_callback between the status check and
   [skip_frame_processing]: the statistics and the copy of the transfer
   into the raw frame FIFO.  [None] when the copy reads through a null
   pointer or beyond the DMA buffer. *)
Definition callback_queue_frame (e : callback_env) (c : dma_control)
    : option antsdr_dma_dev :=
  let transfer_size := antsdr_get_transfer_size (dma_dev c) in
  let d := count_transfer transfer_size (dma_dev c) in
  if dest_set d && (transfer_size <=? MAX_S2MM_TRANSFER_SIZE) then
    if raw_alloc_ok e then
      match antsdr_get_current_buffer c with
      | Some buf =>
          if transfer_size <=? Z.of_nat (length buf) then
            if Z.of_nat (length (raw_frame_fifo d)) <? RAW_FRAME_FIFO_FRAMES then
              Some (set_frame_work_pending true
                      (set_raw_frame_fifo
                         (raw_frame_fifo d ++ [take (Z.to_nat transfer_size) buf]) d))
            else Some (count_error d)
          else None
      | None => None
      end
    else Some (count_error d)
  else Some d.

(* antsdr_dma_callback *)
Definition antsdr_dma_callback (e : callback_env) (c : dma_control)
    : option dma_control :=
  if tx_status_error e then
    Some (snd (antsdr_dma_reset_and_restart (restart_engine e)
                 (set_dma_dev (count_error (dma_dev c)) c)))
  else
    match callback_queue_frame e c with
    | None => None
    | Some d =>
        let c1 := set_dma_dev d c in
        if negb (streaming c1) then Some c1
        else
          let c2 :=
            set_current_buffer ((current_buffer c1 + 1) mod NUM_BUFFERS) c1 in
          if antsdr_submit_dma_transfer (resubmit_engine e) c2 =? 0 then Some c2
          else
            let c3 := set_dma_dev (count_error (dma_dev c2)) c2 in
            if streaming c3 then
              Some (snd (antsdr_dma_reset_and_restart (restart_engine e) c3))
            else Some c3
    end.

(* antsdr_dma_start_streaming: the return value and the device. *)
Definition antsdr_dma_start_streaming (engine : Z) (c : dma_control)
    : Z * dma_control :=
  if streaming c then (- EBUSY, c)
  else
    let c1 :=
      set_streaming true
        (set_dma_dev (set_gap gap_reset (dma_dev c)) (set_current_buffer 0 c)) in
    if rx_chan c1 then
      let ret := antsdr_submit_dma_transfer engine c1 in
      if ret =? 0 then (0, c1) else (ret, set_streaming false c1)
    else (0, c1).

(* A transfer that holds exactly one frame of the current pulse mode: the
   first start marker is its first word and the last end marker its
   [expected_frame_words]-th.  Its payload and its frame counter. *)
Definition whole_frame (d : antsdr_dma_dev) (raw : list byte) : Prop :=
  first_header (words_of raw) 0
  /\ last_footer (words_of raw) (Z.to_nat (expected_frame_words d - 1)).

Definition frame_payload (d : antsdr_dma_dev) (raw : list byte) : list byte :=
  slice raw 4 ((expected_frame_words d - 3) * 4).

Definition frame_counter (d : antsdr_dma_dev) (raw : list byte) : Z :=
  word_at (words_of raw) (expected_frame_words d - 2).

(* What the frame worker stores for the whole frame [raw]: the bytes found
   at the payload's address, byte 4 of the transfer, after the transfer
   was freed with the device in some state [d1]. *)
Definition freed_payload (d : antsdr_dma_dev) (raw stored : list byte) : Prop :=
  exists d1, stored = read_after_kfree d1 raw 4 (length (frame_payload d raw)).

(** * Properties *)

(** ** Payload ring *)

Lemma ring_set_ring r d : ring (set_ring r d) = r.
Proof. reflexivity. Qed.

Lemma memcpy_at_0_length (dst src : list byte) :
  (length src <= length dst)%nat ->
  length (memcpy_at dst 0 src) = length dst.
Proof.
  intros Hle. unfold memcpy_at. simpl.
  rewrite length_app, length_drop. lia.
Qed.

Lemma memcpy_at_0_take (dst src : list byte) :
  take (length src) (memcpy_at dst 0 src) = src.
Proof.
  unfold memcpy_at. simpl. by rewrite take_app_length.
Qed.


(* A put that is refused, for either reason, leaves the device as it is. *)
Lemma ring_put_refused d data :
  fst (antsdr_ring_put d data) <> 0 -> snd (antsdr_ring_put d data) = d.
Proof.
  unfold antsdr_ring_put.
  destruct (ring_buffer_size (ring d) <? Z.of_nat (length data)); [done|].
  destruct (ring_size (ring d) <=? ring_count (ring d)); [done|].
  simpl. congruence.
Qed.

Lemma ring_put_full d data :
  ring_size (ring d) <= ring_count (ring d) ->
  antsdr_ring_put d data = (- EINVAL, d) \/ antsdr_ring_put d data = (- ENOSPC, d).
Proof.
  intros Hfull. unfold antsdr_ring_put.
  destruct (ring_buffer_size (ring d) <? Z.of_nat (length data)); [by left|].
  destruct (Z.leb_spec (ring_size (ring d)) (ring_count (ring d))); [by right|lia].
Qed.

Lemma ring_put_accepted d data :
  Z.of_nat (length data) <= ring_buffer_size (ring d) ->
  ring_count (ring d) < ring_size (ring d) ->
  antsdr_ring_put d data =
    (0, set_ring
          {| ring_buffers :=
               <[Z.to_nat (ring_head (ring d)) :=
                   memcpy_at (ring_slot d (ring_head (ring d))) 0 data]>
                 (ring_buffers (ring d));
             ring_size := ring_size (ring d);
             ring_head := u32 (ring_head (ring d) + 1) mod ring_size (ring d);
             ring_tail := ring_tail (ring d);
             ring_count := u32 (ring_count (ring d) + 1);
             ring_buffer_size := ring_buffer_size (ring d) |}
          d).
Proof.
  intros Hfit Hroom. unfold antsdr_ring_put.
  destruct (Z.ltb_spec (ring_buffer_size (ring d)) (Z.of_nat (length data))); [lia|].
  destruct (Z.leb_spec (ring_size (ring d)) (ring_count (ring d))); [lia|].
  reflexivity.
Qed.

Lemma u32_small x : 0 <= x < 2 ^ 32 -> u32 x = x.
Proof. intros. unfold u32. by apply Z.mod_small. Qed.

(* A 32-bit counter never keeps its value when incremented. *)
Lemma u32_succ_ne x : u32 (x + 1) <> u32 x.
Proof.
  unfold u32. intros Heq.
  assert (Hdiff : (x + 1 - x) mod 2 ^ 32 = 0)
    by (rewrite Zminus_mod, Heq, Z.sub_diag; reflexivity).
  replace (x + 1 - x) with 1 in Hdiff by lia. discriminate.
Qed.

Lemma ring_init_wf mem d : ring_wf (ring (antsdr_ring_init mem d)).
Proof.
  unfold antsdr_ring_init. rewrite ring_set_ring.
  split;
    cbn [ring_size ring_head ring_tail ring_count ring_buffer_size ring_buffers].
  - done.
  - done.
  - rewrite length_map, length_seq. apply Z2Nat.id. done.
  - done.
  - done.
  - done.
  - done.
  - apply Forall_forall. intros slot Hin.
    apply in_map_iff in Hin as (i & <- & _).
    rewrite length_map, length_seq. apply Z2Nat.id. done.
Qed.

Lemma ring_put_wf d data :
  ring_wf (ring d) -> ring_wf (ring (snd (antsdr_ring_put d data))).
Proof.
  intros Hwf.
  destruct (decide (fst (antsdr_ring_put d data) = 0)) as [Hok|Hno];
    [|by rewrite ring_put_refused].
  revert Hok. unfold antsdr_ring_put.
  destruct (Z.ltb_spec (ring_buffer_size (ring d)) (Z.of_nat (length data))); [done|].
  destruct (Z.leb_spec (ring_size (ring d)) (ring_count (ring d))); [done|].
  intros _. destruct Hwf as [Hpos Hu32 Hslots Hhead Htail Hcount Hht Hss].
  assert (Hh : u32 (ring_head (ring d) + 1) = ring_head (ring d) + 1)
    by (apply u32_small; lia).
  assert (Hc : u32 (ring_count (ring d) + 1) = ring_count (ring d) + 1)
    by (apply u32_small; lia).
  split; simpl; rewrite ?Hh, ?Hc; try done; try lia.
  - by rewrite length_insert.
  - apply Z.mod_pos_bound. lia.
  - rewrite Hht.
    rewrite Z.add_assoc.
    by rewrite Zplus_mod_idemp_l.
  - apply Forall_insert; [done|].
    destruct (ring_buffers (ring d) !! Z.to_nat (ring_head (ring d))) as [slot|] eqn:Hslot.
    + simpl. rewrite memcpy_at_0_length.
      * by eapply (Forall_lookup_1 _ _ _ _ Hss Hslot).
      * pose proof (Forall_lookup_1 _ _ _ _ Hss Hslot) as Hlen.
        simpl in Hlen. lia.
    + apply lookup_ge_None in Hslot. lia.
Qed.

Lemma ring_return_buffer_wf d :
  ring_wf (ring d) -> ring_wf (ring (antsdr_ring_return_buffer d)).
Proof.
  intros Hwf. unfold antsdr_ring_return_buffer.
  destruct (Z.ltb_spec 0 (ring_count (ring d))); [|done].
  destruct Hwf as [Hpos Hu32 Hslots Hhead Htail Hcount Hht Hss].
  assert (Hh : u32 (ring_tail (ring d) + 1) = ring_tail (ring d) + 1)
    by (apply u32_small; lia).
  assert (Hc : u32 (ring_count (ring d) - 1) = ring_count (ring d) - 1)
    by (apply u32_small; lia).
  split; simpl; rewrite ?Hh, ?Hc; try done; try lia.
  - apply Z.mod_pos_bound. lia.
  - rewrite Hht, Zplus_mod_idemp_l. f_equal. lia.
Qed.

Lemma ring_apply_wf d op : ring_wf (ring d) -> ring_wf (ring (ring_apply d op)).
Proof. destruct op; simpl; auto using ring_put_wf, ring_return_buffer_wf. Qed.

Lemma ring_apply_buffer_size d op :
  ring_buffer_size (ring (ring_apply d op)) = ring_buffer_size (ring d).
Proof.
  destruct op as [data|]; simpl.
  - unfold antsdr_ring_put.
    destruct (_ <? _); [done|]. by destruct (_ <=? _).
  - unfold antsdr_ring_return_buffer. by destruct (_ <? _).
Qed.

(** X1.  Whatever puts and returns follow antsdr_ring_init, accepted or
    refused, the ring stays well formed: the indices stay inside the ring,
    the count stays between 0 and the ring size, the head is the tail plus
    the count modulo the ring size, and every slot keeps its size. *)
Lemma ring_history_wf mem d0 (ops : list ring_op) :
  ring_wf (ring (foldl ring_apply (antsdr_ring_init mem d0) ops)).
Proof.
  induction ops as [|op ops IH] using rev_ind.
  - apply ring_init_wf.
  - rewrite foldl_app. by apply ring_apply_wf.
Qed.

Lemma ring_history_buffer_size mem d0 (ops : list ring_op) :
  ring_buffer_size (ring (foldl ring_apply (antsdr_ring_init mem d0) ops))
  = RING_BUFFER_SIZE.
Proof.
  induction ops as [|op ops IH] using rev_ind.
  - reflexivity.
  - rewrite foldl_app. cbn [foldl]. by rewrite ring_apply_buffer_size.
Qed.

(** ** Packetizer *)

Lemma slice_app (buf : list byte) (off a b : Z) :
  0 <= off -> 0 <= a -> 0 <= b ->
  slice buf off a ++ slice buf (off + a) b = slice buf off (a + b).
Proof.
  intros Hoff Ha Hb. unfold slice.
  rewrite !Z2Nat.inj_add by lia.
  rewrite <- drop_drop. apply take_take_drop.
Qed.

Lemma slice_length (buf : list byte) (off len : Z) :
  0 <= off -> 0 <= len -> off + len <= Z.of_nat (length buf) ->
  Z.of_nat (length (slice buf off len)) = len.
Proof.
  intros Hoff Hlen Hfit. unfold slice.
  rewrite length_take, length_drop. lia.
Qed.

(* A pass of the [for] loop changes the sequence number and the statistics
   only. *)
Lemma udp_fragment_step_frame d l i o :
  let d' := snd (udp_fragment_step d l i o) in
  ring d' = ring d /\ gap d' = gap d /\ fbuf d' = fbuf d
  /\ sock d' = sock d /\ dest_set d' = dest_set d
  /\ frame_id_counter d' = frame_id_counter d.
Proof.
  unfold udp_fragment_step. simpl.
  destruct (sock d && dest_set d); [|done].
  by destruct (0 <? kernel_sendmsg _).
Qed.

Lemma udp_fragment_step_slot d l i o slot :
  ring_slot (snd (udp_fragment_step d l i o)) slot = ring_slot d slot.
Proof.
  unfold ring_slot. by rewrite (proj1 (udp_fragment_step_frame d l i o)).
Qed.

Lemma udp_fragment_loop_frame n : forall l i o ps d,
  let d' := out_dev (udp_fragment_loop n l i o ps d) in
  ring d' = ring d /\ gap d' = gap d /\ fbuf d' = fbuf d
  /\ sock d' = sock d /\ dest_set d' = dest_set d
  /\ frame_id_counter d' = frame_id_counter d.
Proof.
  clear kfree_leaves.
  induction n as [|n IH]; intros l i o ps d; simpl; [done|].
  pose proof (udp_fragment_step_frame d l i o) as Hstep. simpl in Hstep.
  destruct (udp_fragment_step d l i o) as [[p| |] d1]; simpl in *.
  - specialize (IH l (i + 1) (o + Z.min (payload_len l - o) ANTSDR_MAX_PAYLOAD_SIZE)
                  (ps + 1) d1).
    simpl in IH. intuition congruence.
  - specialize (IH l (i + 1) (o + Z.min (payload_len l - o) ANTSDR_MAX_PAYLOAD_SIZE)
                  ps d1).
    simpl in IH. intuition congruence.
  - done.
Qed.

(* Every datagram of a slot announces the logical payload length. *)
Lemma udp_fragment_loop_payload_total n : forall l i o ps d p,
  p ∈ out_sent (udp_fragment_loop n l i o ps d) ->
  hdr.frame_payload_total (header p) = u32 (payload_len l).
Proof.
  induction n as [|n IH]; intros l i o ps d p; simpl.
  - by intros ?%elem_of_nil.
  - unfold udp_fragment_step.
    destruct (sock _ && dest_set _); simpl.
    + destruct (0 <? kernel_sendmsg _); simpl.
      * intros [->|Hin]%elem_of_cons; [done|]. by eapply IH.
      * by intros ?%elem_of_nil.
    + by apply IH.
Qed.

(** Arithmetic of the fragment count. *)

Lemma fragments_left_0 len o : fragments_left len o <= 0 -> len <= o.
Proof.
  unfold fragments_left, ANTSDR_MAX_PAYLOAD_SIZE. intros H.
  destruct (Z_lt_le_dec o len) as [Hlt|]; [|done].
  assert (1 <= (len - o + 1360 - 1) / 1360); [|lia].
  apply Z.div_le_lower_bound; lia.
Qed.

Lemma fragments_left_pos len o : 0 < fragments_left len o -> o < len.
Proof.
  unfold fragments_left, ANTSDR_MAX_PAYLOAD_SIZE. intros H.
  destruct (Z_lt_le_dec o len) as [|Hge]; [done|].
  assert ((len - o + 1360 - 1) / 1360 < 1); [|lia].
  apply Z.div_lt_upper_bound; lia.
Qed.

Lemma fragments_left_step len o :
  o < len ->
  fragments_left len (o + Z.min (len - o) ANTSDR_MAX_PAYLOAD_SIZE)
  = fragments_left len o - 1.
Proof.
  unfold fragments_left, ANTSDR_MAX_PAYLOAD_SIZE. intros Hlt.
  destruct (Z_lt_le_dec (len - o) 1360) as [Hshort|Hfull].
  - rewrite Z.min_l by lia.
    replace (len - (o + (len - o)) + 1360 - 1) with 1359 by lia.
    replace ((len - o + 1360 - 1) / 1360) with 1; [done|].
    apply Z.div_unique with (r := len - o - 1); lia.
  - rewrite Z.min_r by lia.
    replace (len - o + 1360 - 1) with ((len - (o + 1360) + 1360 - 1) + 1 * 1360) by lia.
    rewrite Z.div_add by lia. lia.
Qed.

Lemma fragments_left_more len o :
  0 < fragments_left len (o + Z.min (len - o) ANTSDR_MAX_PAYLOAD_SIZE) ->
  Z.min (len - o) ANTSDR_MAX_PAYLOAD_SIZE = ANTSDR_MAX_PAYLOAD_SIZE.
Proof.
  intros Hmore.
  destruct (Z_lt_le_dec (len - o) ANTSDR_MAX_PAYLOAD_SIZE) as [Hshort|Hfull]; [|lia].
  exfalso. rewrite Z.min_l in Hmore by lia.
  assert (len <= o + (len - o)) by lia.
  unfold fragments_left, ANTSDR_MAX_PAYLOAD_SIZE in *.
  replace (len - (o + (len - o)) + 1360 - 1) with 1359 in Hmore by lia.
  change (1359 / 1360) with 0 in Hmore. lia.
Qed.

(** When a socket and a destination are there and every send succeeds, the
    fragments of a slot are all sent. *)

Section AllSent.

Hypothesis send_ok : forall p, 0 < kernel_sendmsg p.

Lemma udp_fragment_step_sent d l i o :
  sock d = true -> dest_set d = true ->
  fst (udp_fragment_step d l i o) = FragmentSent (udp_fragment d l i o).
Proof.
  intros Hsock Hdest. unfold udp_fragment_step. simpl.
  rewrite Hsock, Hdest. simpl.
  destruct (Z.ltb_spec 0 (kernel_sendmsg (udp_fragment d l i o))); [done|].
  specialize (send_ok (udp_fragment d l i o)). lia.
Qed.

Lemma udp_fragment_loop_sent n : forall l i o ps d,
  sock d = true -> dest_set d = true ->
  let r := udp_fragment_loop n l i o ps d in
  out_aborted r = false /\ length (out_sent r) = n
  /\ out_packets_sent r = ps + Z.of_nat n.
Proof.
  clear kfree_leaves.
  induction n as [|n IH]; intros l i o ps d Hsock Hdest; simpl.
  - split_and!; [done..|lia].
  - pose proof (udp_fragment_step_sent d l i o Hsock Hdest) as Hsent.
    pose proof (udp_fragment_step_frame d l i o) as Hframe. simpl in Hframe.
    destruct (udp_fragment_step d l i o) as [res d1]. simpl in *. subst res.
    destruct (IH l (i + 1) (o + Z.min (payload_len l - o) ANTSDR_MAX_PAYLOAD_SIZE)
                (ps + 1) d1) as (Hab & Hlen & Hps).
    + intuition congruence.
    + intuition congruence.
    + simpl. split_and!; [done|by rewrite Hlen|lia].
Qed.

(* The [k]-th datagram of the loop entered at index [i] and offset [o]. *)
Lemma udp_fragment_loop_lookup n : forall l i o ps d k p,
  sock d = true -> dest_set d = true ->
  0 <= o ->
  Z.of_nat n = fragments_left (payload_len l) o ->
  out_sent (udp_fragment_loop n l i o ps d) !! k = Some p ->
  let off := o + Z.of_nat k * ANTSDR_MAX_PAYLOAD_SIZE in
  let size := Z.min (payload_len l - off) ANTSDR_MAX_PAYLOAD_SIZE in
  off < payload_len l
  /\ packet_payload p = slice (ring_slot d (ring_data l)) off size
  /\ hdr.frame_id (header p) = u32 (current_frame_id l)
  /\ hdr.fragment_offset (header p) = u32 off
  /\ hdr.fragment_index (header p) = u32 (i + Z.of_nat k)
  /\ hdr.fragment_count (header p) = u32 (fragments_needed l)
  /\ hdr.payload_length (header p) = u32 size
  /\ hdr.frame_payload_total (header p) = u32 (payload_len l).
Proof.
  clear kfree_leaves.
  induction n as [|n IH]; intros l i o ps d k p Hsock Hdest Ho Hn; simpl; [done|].
  assert (Hlt : o < payload_len l) by (apply fragments_left_pos; lia).
  pose proof (udp_fragment_step_sent d l i o Hsock Hdest) as Hsent.
  pose proof (udp_fragment_step_frame d l i o) as Hframe. simpl in Hframe.
  pose proof (udp_fragment_step_slot d l i o (ring_data l)) as Hslot.
  destruct (udp_fragment_step d l i o) as [res d1]. simpl in *. subst res.
  destruct k as [|k]; simpl.
  - intros [= <-]. rewrite !Z.add_0_r. simpl. done.
  - intros Hk.
    assert (Hnext : Z.of_nat n
                    = fragments_left (payload_len l)
                        (o + Z.min (payload_len l - o) ANTSDR_MAX_PAYLOAD_SIZE)).
    { rewrite fragments_left_step by done. lia. }
    assert (Hfull : Z.min (payload_len l - o) ANTSDR_MAX_PAYLOAD_SIZE
                    = ANTSDR_MAX_PAYLOAD_SIZE).
    { apply fragments_left_more. rewrite <- Hnext.
      apply lookup_lt_Some in Hk.
      destruct n; [|lia]. simpl in Hk. lia. }
    eapply IH in Hk; [|intuition congruence..|unfold ANTSDR_MAX_PAYLOAD_SIZE; lia|done].
    rewrite Hfull, Hslot in Hk.
    replace (o + ANTSDR_MAX_PAYLOAD_SIZE + Z.of_nat k * ANTSDR_MAX_PAYLOAD_SIZE)
      with (o + Z.of_nat (S k) * ANTSDR_MAX_PAYLOAD_SIZE) in Hk by lia.
    replace (i + 1 + Z.of_nat k) with (i + Z.of_nat (S k)) in Hk by lia.
    exact Hk.
Qed.

(* The bytes of the datagrams, in the order sent, are the rest of the
   logical payload. *)
Lemma udp_fragment_loop_concat n : forall l i o ps d,
  sock d = true -> dest_set d = true ->
  0 <= o ->
  Z.of_nat n = fragments_left (payload_len l) o ->
  concat (map packet_payload (out_sent (udp_fragment_loop n l i o ps d)))
  = slice (ring_slot d (ring_data l)) o (payload_len l - o).
Proof.
  clear kfree_leaves.
  induction n as [|n IH]; intros l i o ps d Hsock Hdest Ho Hn; simpl.
  - assert (payload_len l <= o) by (apply fragments_left_0; lia).
    unfold slice. by replace (Z.to_nat (payload_len l - o)) with 0%nat by lia.
  - assert (Hlt : o < payload_len l) by (apply fragments_left_pos; lia).
    pose proof (udp_fragment_step_sent d l i o Hsock Hdest) as Hsent.
    pose proof (udp_fragment_step_frame d l i o) as Hframe. simpl in Hframe.
    pose proof (udp_fragment_step_slot d l i o (ring_data l)) as Hslot.
    destruct (udp_fragment_step d l i o) as [res d1]. simpl in *. subst res.
    simpl. rewrite IH; [|intuition congruence..|unfold ANTSDR_MAX_PAYLOAD_SIZE; lia|].
    + rewrite Hslot.
      set (size := Z.min (payload_len l - o) ANTSDR_MAX_PAYLOAD_SIZE).
      replace (payload_len l - (o + size)) with (payload_len l - o - size) by lia.
      rewrite slice_app; [f_equal; lia|lia| |].
      * unfold size, ANTSDR_MAX_PAYLOAD_SIZE. lia.
      * unfold size, ANTSDR_MAX_PAYLOAD_SIZE. lia.
    + rewrite fragments_left_step by done. lia.
Qed.

End AllSent.


Lemma ring_return_buffer_buffers d :
  ring_buffers (ring (antsdr_ring_return_buffer d)) = ring_buffers (ring d).
Proof. unfold antsdr_ring_return_buffer. by destruct (0 <? _). Qed.

Lemma udp_take_slot_frame d slot size :
  let '(l, d') := udp_take_slot d slot size in
  ring_data l = slot /\ payload_len l = size
  /\ current_frame_id l = frame_id_counter d
  /\ fragments_needed l = fragments_left size 0
  /\ ring d' = ring (antsdr_ring_return_buffer d)
  /\ frame_id_counter d' = u32 (frame_id_counter d + 1)
  /\ sock d' = sock d /\ dest_set d' = dest_set d /\ gap d' = gap d.
Proof.
  unfold udp_take_slot, fragments_left. simpl.
  rewrite Z.sub_0_r.
  unfold antsdr_ring_return_buffer. by destruct (0 <? _).
Qed.

(* Every datagram antsdr_udp_work sends announces the slot size as the
   logical payload length. *)
Lemma udp_work_loop_payload_total fuel : forall ps d p,
  ring_buffer_size (ring d) = RING_BUFFER_SIZE ->
  p ∈ snd (udp_work_loop fuel ps d) ->
  hdr.frame_payload_total (header p) = RING_BUFFER_SIZE.
Proof.
  induction fuel as [|fuel IH]; intros ps d p Hsize; simpl.
  - by intros ?%elem_of_nil.
  - destruct (ps <? 200); [|by intros ?%elem_of_nil].
    unfold antsdr_ring_get.
    destruct (ring_count (ring d) =? 0); [by intros ?%elem_of_nil|].
    rewrite Hsize. unfold udp_work_slot.
    pose proof (udp_take_slot_frame d (ring_tail (ring d)) RING_BUFFER_SIZE) as Htake.
    destruct (udp_take_slot d (ring_tail (ring d)) RING_BUFFER_SIZE) as [l d1].
    destruct Htake as (_ & Hlen & _ & _ & Hring & _).
    pose proof (udp_fragment_loop_frame (Z.to_nat (fragments_needed l)) l 0 0 ps d1)
      as (Hring' & _).
    pose proof (udp_fragment_loop_payload_total
                  (Z.to_nat (fragments_needed l)) l 0 0 ps d1) as Htotal.
    destruct (udp_fragment_loop (Z.to_nat (fragments_needed l)) l 0 0 ps d1)
      as [d2 sent ps' aborted]; simpl in *.
    assert (Hsent : forall q, q ∈ sent ->
                      hdr.frame_payload_total (header q) = RING_BUFFER_SIZE).
    { intros q Hq. rewrite (Htotal q Hq), Hlen. reflexivity. }
    destruct aborted; simpl; [by apply Hsent|].
    specialize (IH ps' d2 p).
    destruct (udp_work_loop fuel ps' d2) as [d3 more]; simpl in *.
    intros [Hin|Hin]%elem_of_app; [by apply Hsent|].
    apply IH; [|done].
    rewrite Hring', Hring.
    by rewrite <- Hsize, <- (ring_apply_buffer_size d RingReturn).
Qed.

(** ** The claims on the ring and the packetizer *)

(* A put touches the ring fields only. *)
Lemma ring_put_frame d data :
  let d' := snd (antsdr_ring_put d data) in
  stats d' = stats d /\ gap d' = gap d /\ fbuf d' = fbuf d
  /\ pulse_mode d' = pulse_mode d
  /\ ring_buffer_size (ring d') = ring_buffer_size (ring d).
Proof.
  unfold antsdr_ring_put.
  destruct (_ <? _); [done|]. by destruct (_ <=? _).
Qed.

(* An accepted put: where the data goes and what else changes. *)
Lemma ring_put_stored d data :
  ring_wf (ring d) ->
  ring_count (ring d) < ring_size (ring d) ->
  Z.of_nat (length data) <= ring_buffer_size (ring d) ->
  let d' := snd (antsdr_ring_put d data) in
  fst (antsdr_ring_put d data) = 0
  /\ ring_count (ring d') = ring_count (ring d) + 1
  /\ take (length data) (ring_slot d' (ring_head (ring d))) = data
  /\ (forall slot, 0 <= slot -> slot <> ring_head (ring d) ->
        ring_slot d' slot = ring_slot d slot)
  /\ ring_tail (ring d') = ring_tail (ring d)
  /\ ring_head (ring d') = (ring_head (ring d) + 1) mod ring_size (ring d).
Proof.
  intros [Hpos Hu32 Hslots Hhead Htail Hcount Hht Hss] Hroom Hfit.
  rewrite ring_put_accepted by done.
  cbn [fst snd]. unfold ring_slot at 1 2. rewrite !ring_set_ring.
  cbn [ring_count ring_buffers ring_tail ring_head].
  rewrite !u32_small by lia.
  split_and!; try done.
  - rewrite list_lookup_insert_eq by lia. simpl. apply memcpy_at_0_take.
  - intros slot Hslot Hne. unfold ring_slot.
    rewrite ring_set_ring. cbn [ring_buffers].
    rewrite list_lookup_insert_ne; [done|lia].
Qed.

(** C10.  Whatever was put into an initialised ring, and however many bytes
    each put stored, antsdr_ring_get on a non-empty ring reports the slot at
    the tail with size [RING_BUFFER_SIZE] = 1600; the packetizer takes that
    as the payload length of the slot, and every datagram antsdr_udp_work
    sends announces 1600 as the total payload of its frame. *)
Theorem ring_get_reports_slot_capacity mem d0 (ops : list ring_op) :
  let d := foldl ring_apply (antsdr_ring_init mem d0) ops in
  ring_count (ring d) <> 0 ->
  antsdr_ring_get d = (0, Some (ring_tail (ring d), RING_BUFFER_SIZE))
  /\ RING_BUFFER_SIZE = 1600
  /\ payload_len (fst (udp_take_slot d (ring_tail (ring d)) RING_BUFFER_SIZE))
     = RING_BUFFER_SIZE
  /\ forall kmalloc_ok p,
       p ∈ snd (antsdr_udp_work kmalloc_ok d) ->
       hdr.frame_payload_total (header p) = RING_BUFFER_SIZE.
Proof.
  intros d Hne.
  pose proof (ring_history_buffer_size mem d0 ops) as Hsize. fold d in Hsize.
  split_and!.
  - unfold antsdr_ring_get.
    destruct (Z.eqb_spec (ring_count (ring d)) 0); [done|]. by rewrite Hsize.
  - reflexivity.
  - reflexivity.
  - intros kmalloc_ok p. unfold antsdr_udp_work.
    destruct kmalloc_ok; [|by intros ?%elem_of_nil].
    pose proof (udp_work_loop_payload_total
                  (S (Z.to_nat (ring_count (ring d)))) 0 d p Hsize) as Hloop.
    destruct (udp_work_loop (S (Z.to_nat (ring_count (ring d)))) 0 d) as [d1 sent].
    exact Hloop.
Qed.

(* The datagrams of one slot, for any size the packetizer is told: while a
   socket and a destination are set and every kernel_sendmsg succeeds,
   ceil([ring_size] / 1360) datagrams go out under one frame id, the
   [k]-th with fragment index [k], offset [k * 1360] and payload length
   min([ring_size] - offset, 1360), and their payloads concatenate to the
   first [ring_size] bytes of the slot. *)
Lemma udp_work_slot_fragments d slot ring_size packets_sent :
  sock d = true -> dest_set d = true ->
  (forall p, 0 < kernel_sendmsg p) ->
  0 <= ring_size < 2 ^ 32 ->
  ring_size <= Z.of_nat (length (ring_slot d slot)) ->
  let r := udp_work_slot d slot ring_size packets_sent in
  let n := (ring_size + ANTSDR_MAX_PAYLOAD_SIZE - 1) / ANTSDR_MAX_PAYLOAD_SIZE in
  out_aborted r = false
  /\ Z.of_nat (length (out_sent r)) = n
  /\ frame_id_counter (out_dev r) = u32 (frame_id_counter d + 1)
  /\ u32 (frame_id_counter d + 1) <> u32 (frame_id_counter d)
  /\ (forall k p, out_sent r !! k = Some p ->
        let off := Z.of_nat k * ANTSDR_MAX_PAYLOAD_SIZE in
        let size := Z.min (ring_size - off) ANTSDR_MAX_PAYLOAD_SIZE in
        hdr.frame_id (header p) = u32 (frame_id_counter d)
        /\ hdr.fragment_index (header p) = Z.of_nat k
        /\ hdr.fragment_count (header p) = n
        /\ hdr.fragment_offset (header p) = off
        /\ hdr.payload_length (header p) = size
        /\ hdr.frame_payload_total (header p) = ring_size
        /\ packet_payload p = slice (ring_slot d slot) off size
        /\ Z.of_nat (length (packet_payload p)) = size)
  /\ concat (map packet_payload (out_sent r))
     = take (Z.to_nat ring_size) (ring_slot d slot)
  /\ (ring_size = 3 * ANTSDR_MAX_PAYLOAD_SIZE - 10 ->
      length (out_sent r) = 3%nat
      /\ forall p, p ∈ out_sent r -> hdr.fragment_count (header p) = 3).
Proof.
  clear kfree_leaves.
  intros Hsock Hdest Hsend Hrange Hslot r n.
  assert (Hn : 0 <= n < 2 ^ 32).
  { unfold n, ANTSDR_MAX_PAYLOAD_SIZE. split.
    - apply Z.div_pos; lia.
    - apply Z.div_lt_upper_bound; lia. }
  unfold udp_work_slot in r.
  pose proof (udp_take_slot_frame d slot ring_size) as Htake.
  destruct (udp_take_slot d slot ring_size) as [l d1].
  destruct Htake as (Hdata & Hlen & Hid & Hneeded & Hring & Hctr & Hsock1 & Hdest1 & _).
  assert (Hleft : fragments_left ring_size 0 = n).
  { unfold fragments_left, n. f_equal. lia. }
  rewrite Hleft in Hneeded.
  assert (Hslot1 : ring_slot d1 slot = ring_slot d slot).
  { unfold ring_slot. by rewrite Hring, ring_return_buffer_buffers. }
  assert (Hs1 : sock d1 = true) by congruence.
  assert (Hd1 : dest_set d1 = true) by congruence.
  assert (Hfuel : Z.of_nat (Z.to_nat (fragments_needed l))
                  = fragments_left (payload_len l) 0).
  { rewrite Hlen, Hleft, Hneeded. lia. }
  pose proof (udp_fragment_loop_sent Hsend (Z.to_nat (fragments_needed l))
                l 0 0 packets_sent d1 Hs1 Hd1) as (Hab & Hcount & _).
  pose proof (udp_fragment_loop_frame (Z.to_nat (fragments_needed l))
                l 0 0 packets_sent d1) as (_ & _ & _ & _ & _ & Hctr').
  pose proof (fun k p =>
                udp_fragment_loop_lookup Hsend (Z.to_nat (fragments_needed l))
                  l 0 0 packets_sent d1 k p Hs1 Hd1 (Z.le_refl 0) Hfuel) as Hlookup.
  pose proof (udp_fragment_loop_concat Hsend (Z.to_nat (fragments_needed l))
                l 0 0 packets_sent d1 Hs1 Hd1 (Z.le_refl 0) Hfuel) as Hconcat.
  fold r in Hab, Hcount, Hctr', Hlookup, Hconcat.
  assert (Hall : forall k p, out_sent r !! k = Some p ->
            let off := Z.of_nat k * ANTSDR_MAX_PAYLOAD_SIZE in
            let size := Z.min (ring_size - off) ANTSDR_MAX_PAYLOAD_SIZE in
            hdr.frame_id (header p) = u32 (frame_id_counter d)
            /\ hdr.fragment_index (header p) = Z.of_nat k
            /\ hdr.fragment_count (header p) = n
            /\ hdr.fragment_offset (header p) = off
            /\ hdr.payload_length (header p) = size
            /\ hdr.frame_payload_total (header p) = ring_size
            /\ packet_payload p = slice (ring_slot d slot) off size
            /\ Z.of_nat (length (packet_payload p)) = size).
  { intros k p Hk off size.
    pose proof (lookup_lt_Some _ _ _ Hk) as Hklt. rewrite Hcount in Hklt.
    destruct (Hlookup k p Hk) as (Hoff & Hbytes & Hfid & Hfoff & Hfidx & Hfcnt & Hplen & Htot).
    rewrite Hlen, Hdata, Hslot1, Z.add_0_l in *.
    fold off in Hoff, Hbytes, Hfoff, Hplen. fold size in Hbytes, Hplen.
    assert (0 <= off) by (unfold off, ANTSDR_MAX_PAYLOAD_SIZE; lia).
    assert (0 < size <= ANTSDR_MAX_PAYLOAD_SIZE)
      by (unfold size, ANTSDR_MAX_PAYLOAD_SIZE; lia).
    assert (off + size <= ring_size) by (unfold size; lia).
    unfold ANTSDR_MAX_PAYLOAD_SIZE in *.
    split_and!.
    - by rewrite Hfid, Hid.
    - rewrite Hfidx. apply u32_small. lia.
    - rewrite Hfcnt, Hneeded. by apply u32_small.
    - rewrite Hfoff. apply u32_small. lia.
    - rewrite Hplen. apply u32_small. lia.
    - rewrite Htot. by apply u32_small.
    - done.
    - rewrite Hbytes. apply slice_length; lia. }
  split_and!.
  - done.
  - rewrite Hcount, Hneeded. lia.
  - by rewrite Hctr'.
  - apply u32_succ_ne.
  - exact Hall.
  - rewrite Hconcat, Hlen, Hdata, Hslot1, Z.sub_0_r. reflexivity.
  - intros ->. split.
    + rewrite Hcount, Hneeded. reflexivity.
    + intros p [k Hk]%list_elem_of_lookup.
      by destruct (Hall k p Hk) as (_ & _ & -> & _).
Qed.

(** ** Marker scan *)

Lemma words_of_length (data : list byte) :
  (4 * length (words_of data) <= length data)%nat.
Proof.
  remember (length data) as n eqn:Hn. revert data Hn.
  induction n as [n IH] using lt_wf_ind. intros data ->.
  destruct data as [|b0 [|b1 [|b2 [|b3 rest]]]]; simpl; try lia.
  specialize (IH (length rest) ltac:(simpl; lia) rest eq_refl). lia.
Qed.

Lemma scan_markers_header_kept ws : forall i header_pos footer_pos,
  header_pos <> -1 ->
  fst (scan_markers ws i header_pos footer_pos) = header_pos.
Proof.
  induction ws as [|w ws IH]; intros i hp fp Hhp; simpl; [done|].
  destruct (Z.eqb_spec hp (-1)); [done|].
  rewrite andb_false_r. by apply IH.
Qed.

Lemma scan_markers_no_header ws : forall i footer_pos,
  (forall j w, ws !! j = Some w -> is_header w = false) ->
  fst (scan_markers ws i (-1) footer_pos) = -1.
Proof.
  induction ws as [|w ws IH]; intros i fp Hnone; simpl; [done|].
  rewrite (Hnone 0%nat w eq_refl). simpl.
  apply IH. intros j w' Hj. by apply (Hnone (S j)).
Qed.

Lemma scan_markers_first_header ws : forall h i footer_pos,
  0 <= i ->
  first_header ws h ->
  fst (scan_markers ws i (-1) footer_pos) = i + Z.of_nat h.
Proof.
  induction ws as [|w ws IH]; intros h i fp Hi [(w0 & Hw0 & Hhdr) Hbefore].
  - by rewrite lookup_nil in Hw0.
  - simpl. destruct h as [|h].
    + simpl in Hw0. injection Hw0 as ->. rewrite Hhdr. simpl.
      rewrite scan_markers_header_kept by lia. lia.
    + rewrite (Hbefore 0%nat w ltac:(lia) eq_refl). simpl.
      rewrite (IH h); [lia|lia|].
      split; [by exists w0|].
      intros j w' Hj Hw'. apply (Hbefore (S j)); [lia|done].
Qed.

Lemma scan_markers_no_footer ws : forall i header_pos footer_pos,
  (forall j w, ws !! j = Some w -> w <> FPGA_FOOTER_MARKER) ->
  snd (scan_markers ws i header_pos footer_pos) = footer_pos.
Proof.
  induction ws as [|w ws IH]; intros i hp fp Hnone; simpl; [done|].
  destruct (Z.eqb_spec w FPGA_FOOTER_MARKER) as [Heq|_].
  - by destruct (Hnone 0%nat w eq_refl).
  - apply IH. intros j w' Hj. by apply (Hnone (S j)).
Qed.

Lemma scan_markers_last_footer ws : forall f i header_pos footer_pos,
  last_footer ws f ->
  snd (scan_markers ws i header_pos footer_pos) = i + Z.of_nat f.
Proof.
  induction ws as [|w ws IH]; intros f i hp fp [Hf Hafter].
  - by rewrite lookup_nil in Hf.
  - simpl. destruct f as [|f].
    + simpl in Hf. injection Hf as ->. simpl.
      rewrite scan_markers_no_footer; [lia|].
      intros j w' Hj. apply (Hafter (S j)); [lia|done].
    + rewrite (IH f); [lia|].
      split; [done|].
      intros j w' Hj Hw'. apply (Hafter (S j)); [lia|done].
Qed.

Lemma scan_markers_found ws h f :
  first_header ws h -> last_footer ws f ->
  scan_markers ws 0 (-1) (-1) = (Z.of_nat h, Z.of_nat f).
Proof.
  intros Hh Hf.
  rewrite (surjective_pairing (scan_markers ws 0 (-1) (-1))).
  by rewrite (scan_markers_first_header ws h), (scan_markers_last_footer ws f).
Qed.

(* The scan finds the first start marker whenever there is one. *)
Lemma scan_markers_header_cases ws : forall i footer_pos,
  (fst (scan_markers ws i (-1) footer_pos) = -1
   /\ forall j w, ws !! j = Some w -> is_header w = false)
  \/ exists h, first_header ws h.
Proof.
  induction ws as [|w ws IH]; intros i fp.
  - left. split; [done|]. intros j w Hj. by rewrite lookup_nil in Hj.
  - destruct (is_header w) eqn:Hw.
    + right. exists 0%nat. split; [by exists w|]. intros j w' Hj. lia.
    + cbn [scan_markers]. rewrite Hw. cbn [andb].
      destruct (IH (i + 1) (if w =? FPGA_FOOTER_MARKER then i else fp))
        as [[Hnone Hall]|[h [(w0 & Hw0 & Hhdr) Hbefore]]].
      * left. split; [exact Hnone|].
        intros [|j] w' Hj; cbn in Hj; [by injection Hj as <-|by eapply Hall].
      * right. exists (S h). split; [by exists w0|].
        intros [|j] w' Hj Hw'; cbn in Hw'; [by injection Hw' as <-|].
        apply (Hbefore j); [lia|done].
Qed.

(* The scan finds the last end marker whenever there is one. *)
Lemma scan_markers_footer_cases ws : forall i header_pos footer_pos,
  (snd (scan_markers ws i header_pos footer_pos) = footer_pos
   /\ forall j w, ws !! j = Some w -> w <> FPGA_FOOTER_MARKER)
  \/ exists f, last_footer ws f.
Proof.
  induction ws as [|w ws IH]; intros i hp fp.
  - left. split; [done|]. intros j w Hj. by rewrite lookup_nil in Hj.
  - cbn [scan_markers].
    destruct (IH (i + 1) (if is_header w && (hp =? -1) then i else hp)
                (if w =? FPGA_FOOTER_MARKER then i else fp))
      as [[Hsame Hall]|[f [Hf Hafter]]].
    + destruct (Z.eqb_spec w FPGA_FOOTER_MARKER) as [->|Hne].
      * right. exists 0%nat. split; [done|].
        intros [|j] w' Hj Hw'; [lia|]. cbn in Hw'. by eapply Hall.
      * left. split; [exact Hsame|].
        intros [|j] w' Hj; cbn in Hj; [by injection Hj as <-|by eapply Hall].
    + right. exists (S f). split; [done|].
      intros [|j] w' Hj Hw'; [lia|]. cbn in Hw'. apply (Hafter j); [lia|done].
Qed.

(** ** Frame extractor *)

Lemma expected_frame_words_cases d :
  expected_frame_words d = FPGA_SHORT_PULSE_WORDS
  \/ expected_frame_words d = FPGA_LONG_PULSE_WORDS.
Proof. unfold expected_frame_words. destruct (pulse_mode d =? 0); auto. Qed.

(* Both pulse modes are decoded the same way by the parser and by the
   reprocessing pass. *)
Lemma expected_frame_words_process d :
  expected_frame_words d
  = if pulse_mode d =? 0 then FPGA_SHORT_PULSE_WORDS else FPGA_LONG_PULSE_WORDS.
Proof. unfold expected_frame_words. by destruct (pulse_mode d =? 0). Qed.

(* The parser on a transfer whose first start marker and last end marker
   span the expected number of words. *)
Lemma parse_valid d data h f :
  first_header (words_of data) h ->
  last_footer (words_of data) f ->
  Z.of_nat f - Z.of_nat h + 1 = expected_frame_words d ->
  antsdr_parse_fpga_frame d data
  = (FrameValid (slice data ((Z.of_nat h + 1) * 4) ((expected_frame_words d - 3) * 4)),
     set_gap (gap_track (gap d) (word_at (words_of data) (Z.of_nat f - 1)))
       (set_total_frames_processed (u32 (total_frames_processed d + 1)) d)).
Proof.
  intros Hh Hf Hspan. unfold antsdr_parse_fpga_frame.
  rewrite (scan_markers_found _ h f Hh Hf).
  set (d1 := set_total_frames_processed _ d).
  change (expected_frame_words d1) with (expected_frame_words d).
  destruct (Z.eqb_spec (Z.of_nat h) (-1)); [lia|].
  destruct (Z.eqb_spec (Z.of_nat f) (-1)); [lia|].
  cbn [negb andb].
  destruct (Z.eqb_spec (Z.of_nat f - Z.of_nat h + 1) (expected_frame_words d)); [|lia].
  pose proof (expected_frame_words_cases d) as Hcases.
  unfold FPGA_SHORT_PULSE_WORDS, FPGA_LONG_PULSE_WORDS in Hcases.
  destruct (Z.ltb_spec (Z.of_nat h + 1) (Z.of_nat f)); [|lia].
  destruct (Z.leb_spec 3 (Z.of_nat f - Z.of_nat h + 1)); [|lia].
  by rewrite Hspan.
Qed.

(* The parser on a transfer whose markers span another number of words. *)
Lemma parse_length_mismatch d data h f :
  first_header (words_of data) h ->
  last_footer (words_of data) f ->
  Z.of_nat f - Z.of_nat h + 1 <> expected_frame_words d ->
  antsdr_parse_fpga_frame d data
  = (FrameLengthMismatch,
     set_total_frames_processed (u32 (total_frames_processed d + 1)) d).
Proof.
  intros Hh Hf Hspan. unfold antsdr_parse_fpga_frame.
  rewrite (scan_markers_found _ h f Hh Hf).
  set (d1 := set_total_frames_processed _ d).
  change (expected_frame_words d1) with (expected_frame_words d).
  destruct (Z.eqb_spec (Z.of_nat h) (-1)); [lia|].
  destruct (Z.eqb_spec (Z.of_nat f) (-1)); [lia|].
  cbn [negb andb].
  by destruct (Z.eqb_spec (Z.of_nat f - Z.of_nat h + 1) (expected_frame_words d)).
Qed.

(* The payload of a valid frame lies inside the transfer. *)
Lemma valid_payload_length d data h f :
  last_footer (words_of data) f ->
  Z.of_nat f - Z.of_nat h + 1 = expected_frame_words d ->
  Z.of_nat (length (slice data ((Z.of_nat h + 1) * 4)
                      ((expected_frame_words d - 3) * 4)))
  = (expected_frame_words d - 3) * 4.
Proof.
  intros [Hf _] Hspan.
  apply lookup_lt_Some in Hf.
  pose proof (words_of_length data).
  pose proof (expected_frame_words_cases d) as Hcases.
  unfold FPGA_SHORT_PULSE_WORDS, FPGA_LONG_PULSE_WORDS in Hcases.
  apply slice_length; lia.
Qed.

Lemma read_after_kfree_length d raw off len :
  length (read_after_kfree d raw off len) = len.
Proof. unfold read_after_kfree. by rewrite length_map, length_seq. Qed.

(* When the allocator leaves the block alone the read finds the bytes of
   the transfer. *)
Lemma read_after_kfree_keeps d raw off len :
  kfree_keeps raw ->
  (off + len <= length raw)%nat ->
  read_after_kfree d raw off len = take len (drop off raw).
Proof.
  intros Hkeeps Hlen. apply list_eq. intros k. unfold read_after_kfree.
  rewrite list_lookup_fmap.
  destruct (decide (k < len)%nat) as [Hk|Hk].
  - rewrite lookup_seq_lt by done. cbn [fmap option_fmap option_map].
    rewrite lookup_take_lt by done. rewrite lookup_drop.
    destruct (raw !! (off + k)%nat) as [b|] eqn:Hb.
    + by rewrite (Hkeeps d _ _ Hb).
    + apply lookup_ge_None_1 in Hb. lia.
  - rewrite lookup_seq_ge by lia. cbn [fmap option_fmap option_map].
    symmetry. apply lookup_ge_None_2. rewrite length_take. lia.
Qed.

Lemma payload_offset_found data h f :
  first_header (words_of data) h ->
  last_footer (words_of data) f ->
  payload_offset data = Z.to_nat ((Z.of_nat h + 1) * 4).
Proof.
  intros Hh Hf. unfold payload_offset.
  by rewrite (scan_markers_found _ h f Hh Hf).
Qed.

Lemma frame_work_frame_valid d data payload d1 :
  antsdr_parse_fpga_frame d data = (FrameValid payload, d1) ->
  let freed := read_after_kfree d1 data (payload_offset data) (length payload) in
  frame_work_frame d data
  = Some (if fst (antsdr_ring_put d1 freed) =? 0
          then count_valid_frame (set_udp_work_pending true (snd (antsdr_ring_put d1 freed)))
          else count_error (snd (antsdr_ring_put d1 freed))).
Proof.
  intros Hparse freed. unfold frame_work_frame. rewrite Hparse. fold freed.
  destruct (antsdr_ring_put d1 freed) as [ret d2]. simpl.
  by destruct (ret =? 0).
Qed.

(* The valid payload read back after the free, when the allocator left
   the transfer alone. *)
Lemma valid_payload_kept d d1 data h f :
  first_header (words_of data) h ->
  last_footer (words_of data) f ->
  Z.of_nat f - Z.of_nat h + 1 = expected_frame_words d ->
  kfree_keeps data ->
  let payload :=
    slice data ((Z.of_nat h + 1) * 4) ((expected_frame_words d - 3) * 4) in
  read_after_kfree d1 data (payload_offset data) (length payload) = payload.
Proof.
  intros Hh Hf Hspan Hkeeps payload.
  pose proof (valid_payload_length d data h f Hf Hspan) as Hlen. fold payload in Hlen.
  rewrite (payload_offset_found data h f Hh Hf).
  assert (Hin : (Z.to_nat ((Z.of_nat h + 1) * 4) + length payload <= length data)%nat).
  { destruct Hf as [Hf _]. apply lookup_lt_Some in Hf.
    pose proof (words_of_length data).
    pose proof (expected_frame_words_cases d) as Hcases.
    unfold FPGA_SHORT_PULSE_WORDS, FPGA_LONG_PULSE_WORDS in Hcases. lia. }
  rewrite read_after_kfree_keeps by done.
  unfold payload at 2, slice.
  replace (Z.to_nat ((expected_frame_words d - 3) * 4)) with (length payload) by lia.
  reflexivity.
Qed.

(** ** The claims on the frame extractor *)

(** C1 (amended).  For a transfer whose first start marker and last end
    marker span [expected_frame_words] words, the parser returns 0 with the
    payload that starts one word after the start marker and is
    ([expected_frame_words] - 3) * 4 bytes long.  When the payload ring has
    a free slot, the frame worker queues the frame (the ring count grows by
    one) and increments [valid_frames] and [extracted_frames] once each;
    the slot at the head receives the bytes found at the payload's address
    once the transfer has been freed, which are the payload if the
    allocator left the freed transfer alone.  When the ring is full the
    worker drops the frame: the two counters keep their values and
    [errors] is incremented. *)
Theorem valid_frame_extracted d data h f :
  first_header (words_of data) h ->
  last_footer (words_of data) f ->
  Z.of_nat f - Z.of_nat h + 1 = expected_frame_words d ->
  ring_wf (ring d) ->
  ring_buffer_size (ring d) = RING_BUFFER_SIZE ->
  let payload :=
    slice data ((Z.of_nat h + 1) * 4) ((expected_frame_words d - 3) * 4) in
  let freed :=
    read_after_kfree (snd (antsdr_parse_fpga_frame d data)) data
      (Z.to_nat ((Z.of_nat h + 1) * 4)) (length payload) in
  fst (antsdr_parse_fpga_frame d data) = FrameValid payload
  /\ parse_ret (fst (antsdr_parse_fpga_frame d data)) = 0
  /\ Z.of_nat (length payload) = (expected_frame_words d - 3) * 4
  /\ (ring_count (ring d) < ring_size (ring d) ->
      exists d', frame_work_frame d data = Some d'
        /\ valid_frames (stats d') = ulong (valid_frames (stats d) + 1)
        /\ extracted_frames (stats d') = ulong (extracted_frames (stats d) + 1)
        /\ invalid_frames (stats d') = invalid_frames (stats d)
        /\ errors (stats d') = errors (stats d)
        /\ ring_count (ring d') = ring_count (ring d) + 1
        /\ take (length payload) (ring_slot d' (ring_head (ring d))) = freed
        /\ (kfree_keeps data ->
            take (length payload) (ring_slot d' (ring_head (ring d))) = payload))
  /\ (ring_count (ring d) = ring_size (ring d) ->
      exists d', frame_work_frame d data = Some d'
        /\ valid_frames (stats d') = valid_frames (stats d)
        /\ extracted_frames (stats d') = extracted_frames (stats d)
        /\ errors (stats d') = ulong (errors (stats d) + 1)
        /\ ring d' = ring d).
Proof.
  intros Hh Hf Hspan Hwf Hsize payload freed.
  pose proof (parse_valid d data h f Hh Hf Hspan) as Hparse. fold payload in Hparse.
  pose proof (valid_payload_length d data h f Hf Hspan) as Hlen. fold payload in Hlen.
  pose proof (frame_work_frame_valid _ _ _ _ Hparse) as Hframe. cbn zeta in Hframe.
  rewrite (payload_offset_found data h f Hh Hf) in Hframe.
  unfold freed. rewrite Hparse. cbn [fst snd parse_ret].
  set (d1 := set_gap _ _) in *.
  set (stored := read_after_kfree d1 data _ _) in *.
  assert (Hstored : length stored = length payload)
    by apply read_after_kfree_length.
  assert (Hfit : Z.of_nat (length stored) <= ring_buffer_size (ring d1)).
  { change (ring d1) with (ring d). rewrite Hstored, Hsize, Hlen.
    destruct (expected_frame_words_cases d) as [-> | ->]; done. }
  split_and!; try done.
  - intros Hroom.
    destruct (ring_put_stored d1 stored Hwf Hroom Hfit) as (Hret & Hcount & Hslot & _).
    rewrite Hframe, Hret. cbn [Z.eqb].
    eexists. split; [reflexivity|].
    destruct (ring_put_frame d1 stored) as (Hstats & _).
    change (ring d1) with (ring d) in Hslot.
    unfold count_valid_frame, ring_slot in *.
    cbn [stats set_stats set_udp_work_pending
      valid_frames extracted_frames invalid_frames errors ring].
    rewrite Hstats, <- Hstored. split_and!; try done.
    intros Hkeeps. rewrite Hslot. unfold stored.
    rewrite <- (payload_offset_found data h f Hh Hf).
    by apply (valid_payload_kept d d1 data h f).
  - intros Hfull.
    assert (Hput : antsdr_ring_put d1 stored = (- ENOSPC, d1)).
    { unfold antsdr_ring_put.
      destruct (Z.ltb_spec (ring_buffer_size (ring d1)) (Z.of_nat (length stored)));
        [lia|].
      change (ring d1) with (ring d).
      destruct (Z.leb_spec (ring_size (ring d)) (ring_count (ring d))); [done|lia]. }
    rewrite Hframe, Hput. cbn [fst snd Z.eqb].
    eexists. split; [reflexivity|]. done.
Qed.

(** C8.  For a transfer in which a start marker and an end marker are found
    but the span from the first start marker to the last end marker is not
    [expected_frame_words], the parser returns -1 through its length
    mismatch branch; the frame worker increments [invalid_frames] once and
    changes nothing else but the parser's call counter: no payload reaches
    the payload ring and the detection buffer keeps its contents. *)
Theorem length_mismatch_discarded d data h f :
  first_header (words_of data) h ->
  last_footer (words_of data) f ->
  Z.of_nat f - Z.of_nat h + 1 <> expected_frame_words d ->
  fst (antsdr_parse_fpga_frame d data) = FrameLengthMismatch
  /\ parse_ret (fst (antsdr_parse_fpga_frame d data)) = -1
  /\ exists d', frame_work_frame d data = Some d'
       /\ invalid_frames (stats d') = ulong (invalid_frames (stats d) + 1)
       /\ valid_frames (stats d') = valid_frames (stats d)
       /\ extracted_frames (stats d') = extracted_frames (stats d)
       /\ errors (stats d') = errors (stats d)
       /\ ring d' = ring d
       /\ fbuf d' = fbuf d
       /\ gap d' = gap d
       /\ udp_work_pending d' = udp_work_pending d.
Proof.
  intros Hh Hf Hspan.
  pose proof (parse_length_mismatch d data h f Hh Hf Hspan) as Hparse.
  unfold frame_work_frame. rewrite Hparse. cbn [fst parse_ret].
  split_and!; [done..|].
  eexists. split; [reflexivity|]. done.
Qed.

(** ** The claim on gap tracking *)

(** C3 (amended).  The first valid frame seeds [last_frame_counter] without
    comparison.  On a later valid frame with counter [c], with
    expected = ([last_frame_counter] + 1) mod 2^32: if [c] > expected,
    [missing_frame_count] grows by [c] - expected modulo 2^32; if
    [c] <= expected it is unchanged; [last_frame_counter] becomes [c] in
    every case.  In particular, as long as [last_frame_counter] is below
    2^32 - 1, a counter above [last_frame_counter] + 1 adds
    [c] - [last_frame_counter] - 1 and a counter at or below
    [last_frame_counter] adds nothing.  From a fresh tracker the counters
    5, 6, 8, 9 give a missing count of 1, and so do 5, 7 and 5, 7, 6; the
    same holds for the frame worker fed short-pulse transfers that carry
    these counters. *)
Theorem gap_track_spec g c :
  0 <= c < 2 ^ 32 ->
  let g' := gap_track g c in
  let expected := u32 (last_frame_counter g + 1) in
  last_frame_counter g' = c
  /\ first_frame_received g' = true
  /\ (first_frame_received g = false ->
      missing_frame_count g' = missing_frame_count g)
  /\ (first_frame_received g = true -> expected < c ->
      missing_frame_count g' = u32 (missing_frame_count g + (c - expected)))
  /\ (first_frame_received g = true -> c <= expected ->
      missing_frame_count g' = missing_frame_count g)
  /\ (first_frame_received g = true ->
      0 <= last_frame_counter g < 2 ^ 32 - 1 ->
      last_frame_counter g + 1 < c ->
      missing_frame_count g'
      = u32 (missing_frame_count g + (c - last_frame_counter g - 1)))
  /\ (first_frame_received g = true ->
      0 <= last_frame_counter g < 2 ^ 32 - 1 ->
      c <= last_frame_counter g ->
      missing_frame_count g' = missing_frame_count g)
  /\ missing_frame_count (foldl gap_track gap_reset [5; 6; 8; 9]) = 1
  /\ missing_frame_count (foldl gap_track gap_reset [5; 7]) = 1
  /\ missing_frame_count (foldl gap_track gap_reset [5; 7; 6]) = 1
  /\ gap <$> frame_work_loop 50
               (set_raw_frame_fifo (short_transfer <$> [5; 6; 8; 9]) (probed true))
     = Some (mk_gap 1 9 true)
  /\ gap <$> frame_work_loop 50
               (set_raw_frame_fifo (short_transfer <$> [5; 7; 6]) (probed true))
     = Some (mk_gap 1 6 true).
Proof.
  intros Hc g' expected.
  assert (Hexp : 0 <= expected < 2 ^ 32) by (apply Z.mod_pos_bound; lia).
  assert (Hexamples :
    missing_frame_count (foldl gap_track gap_reset [5; 6; 8; 9]) = 1
    /\ missing_frame_count (foldl gap_track gap_reset [5; 7]) = 1
    /\ missing_frame_count (foldl gap_track gap_reset [5; 7; 6]) = 1
    /\ gap <$> frame_work_loop 50
                 (set_raw_frame_fifo (short_transfer <$> [5; 6; 8; 9]) (probed true))
       = Some (mk_gap 1 9 true)
    /\ gap <$> frame_work_loop 50
                 (set_raw_frame_fifo (short_transfer <$> [5; 7; 6]) (probed true))
       = Some (mk_gap 1 6 true)).
  { split_and!; vm_compute; reflexivity. }
  unfold g', gap_track. fold expected.
  destruct (first_frame_received g) eqn:Hfirst; cbn [negb];
    cbn [last_frame_counter first_frame_received missing_frame_count].
  - split_and!; [done|done|done| | | | |apply Hexamples..].
    + intros _ Hgap. destruct (Z.ltb_spec expected c); [|lia].
      by rewrite (u32_small (c - expected)) by lia.
    + intros _ Hle. by destruct (Z.ltb_spec expected c); [lia|].
    + intros _ Hlast Hgap.
      assert (expected = last_frame_counter g + 1) as ->
        by (apply u32_small; lia).
      destruct (Z.ltb_spec (last_frame_counter g + 1) c); [|lia].
      rewrite (u32_small (c - _)) by lia. f_equal. lia.
    + intros _ Hlast Hle.
      assert (expected = last_frame_counter g + 1) as ->
        by (apply u32_small; lia).
      by destruct (Z.ltb_spec (last_frame_counter g + 1) c); [lia|].
  - split_and!; [done..|apply Hexamples|apply Hexamples|apply Hexamples
                 |apply Hexamples|apply Hexamples].
Qed.

(** ** Reprocessing pass *)

(* The loop of the reprocessing pass stops by itself: once the fuel covers
   the words left, more fuel changes nothing. *)
Lemma frame_buffer_scan_fuel fuel : forall extra buf words word_count size i found d,
  0 < size ->
  word_count - 1 - i <= Z.of_nat fuel ->
  frame_buffer_scan (fuel + extra) buf words word_count size i found d
  = frame_buffer_scan fuel buf words word_count size i found d.
Proof.
  induction fuel as [|fuel IH]; intros extra buf words wc size i found d Hsize Hfuel.
  - destruct extra as [|extra]; [done|]. simpl.
    by destruct (Z.ltb_spec i (wc - 1)); [lia|].
  - simpl.
    destruct (i <? wc - 1); [|done].
    destruct (is_header (word_at words i)); [|apply IH; lia].
    destruct (i + size <=? wc); [|apply IH; lia].
    destruct (word_at words (i + size - 1) =? FPGA_FOOTER_MARKER); [|apply IH; lia].
    destruct (antsdr_ring_put d (recovered_payload buf size i)) as [ret d1].
    destruct (ret =? 0); apply IH; lia.
Qed.



(* The payload the reprocessing pass queues is two words shorter than the
   frame, one word longer than the payload of the direct extractor. *)
Lemma recovered_payload_length buf size i :
  0 <= i -> 2 <= size ->
  (i + size) * 4 <= Z.of_nat (length buf) ->
  Z.of_nat (length (recovered_payload buf size i)) = (size - 2) * 4.
Proof.
  intros Hi Hsize Hfit. unfold recovered_payload. apply slice_length; lia.
Qed.

(** ** The detection buffer in the pipeline *)

Lemma words_of_app (a b : list byte) k :
  length a = (4 * k)%nat -> words_of (a ++ b) = words_of a ++ words_of b.
Proof.
  revert a. induction k as [|k IH]; intros a Hlen.
  - destruct a; [done|simpl in Hlen; lia].
  - destruct a as [|b0 [|b1 [|b2 [|b3 rest]]]]; simpl in Hlen; try lia.
    simpl. f_equal. apply IH. lia.
Qed.

Lemma memcpy_at_take (dst src : list byte) off :
  0 <= off -> off <= Z.of_nat (length dst) ->
  take (Z.to_nat (off + Z.of_nat (length src))) (memcpy_at dst off src)
  = take (Z.to_nat off) dst ++ src.
Proof.
  intros Hoff Hfit. unfold memcpy_at.
  rewrite app_assoc.
  rewrite take_app_length'; [done|].
  rewrite length_app, length_take. lia.
Qed.

Lemma memcpy_at_length (dst src : list byte) off :
  0 <= off -> off + Z.of_nat (length src) <= Z.of_nat (length dst) ->
  length (memcpy_at dst off src) = length dst.
Proof.
  intros Hoff Hfit. unfold memcpy_at.
  rewrite !length_app, length_take, length_drop. lia.
Qed.

(* The scan reports an end marker whenever there is one. *)
Lemma scan_markers_footer_lower ws : forall i header_pos footer_pos,
  0 <= i -> 0 <= footer_pos ->
  0 <= snd (scan_markers ws i header_pos footer_pos).
Proof.
  induction ws as [|w ws IH]; intros i hp fp Hi Hfp; simpl; [done|].
  apply IH; [lia|]. by destruct (w =? FPGA_FOOTER_MARKER).
Qed.

Lemma scan_markers_footer_none ws : forall i header_pos,
  0 <= i ->
  snd (scan_markers ws i header_pos (-1)) = -1 ->
  forall j w, ws !! j = Some w -> w <> FPGA_FOOTER_MARKER.
Proof.
  induction ws as [|w ws IH]; intros i hp Hi Hscan j w' Hj; [done|].
  simpl in Hscan.
  destruct (Z.eqb_spec w FPGA_FOOTER_MARKER) as [->|Hne].
  - pose proof (scan_markers_footer_lower ws (i + 1)
                  (if is_header FPGA_FOOTER_MARKER && (hp =? -1) then i else hp) i
                  ltac:(lia) Hi).
    lia.
  - destruct j as [|j]; simpl in Hj.
    + by injection Hj as <-.
    + eapply (IH (i + 1)); [lia|exact Hscan|exact Hj].
Qed.

(* Without an end marker among the words the reprocessing pass finds no
   frame and puts nothing. *)
Lemma frame_buffer_scan_no_footer fuel : forall buf words word_count size i found d,
  (forall j w, words !! j = Some w -> w <> FPGA_FOOTER_MARKER) ->
  frame_buffer_scan fuel buf words word_count size i found d = (found, d).
Proof.
  induction fuel as [|fuel IH]; intros buf words wc size i found d Hnone; simpl; [done|].
  destruct (i <? wc - 1); [|done].
  destruct (is_header (word_at words i)); [|by apply IH].
  destruct (i + size <=? wc); [|by apply IH].
  destruct (Z.eqb_spec (word_at words (i + size - 1)) FPGA_FOOTER_MARKER) as [Heq|_];
    [|by apply IH].
  exfalso. unfold word_at in Heq.
  destruct (words !! Z.to_nat (i + size - 1)) as [w|] eqn:Hw; simpl in Heq.
  - by apply (Hnone _ _ Hw).
  - discriminate.
Qed.


Lemma fbuf_clean_reset d :
  fbuf_clean (fbuf d) -> fbuf_clean (fbuf (antsdr_frame_buffer_reset d)).
Proof.
  intros [Hused Hwords Hsize Hfit Hnone].
  split; cbn [antsdr_frame_buffer_reset fbuf set_fbuf frame_buffer_used
                frame_buffer_size frame_detection_buffer]; try done; try lia.
Qed.

Lemma frame_buffer_add_clean d data :
  fbuf_clean (fbuf d) ->
  Z.of_nat (length data) mod 4 = 0 ->
  (forall j w, words_of data !! j = Some w -> w <> FPGA_FOOTER_MARKER) ->
  fbuf_clean (fbuf (snd (antsdr_frame_buffer_add d data))).
Proof.
  intros Hclean Hlen Hdata. unfold antsdr_frame_buffer_add.
  destruct (Z.ltb_spec (frame_buffer_size (fbuf d))
              (frame_buffer_used (fbuf d) + Z.of_nat (length data))).
  - by apply (fbuf_clean_reset d).
  - destruct Hclean as [Hused Hwords Hsize Hfit Hnone].
    split; cbn [snd fbuf set_fbuf frame_buffer_used frame_buffer_size
                  frame_detection_buffer].
    + lia.
    + rewrite Z.add_mod, Hwords, Hlen by lia. reflexivity.
    + rewrite memcpy_at_length; lia.
    + lia.
    + rewrite memcpy_at_take by lia.
      apply Z.mod_divide in Hwords as [k Hk]; [|lia].
      rewrite (words_of_app _ _ (Z.to_nat k)).
      * intros j w [Hj|[_ Hj]]%lookup_app_Some; [by eapply Hnone|by eapply Hdata].
      * rewrite length_take. lia.
Qed.

Lemma frame_buffer_process_clean d :
  fbuf_clean (fbuf d) ->
  exists d', antsdr_frame_buffer_process d = (0, d')
    /\ fbuf_clean (fbuf d').
Proof.
  intros Hclean. unfold antsdr_frame_buffer_process.
  destruct (frame_buffer_used (fbuf d) <? 8); [by exists d|].
  rewrite frame_buffer_scan_no_footer by apply Hclean.
  eexists. split; [reflexivity|]. by apply fbuf_clean_reset.
Qed.

Lemma frame_buffer_process_clean_exact d :
  fbuf_clean (fbuf d) ->
  antsdr_frame_buffer_process d
  = (0, if frame_buffer_used (fbuf d) <? 8 then d else antsdr_frame_buffer_reset d).
Proof.
  intros Hclean. unfold antsdr_frame_buffer_process.
  destruct (frame_buffer_used (fbuf d) <? 8); [done|].
  by rewrite frame_buffer_scan_no_footer by apply Hclean.
Qed.

Lemma frame_buffer_init_clean mem d :
  fbuf_clean (fbuf (antsdr_frame_buffer_init mem d)).
Proof.
  unfold antsdr_frame_buffer_init.
  split; cbn [fbuf set_fbuf frame_buffer_used frame_buffer_size
                frame_detection_buffer].
  - done.
  - done.
  - rewrite length_map, length_seq. unfold FRAME_DETECTION_BUFFER_SIZE. lia.
  - done.
  - intros j w. by rewrite Z2Nat.inj_0, take_0.
Qed.

(** X10.  In the pipeline the reprocessing pass never recovers a frame.
    The detection buffer only receives transfers in which the parser found
    no end marker; as long as transfers are whole words (the DMA callback
    queues 212 or 1612 bytes) the buffer holds no end marker either, so the
    parser never returns through [FrameRecovered] and the frame worker
    never reads the payload variables unwritten. *)
Theorem frame_worker_never_recovers d raw :
  fbuf_clean (fbuf d) ->
  Z.of_nat (length raw) mod 4 = 0 ->
  exists d', frame_work_frame d raw = Some d' /\ fbuf_clean (fbuf d').
Proof.
  intros Hclean Hlen. unfold frame_work_frame, antsdr_parse_fpga_frame.
  set (d0 := set_total_frames_processed _ d).
  assert (Hclean0 : fbuf_clean (fbuf d0)) by exact Hclean.
  destruct (scan_markers (words_of raw) 0 (-1) (-1)) as [hp fp] eqn:Hscan.
  destruct (Z.eqb_spec hp (-1)) as [Hhp|Hhp]; cbn [negb andb].
  - eexists. split; [reflexivity|exact Hclean].
  - destruct (Z.eqb_spec fp (-1)) as [Hfp|Hfp]; cbn [negb].
    + assert (Hdata : forall j w, words_of raw !! j = Some w -> w <> FPGA_FOOTER_MARKER).
      { apply (scan_markers_footer_none _ 0 (-1)); [lia|]. by rewrite Hscan. }
      pose proof (frame_buffer_add_clean d0 raw Hclean0 Hlen Hdata) as Hadd.
      destruct (antsdr_frame_buffer_add d0 raw) as [ret d1]. cbn [snd] in Hadd.
      destruct (ret =? 0); [|by eexists].
      destruct (_ || _); [|by eexists].
      destruct (frame_buffer_process_clean d1 Hadd) as (d2 & -> & Hclean2).
      by eexists.
    + destruct (_ =? expected_frame_words d0); [|by eexists].
      set (d1 := if hp + 1 <? fp then _ else d0).
      assert (Hclean1 : fbuf_clean (fbuf d1)) by (unfold d1; by destruct (_ <? _)).
      destruct (3 <=? fp - hp + 1); [|by eexists].
      cbv zeta.
      match goal with
      | |- context [antsdr_ring_put d1 ?stored] =>
          pose proof (ring_put_frame d1 stored) as (_ & _ & Hfbuf & _)
      end.
      destruct (antsdr_ring_put d1 _) as [ret d2]. cbn [snd] in Hfbuf.
      destruct (ret =? 0); eexists; (split; [reflexivity|]).
      * cbn [count_valid_frame set_stats set_udp_work_pending fbuf].
        by rewrite Hfbuf.
      * cbn [count_error set_stats fbuf]. by rewrite Hfbuf.
Qed.


(** ** The claims on the reprocessing pass, on gap tracking in the pipeline
       and on the ring *)


(* The parser returns a payload only through its valid-frame branch, and
   then the first start marker and the last end marker span a frame. *)
Lemma parse_valid_inv d data payload :
  fst (antsdr_parse_fpga_frame d data) = FrameValid payload ->
  exists h f, frame_at d data h f.
Proof.
  unfold antsdr_parse_fpga_frame.
  set (d0 := set_total_frames_processed _ d).
  destruct (scan_markers_header_cases (words_of data) 0 (-1)) as [[Hnone _]|[h Hh]].
  - rewrite (surjective_pairing (scan_markers _ _ _ _)), Hnone.
    cbn [Z.eqb negb andb]. done.
  - destruct (scan_markers_footer_cases (words_of data) 0 (-1) (-1))
      as [[Hnone _]|[f Hf]].
    + rewrite (surjective_pairing (scan_markers _ _ _ _)), Hnone.
      cbn [Z.eqb negb andb]. rewrite andb_false_r.
      destruct (negb _); [|done].
      destruct (antsdr_frame_buffer_add d0 data) as [ret d1].
      destruct (ret =? 0); [|done].
      destruct (_ || _); [|done].
      destruct (antsdr_frame_buffer_process d1) as [found d2].
      by destruct (0 <? found).
    + rewrite (scan_markers_found _ h f Hh Hf).
      destruct (Z.eqb_spec (Z.of_nat h) (-1)); [lia|].
      destruct (Z.eqb_spec (Z.of_nat f) (-1)); [lia|].
      cbn [negb andb].
      change (expected_frame_words d0) with (expected_frame_words d).
      destruct (Z.eqb_spec (Z.of_nat f - Z.of_nat h + 1) (expected_frame_words d));
        [|done].
      intros _. by exists h, f.
Qed.




(* The payload the parser returns is three words shorter than the frame. *)
Lemma parse_valid_length d data payload :
  fst (antsdr_parse_fpga_frame d data) = FrameValid payload ->
  Z.of_nat (length payload) = (expected_frame_words d - 3) * 4.
Proof.
  intros Hvalid.
  destruct (parse_valid_inv d data payload Hvalid) as (h & f & Hh & Hf & Hspan).
  rewrite (parse_valid d data h f Hh Hf Hspan) in Hvalid.
  injection Hvalid as <-. by apply (valid_payload_length d data h f).
Qed.



(** C7.  On a ring that holds [ring_size] payloads the next put fails with
    a negative return value and leaves the whole device, hence every slot,
    head, tail and count, exactly as it was.  On a ring that is not full a
    put of at most [ring_buffer_size] bytes returns 0, copies the data to
    the start of the slot at the old head, leaves the other slots and the
    tail alone, advances the head and increments the count by 1.  The
    puts of the pipeline are of this kind: a payload the parser returns to
    the frame worker has (expected_words - 3) * 4 bytes, 200 or 1600, at
    most the 1600 bytes of a slot.  A put of more than [ring_buffer_size]
    bytes, which the frame worker never makes, is refused with -EINVAL and
    leaves the device as it was, on a full ring or not. *)
Theorem ring_put_full_or_stored d data :
  ring_wf (ring d) ->
  (ring_count (ring d) = ring_size (ring d) ->
     fst (antsdr_ring_put d data) < 0 /\ snd (antsdr_ring_put d data) = d)
  /\ (ring_count (ring d) < ring_size (ring d) ->
      Z.of_nat (length data) <= ring_buffer_size (ring d) ->
      let d' := snd (antsdr_ring_put d data) in
      fst (antsdr_ring_put d data) = 0
      /\ ring_count (ring d') = ring_count (ring d) + 1
      /\ take (length data) (ring_slot d' (ring_head (ring d))) = data
      /\ (forall slot, 0 <= slot -> slot <> ring_head (ring d) ->
            ring_slot d' slot = ring_slot d slot)
      /\ ring_tail (ring d') = ring_tail (ring d)
      /\ ring_head (ring d') = (ring_head (ring d) + 1) mod ring_size (ring d))
  /\ (forall d0 raw payload,
        fst (antsdr_parse_fpga_frame d0 raw) = FrameValid payload ->
        Z.of_nat (length payload) <= RING_BUFFER_SIZE
        /\ (Z.of_nat (length payload) = 200 \/ Z.of_nat (length payload) = 1600))
  /\ (ring_buffer_size (ring d) < Z.of_nat (length data) ->
      antsdr_ring_put d data = (- EINVAL, d)).
Proof.
  intros Hwf. split_and!.
  - intros Hfull.
    destruct (ring_put_full d data) as [-> | ->]; [lia|done..].
  - intros Hroom Hfit. by apply ring_put_stored.
  - intros d0 raw payload Hvalid.
    rewrite (parse_valid_length d0 raw payload Hvalid).
    unfold RING_BUFFER_SIZE.
    destruct (expected_frame_words_cases d0) as [-> | ->];
      unfold FPGA_SHORT_PULSE_WORDS, FPGA_LONG_PULSE_WORDS; lia.
  - intros Hbig. unfold antsdr_ring_put.
    by destruct (Z.ltb_spec (ring_buffer_size (ring d)) (Z.of_nat (length data))); [|lia].
Qed.

(* Handed a detection buffer that holds a whole frame, which the parser
   never builds, the reprocessing pass would queue
   (expected_words - 2) * 4 bytes, the payload and the counter word: 204
   bytes in short pulse mode, where the direct extractor returns 200 for
   the same 212 bytes; in long pulse mode the 1604 bytes do not fit a
   slot and the pass reports no frame. *)
Lemma reprocessing_keeps_counter_word :
  let whole := short_transfer 7 in
  let d := split_frame_dev 0 7 in
  let r := antsdr_frame_buffer_process d in
  frame_buffer_used (fbuf d) = 212
  /\ take 212 (frame_detection_buffer (fbuf d)) = whole
  /\ fst r = 1
  /\ valid_frames (stats (snd r)) = ulong (0 + 1)
  /\ extracted_frames (stats (snd r)) = ulong (0 + 1)
  /\ ring_count (ring (snd r)) = 1
  /\ length (recovered_payload (frame_detection_buffer (fbuf d)) 53 0) = 204%nat
  /\ take 204 (ring_slot (snd r) 0) = slice whole 4 204
  /\ slice (ring_slot (snd r) 0) 200 4 = bytes_of_word 7
  /\ fst (antsdr_parse_fpga_frame (probed true) whole) = FrameValid (slice whole 4 200)
  /\ fst (antsdr_frame_buffer_process (split_frame_dev 1 7)) = 0
  /\ ring_count (ring (snd (antsdr_frame_buffer_process (split_frame_dev 1 7)))) = 0.
Proof.
  split_and!; vm_compute; reflexivity.
Qed.

(** X3.  While the consumer has not returned the slot at the tail, no put
    writes to it: a put goes to the head, which differs from the tail as
    long as the ring is neither empty nor full.  This is the order
    antsdr_dma_read keeps (copy, then antsdr_ring_return_buffer). *)
Lemma ring_put_keeps_tail_slot d data :
  ring_wf (ring d) ->
  0 < ring_count (ring d) ->
  ring_slot (snd (antsdr_ring_put d data)) (ring_tail (ring d))
  = ring_slot d (ring_tail (ring d)).
Proof.
  intros [Hpos Hu32 Hslots Hhead Htail Hcount Hht Hss] Hheld.
  destruct (decide (fst (antsdr_ring_put d data) = 0)) as [Hok|Hno];
    [|by rewrite ring_put_refused].
  revert Hok. unfold antsdr_ring_put.
  destruct (Z.ltb_spec (ring_buffer_size (ring d)) (Z.of_nat (length data))); [done|].
  destruct (Z.leb_spec (ring_size (ring d)) (ring_count (ring d))); [done|].
  intros _. cbn [snd]. unfold ring_slot. rewrite ring_set_ring. cbn [ring_buffers].
  rewrite list_lookup_insert_ne; [done|].
  intros Heq. apply Z2Nat.inj in Heq; [|lia..].
  rewrite Heq in Hht.
  destruct (Z_lt_le_dec (ring_tail (ring d) + ring_count (ring d)) (ring_size (ring d))).
  - rewrite Z.mod_small in Hht by lia. lia.
  - replace (ring_tail (ring d) + ring_count (ring d))
      with (ring_tail (ring d) + ring_count (ring d) - ring_size (ring d)
            + 1 * ring_size (ring d)) in Hht by lia.
    rewrite Z_mod_plus_full, Z.mod_small in Hht by lia. lia.
Qed.

(** ** The packetizer alone

    Scheduled without a producer in between, the atomic steps of the
    packetizer compute what the loops of antsdr_udp_work compute. *)

Lemma run_loop_end n d ps sent :
  run (replicate n Packetizer) (mk_system d AtLoopEnd ps sent)
  = mk_system d AtLoopEnd ps sent.
Proof. induction n as [|n IH]; [done|]. exact IH. Qed.

Lemma run_fragments n : forall l i o ps d sent,
  let r := udp_fragment_loop n l i o ps d in
  exists i' o',
    run (replicate n Packetizer) (mk_system d (AtFragment n l i o) ps sent)
    = mk_system (out_dev r)
        (if out_aborted r then AtLoopEnd else AtFragment 0 l i' o')
        (out_packets_sent r) (sent ++ out_sent r).
Proof.
  induction n as [|n IH]; intros l i o ps d sent; cbn [replicate].
  - exists i, o. unfold run. simpl. by rewrite app_nil_r.
  - unfold run. cbn [foldl system_step]. unfold packetizer_step.
    cbn [sys_dev sys_pc sys_packets_sent sys_sent udp_fragment_loop].
    destruct (udp_fragment_step d l i o) as [[p| |] d1].
    + destruct (IH l (i + 1) (o + Z.min (payload_len l - o) ANTSDR_MAX_PAYLOAD_SIZE)
                  (ps + 1) d1 (sent ++ [p])) as (i' & o' & Hrun).
      exists i', o'. unfold run in Hrun. rewrite Hrun.
      cbn [out_dev out_aborted out_packets_sent out_sent].
      by rewrite <- app_assoc.
    + destruct (IH l (i + 1) (o + Z.min (payload_len l - o) ANTSDR_MAX_PAYLOAD_SIZE)
                  ps d1 sent) as (i' & o' & Hrun).
      exists i', o'. unfold run in Hrun. by rewrite Hrun.
    + exists i, o. cbn [out_dev out_aborted out_packets_sent out_sent].
      rewrite app_nil_r. apply run_loop_end.
Qed.

(* One slot: antsdr_ring_get, antsdr_ring_return_buffer, then the
   fragments. *)
Lemma run_slot d slot size ps sent :
  antsdr_ring_get d = (0, Some (slot, size)) ->
  ps < 200 ->
  let r := udp_work_slot d slot size ps in
  let n := Z.to_nat (fragments_left size 0) in
  exists pc,
    run (replicate (2 + n) Packetizer) (mk_system d AtRingGet ps sent)
    = mk_system (out_dev r) pc (out_packets_sent r) (sent ++ out_sent r).
Proof.
  intros Hget Hps r n.
  unfold run. cbn [replicate foldl Nat.add system_step].
  unfold packetizer_step. cbn [sys_dev sys_pc sys_packets_sent sys_sent].
  destruct (Z.ltb_spec ps 200); [|lia]. rewrite Hget.
  cbn [sys_dev sys_pc sys_packets_sent sys_sent].
  unfold udp_work_slot in r.
  pose proof (udp_take_slot_frame d slot size) as Htake.
  destruct (udp_take_slot d slot size) as [l d1].
  destruct Htake as (_ & _ & _ & Hneeded & _).
  destruct (run_fragments (Z.to_nat (fragments_needed l)) l 0 0 ps d1 sent)
    as (i' & o' & Hrun).
  unfold n. rewrite <- Hneeded. unfold run in Hrun. rewrite Hrun.
  by eexists.
Qed.

(* The [while] loop of antsdr_udp_work stops by itself: every pass returns
   a slot, so fuel above the ring count is never used. *)
Lemma udp_work_loop_fuel fuel : forall extra ps d,
  0 <= ring_count (ring d) < 2 ^ 32 ->
  ring_count (ring d) < Z.of_nat fuel ->
  udp_work_loop (fuel + extra) ps d = udp_work_loop fuel ps d.
Proof.
  induction fuel as [|fuel IH]; intros extra ps d Hrange Hfuel; [lia|].
  cbn [Nat.add udp_work_loop].
  destruct (ps <? 200); [|done].
  unfold antsdr_ring_get.
  destruct (Z.eqb_spec (ring_count (ring d)) 0) as [|Hne]; [done|].
  unfold udp_work_slot.
  pose proof (udp_take_slot_frame d (ring_tail (ring d)) (ring_buffer_size (ring d)))
    as Htake.
  destruct (udp_take_slot d (ring_tail (ring d)) (ring_buffer_size (ring d)))
    as [l d1].
  destruct Htake as (_ & _ & _ & _ & Hring & _).
  pose proof (udp_fragment_loop_frame (Z.to_nat (fragments_needed l)) l 0 0 ps d1)
    as (Hring' & _).
  destruct (udp_fragment_loop (Z.to_nat (fragments_needed l)) l 0 0 ps d1)
    as [d2 sent ps' aborted].
  cbn [out_dev out_sent out_packets_sent out_aborted] in *.
  destruct aborted; [done|].
  rewrite IH; [done| |].
  - rewrite Hring', Hring. unfold antsdr_ring_return_buffer.
    destruct (Z.ltb_spec 0 (ring_count (ring d))); [|lia].
    rewrite ring_set_ring. cbn [ring_count]. rewrite u32_small; lia.
  - rewrite Hring', Hring. unfold antsdr_ring_return_buffer.
    destruct (Z.ltb_spec 0 (ring_count (ring d))); [|lia].
    rewrite ring_set_ring. cbn [ring_count]. rewrite u32_small; lia.
Qed.

(** ** The claim on the statistics snapshot *)

(** C9 (amended).  The snapshot ANTSDR_IOC_GET_STATS returns is the driver's
    struct antsdr_dma_stats: transfers completed, bytes transferred, packets
    sent, errors and the valid, invalid and extracted frame counts.  It does
    not depend on the gap tracking fields; the cumulative missing-frame
    count leaves the driver in the [missing_frame_count] field of every
    datagram header instead. *)
Theorem stats_snapshot_fields d :
  (exists s, antsdr_dma_ioctl_get_stats d true = (0, Some s)
     /\ transfers_completed s = transfers_completed (stats d)
     /\ bytes_transferred s = bytes_transferred (stats d)
     /\ udp_packets_sent s = udp_packets_sent (stats d)
     /\ errors s = errors (stats d)
     /\ valid_frames s = valid_frames (stats d)
     /\ invalid_frames s = invalid_frames (stats d)
     /\ extracted_frames s = extracted_frames (stats d))
  /\ (forall g copy_ok,
        antsdr_dma_ioctl_get_stats (set_gap g d) copy_ok
        = antsdr_dma_ioctl_get_stats d copy_ok)
  /\ (forall l fragment_idx fragment_offset,
        hdr.missing_frame_count (header (udp_fragment d l fragment_idx fragment_offset))
        = u32 (missing_frame_count (gap d))).
Proof.
  split_and!.
  - exists (stats d). by split_and!.
  - done.
  - done.
Qed.

(** * Further properties of the driver *)

(** ** The ring is a queue *)

Lemma ring_index_distinct tail size j k :
  0 < size -> 0 <= tail ->
  0 <= j < size -> 0 <= k < size -> j <> k ->
  (tail + j) mod size <> (tail + k) mod size.
Proof.
  intros Hsize Htail Hj Hk Hne Heq.
  assert (Hmod : forall a, a mod size = a - size * (a / size)).
  { intros a. pose proof (Z.div_mod a size ltac:(lia)). lia. }
  rewrite (Hmod (tail + j)), (Hmod (tail + k)) in Heq.
  assert (Hdiff : j - k = size * ((tail + j) / size - (tail + k) / size)) by lia.
  assert (Hq : (tail + j) / size - (tail + k) / size = 0) by nia.
  rewrite Hq in Hdiff. lia.
Qed.

Lemma ring_contents_length r :
  length (ring_contents r) = Z.to_nat (ring_count r).
Proof. unfold ring_contents. by rewrite length_map, length_seq. Qed.

Lemma ring_contents_lookup r (k : nat) :
  (k < Z.to_nat (ring_count r))%nat ->
  ring_contents r !! k
  = Some (default [] (ring_buffers r
                        !! Z.to_nat ((ring_tail r + Z.of_nat k) mod ring_size r))).
Proof.
  intros Hk. unfold ring_contents.
  rewrite list_lookup_fmap, lookup_seq_lt by done. reflexivity.
Qed.

(* An accepted put appends the written slot to the queue. *)
Lemma ring_contents_put d data :
  ring_wf (ring d) ->
  ring_count (ring d) < ring_size (ring d) ->
  Z.of_nat (length data) <= ring_buffer_size (ring d) ->
  ring_contents (ring (snd (antsdr_ring_put d data)))
  = ring_contents (ring d)
    ++ [memcpy_at (ring_slot d (ring_head (ring d))) 0 data].
Proof.
  intros [Hpos Hu32 Hslots Hhead Htail Hcount Hht Hss] Hroom Hfit.
  rewrite ring_put_accepted by done. cbn [snd]. rewrite ring_set_ring.
  apply list_eq. intros k.
  destruct (decide (k < Z.to_nat (ring_count (ring d)))%nat) as [Hk|Hk].
  - rewrite lookup_app_l by (rewrite ring_contents_length; lia).
    rewrite !ring_contents_lookup; cbn [ring_count ring_tail ring_size ring_buffers];
      [|lia|rewrite u32_small; lia].
    rewrite list_lookup_insert_ne; [done|].
    intros Heq. apply Z2Nat.inj in Heq; [|lia|apply Z.mod_pos_bound; lia].
    rewrite Hht in Heq. revert Heq.
    apply ring_index_distinct; lia.
  - destruct (decide (k = Z.to_nat (ring_count (ring d)))) as [->|Hne].
    + rewrite lookup_app_r by (rewrite ring_contents_length; lia).
      rewrite ring_contents_length, Nat.sub_diag.
      rewrite ring_contents_lookup;
        cbn [ring_count ring_tail ring_size ring_buffers];
        [|rewrite u32_small; lia].
      rewrite Z2Nat.id, <- Hht by lia.
      rewrite list_lookup_insert_eq by lia. reflexivity.
    + rewrite !lookup_ge_None_2; [done| |].
      * rewrite length_app, ring_contents_length. simpl. lia.
      * rewrite ring_contents_length. cbn [ring_count].
        rewrite u32_small; lia.
Qed.

(* Returning the slot at the tail removes the oldest payload. *)
Lemma ring_contents_return d :
  ring_wf (ring d) ->
  ring_contents (ring (antsdr_ring_return_buffer d)) = drop 1 (ring_contents (ring d)).
Proof.
  intros [Hpos Hu32 Hslots Hhead Htail Hcount Hht Hss].
  unfold antsdr_ring_return_buffer.
  destruct (Z.ltb_spec 0 (ring_count (ring d))) as [Hheld|Hempty].
  - rewrite ring_set_ring. apply list_eq. intros k.
    rewrite lookup_drop.
    destruct (decide (k < Z.to_nat (ring_count (ring d) - 1))%nat) as [Hk|Hk].
    + rewrite !ring_contents_lookup;
        cbn [ring_count ring_tail ring_size ring_buffers];
        [|lia|rewrite u32_small; lia].
      rewrite (u32_small (ring_tail (ring d) + 1)) by lia.
      rewrite Zplus_mod_idemp_l.
      by replace (ring_tail (ring d) + 1 + Z.of_nat k)
        with (ring_tail (ring d) + Z.of_nat (1 + k)) by lia.
    + rewrite !lookup_ge_None_2; [done| |].
      * rewrite ring_contents_length. lia.
      * rewrite ring_contents_length. cbn [ring_count].
        rewrite u32_small; lia.
  - assert (ring_count (ring d) = 0) as Hzero by lia.
    unfold ring_contents. rewrite Hzero. reflexivity.
Qed.

(* The slot antsdr_ring_get hands out is the oldest payload. *)
Lemma ring_contents_get d :
  ring_wf (ring d) ->
  ring_count (ring d) <> 0 ->
  ring_contents (ring d) !! 0%nat = Some (ring_slot d (ring_tail (ring d))).
Proof.
  intros [Hpos Hu32 Hslots Hhead Htail Hcount Hht Hss] Hne.
  rewrite ring_contents_lookup by lia.
  rewrite Z.add_0_r, Z.mod_small by lia. reflexivity.
Qed.

Lemma ring_put_size d data :
  ring_size (ring (snd (antsdr_ring_put d data))) = ring_size (ring d).
Proof.
  unfold antsdr_ring_put.
  destruct (_ <? _); [done|]. by destruct (_ <=? _).
Qed.

Lemma put_all_wf d payloads : ring_wf (ring d) -> ring_wf (ring (put_all d payloads)).
Proof.
  revert d. induction payloads as [|p ps IH]; intros d Hwf; [done|].
  apply IH. by apply ring_put_wf.
Qed.

Lemma put_all_buffer_size payloads : forall d,
  ring_buffer_size (ring (put_all d payloads)) = ring_buffer_size (ring d).
Proof.
  induction payloads as [|q qs IH]; intros d; [done|].
  unfold put_all. cbn [foldl]. fold (put_all (snd (antsdr_ring_put d q)) qs).
  rewrite IH. by destruct (ring_put_frame d q) as (_ & _ & _ & _ & ->).
Qed.

(* Every payload of a batch that fits the free slots is queued, in order,
   at the start of its slot. *)
Lemma ring_contents_put_all payloads : forall d,
  ring_wf (ring d) ->
  ring_count (ring d) + Z.of_nat (length payloads) <= ring_size (ring d) ->
  Forall (fun p => Z.of_nat (length p) <= ring_buffer_size (ring d)) payloads ->
  exists slots,
    ring_contents (ring (put_all d payloads)) = ring_contents (ring d) ++ slots
    /\ Forall2 (fun slot p => take (length p) slot = p) slots payloads.
Proof.
  induction payloads as [|p ps IH]; intros d Hwf Hroom Hfit.
  - exists []. by rewrite app_nil_r.
  - inversion Hfit as [|? ? Hp Hps]; subst. cbn [length] in Hroom.
    pose proof (ring_contents_put d p Hwf ltac:(lia) Hp) as Hput.
    pose proof (ring_put_wf d p Hwf) as Hwf'.
    pose proof (ring_put_stored d p Hwf ltac:(lia) Hp) as (_ & Hcount & _).
    pose proof (ring_put_frame d p) as (_ & _ & _ & _ & Hsize).
    cbn zeta in Hcount, Hsize.
    destruct (IH (snd (antsdr_ring_put d p)) Hwf') as (slots & Hall & Hslots).
    + rewrite ring_put_size, Hcount. lia.
    + by rewrite Hsize.
    + eexists (_ :: slots). split.
      * unfold put_all in *. cbn [foldl]. rewrite Hall, Hput, <- app_assoc. reflexivity.
      * constructor; [apply memcpy_at_0_take|done].
Qed.

Lemma s32_small x : 0 <= x < 2 ^ 31 -> s32 x = x.
Proof. intros Hx. unfold s32. rewrite Z.mod_small; lia. Qed.

(* A read that got its kernel buffer, on a ring that holds a payload and
   whose slot size fits an [int]. *)
Lemma dma_read_spec copy_ok d count :
  ring_count (ring d) <> 0 ->
  0 <= count ->
  0 <= ring_buffer_size (ring d) < 2 ^ 31 ->
  antsdr_dma_read true copy_ok d count
  = let n := Z.min count (ring_buffer_size (ring d)) in
    let d' := antsdr_ring_return_buffer d in
    if 0 <? n then
      if copy_ok then mk_read n (slice (ring_slot d (ring_tail (ring d))) 0 n) d'
      else mk_read (- EFAULT) [] d'
    else mk_read n [] d'.
Proof.
  intros Hne Hcount Hsize. unfold antsdr_dma_read, antsdr_ring_get. cbn [negb].
  destruct (Z.eqb_spec (ring_count (ring d)) 0); [done|]. cbv zeta.
  rewrite s32_small by lia.
  destruct (0 <? _); [|done]. destruct copy_ok; [|done].
  f_equal. unfold slice. rewrite !drop_0. by rewrite take_take, Nat.min_id.
Qed.

(* Whatever it copies, a read that got its kernel buffer releases the
   oldest slot. *)
Lemma dma_read_dev copy_ok d count :
  read_dev (antsdr_dma_read true copy_ok d count) = antsdr_ring_return_buffer d.
Proof.
  unfold antsdr_dma_read, antsdr_ring_get. cbn [negb].
  destruct (Z.eqb_spec (ring_count (ring d)) 0) as [Hzero|Hne].
  - unfold antsdr_ring_return_buffer. rewrite Hzero. reflexivity.
  - cbv zeta. destruct (0 <? _); [by destruct copy_ok|done].
Qed.

(* [k] reads drop the [k] oldest payloads. *)
Lemma ring_contents_reads k : forall d count,
  ring_wf (ring d) ->
  let dk := Nat.iter k (fun d' => read_dev (antsdr_dma_read true true d' count)) d in
  ring_wf (ring dk)
  /\ ring_contents (ring dk) = drop k (ring_contents (ring d))
  /\ ring_buffer_size (ring dk) = ring_buffer_size (ring d).
Proof.
  induction k as [|k IH]; intros d count Hwf.
  - cbn [Nat.iter]. by rewrite drop_0.
  - destruct (IH d count Hwf) as (Hwfk & Hk & Hsize).
    change (Nat.iter (S k) (fun d' => read_dev (antsdr_dma_read true true d' count)) d)
      with (read_dev
              (antsdr_dma_read true true
                 (Nat.iter k (fun d' => read_dev (antsdr_dma_read true true d' count)) d)
                 count)).
    set (dk := Nat.iter k _ d) in *.
    rewrite dma_read_dev. split_and!.
    + by apply ring_return_buffer_wf.
    + rewrite ring_contents_return, Hk, drop_drop by done. f_equal. lia.
    + rewrite <- Hsize. exact (ring_apply_buffer_size dk RingReturn).
Qed.

(** X2.  Payloads leave the ring in the order they entered it.  After a
    batch of payloads that fit the slots has been put on an empty ring, the
    ring count is the size of the batch, and after [k] reads that
    succeeded the next antsdr_dma_read asking for a whole slot (whose size
    fits an [int]) returns the slot size and a buffer that starts with the
    [k]-th payload.  A read
    whose kmalloc fails returns -ENOMEM and leaves the device as it is, so
    that the payload is still the next one to be read. *)
Theorem ring_reads_in_put_order d payloads k p :
  ring_wf (ring d) ->
  ring_count (ring d) = 0 ->
  Z.of_nat (length payloads) <= ring_size (ring d) ->
  Forall (fun p => Z.of_nat (length p) <= ring_buffer_size (ring d)) payloads ->
  ring_buffer_size (ring d) < 2 ^ 31 ->
  payloads !! k = Some p ->
  let size := ring_buffer_size (ring d) in
  let d1 := put_all d payloads in
  let dk := Nat.iter k (fun d' => read_dev (antsdr_dma_read true true d' size)) d1 in
  ring_count (ring d1) = Z.of_nat (length payloads)
  /\ read_ret (antsdr_dma_read true true dk size) = size
  /\ take (length p) (read_bytes (antsdr_dma_read true true dk size)) = p
  /\ forall copy_ok,
       antsdr_dma_read false copy_ok dk size = mk_read (- ENOMEM) [] dk.
Proof.
  intros Hwf Hempty Hroom Hfit Hint Hp size d1 dk.
  destruct (ring_contents_put_all payloads d Hwf ltac:(lia) Hfit) as (slots & Hall & Hslots).
  assert (Hnil : ring_contents (ring d) = []).
  { unfold ring_contents. by rewrite Hempty. }
  rewrite Hnil, app_nil_l in Hall. fold d1 in Hall.
  pose proof (put_all_wf d payloads Hwf) as Hwf1. fold d1 in Hwf1.
  assert (Hcount : ring_count (ring d1) = Z.of_nat (length payloads)).
  { pose proof (ring_contents_length (ring d1)) as Hlen.
    rewrite Hall in Hlen.
    apply Forall2_length in Hslots as Hlen2.
    destruct Hwf1. lia. }
  split; [exact Hcount|].
  destruct (ring_contents_reads k d1 size Hwf1) as (Hwfk & Hk & Hsizek).
  fold dk in Hwfk, Hk, Hsizek.
  destruct (Forall2_lookup_r _ _ _ _ _ Hslots Hp) as (slot & Hslot & Htake).
  assert (Hhead : ring_contents (ring dk) !! 0%nat = Some slot).
  { rewrite Hk, lookup_drop, Hall, Nat.add_0_r. exact Hslot. }
  assert (Hne : ring_count (ring dk) <> 0).
  { pose proof (ring_contents_length (ring dk)) as Hlen.
    apply lookup_lt_Some in Hhead. lia. }
  rewrite ring_contents_get in Hhead by done. injection Hhead as Hhead.
  pose proof (put_all_buffer_size payloads d) as Hsize1. fold d1 in Hsize1.
  apply Forall_lookup_1 with (i := k) (x := p) in Hfit; [|done].
  fold size in Hfit, Hsize1, Hint.
  rewrite dma_read_spec by (rewrite ?Hsizek, ?Hsize1; lia).
  cbn zeta. rewrite Hsizek, Hsize1, Z.min_id, Hhead.
  split_and!.
  - by destruct (0 <? size).
  - destruct (Z.ltb_spec 0 size) as [Hpos|Hzero]; cbn [read_bytes].
    + unfold slice. rewrite drop_0.
      rewrite <- Htake at 2.
      rewrite take_take. f_equal. lia.
    + destruct p; [done|cbn [length] in Hfit; lia].
  - reflexivity.
Qed.

(** ** More on the frame extractor *)

Lemma words_of_drop a : forall data,
  words_of (drop (4 * a) data) = drop a (words_of data).
Proof.
  induction a as [|a IH]; intros data; [done|].
  replace (4 * S a)%nat with (4 + 4 * a)%nat by lia.
  destruct data as [|b0 [|b1 [|b2 [|b3 rest]]]];
    cbn [drop Nat.add words_of]; first [done|apply IH].
Qed.

Lemma words_of_take n : forall data,
  words_of (take (4 * n) data) = take n (words_of data).
Proof.
  induction n as [|n IH]; intros data; [done|].
  replace (4 * S n)%nat with (4 + 4 * n)%nat by lia.
  destruct data as [|b0 [|b1 [|b2 [|b3 rest]]]]; try done.
  cbn [take Nat.add words_of]. f_equal. apply IH.
Qed.

Lemma words_of_slice data (a n : nat) :
  words_of (slice data (Z.of_nat a * 4) (Z.of_nat n * 4))
  = take n (drop a (words_of data)).
Proof.
  unfold slice.
  replace (Z.to_nat (Z.of_nat n * 4)) with (4 * n)%nat by lia.
  replace (Z.to_nat (Z.of_nat a * 4)) with (4 * a)%nat by lia.
  by rewrite words_of_take, words_of_drop.
Qed.

(** X5.  The payload of a valid frame is made of the words strictly between the
    start marker and the frame counter, in order; the counter, the word
    before the end marker, goes to the gap tracker and not into the
    payload. *)
Theorem valid_payload_words d data h f :
  first_header (words_of data) h ->
  last_footer (words_of data) f ->
  Z.of_nat f - Z.of_nat h + 1 = expected_frame_words d ->
  exists payload,
    fst (antsdr_parse_fpga_frame d data) = FrameValid payload
    /\ words_of payload
       = take (Z.to_nat (expected_frame_words d - 3)) (drop (S h) (words_of data))
    /\ Z.of_nat (length (words_of payload)) = expected_frame_words d - 3
    /\ (forall k w, words_of payload !! k = Some w ->
          words_of data !! (S h + k)%nat = Some w /\ (S h + k < f - 1)%nat)
    /\ gap (snd (antsdr_parse_fpga_frame d data))
       = gap_track (gap d) (word_at (words_of data) (Z.of_nat (f - 1))).
Proof.
  intros Hh Hf Hspan.
  rewrite (parse_valid d data h f Hh Hf Hspan). cbn [fst snd].
  pose proof (expected_frame_words_cases d) as Hcases.
  unfold FPGA_SHORT_PULSE_WORDS, FPGA_LONG_PULSE_WORDS in Hcases.
  set (n := Z.to_nat (expected_frame_words d - 3)).
  assert (Hwords :
    words_of (slice data ((Z.of_nat h + 1) * 4) ((expected_frame_words d - 3) * 4))
    = take n (drop (S h) (words_of data))).
  { rewrite <- words_of_slice.
    replace (Z.of_nat (S h) * 4) with ((Z.of_nat h + 1) * 4) by lia.
    replace (Z.of_nat n * 4) with ((expected_frame_words d - 3) * 4); [done|].
    unfold n. destruct Hcases as [-> | ->]; reflexivity. }
  assert (Hflen : (f < length (words_of data))%nat)
    by (destruct Hf as [Hf _]; by apply lookup_lt_Some in Hf).
  eexists. split; [reflexivity|]. rewrite Hwords. split_and!.
  - reflexivity.
  - rewrite length_take, length_drop. unfold n. lia.
  - intros k w Hk.
    apply lookup_take_Some in Hk as [Hk Hlt].
    rewrite lookup_drop in Hk. split; [exact Hk|]. unfold n in Hlt. lia.
  - cbn [gap set_gap]. do 2 f_equal. lia.
Qed.

Lemma parse_no_header d data :
  (forall j w, words_of data !! j = Some w -> is_header w = false) ->
  antsdr_parse_fpga_frame d data
  = (FrameNoMarkers,
     set_total_frames_processed (u32 (total_frames_processed d + 1)) d).
Proof.
  intros Hnone. unfold antsdr_parse_fpga_frame.
  rewrite (surjective_pairing (scan_markers (words_of data) 0 (-1) (-1))).
  rewrite scan_markers_no_header by done. reflexivity.
Qed.

(** X6.  A transfer without a start marker is dropped whatever else it holds, be
    it end markers or less than one word: the parser returns -1 through its
    last branch and nothing is kept, neither in the detection buffer nor in
    the ring nor in the gap tracker; the frame worker counts one invalid
    frame. *)
Theorem no_start_marker_dropped d data :
  (forall j w, words_of data !! j = Some w -> is_header w = false) ->
  fst (antsdr_parse_fpga_frame d data) = FrameNoMarkers
  /\ frame_work_frame d data
     = Some (count_invalid_frame
               (set_total_frames_processed (u32 (total_frames_processed d + 1)) d))
  /\ forall d', frame_work_frame d data = Some d' ->
       fbuf d' = fbuf d /\ ring d' = ring d /\ gap d' = gap d
       /\ invalid_frames (stats d') = ulong (invalid_frames (stats d) + 1)
       /\ valid_frames (stats d') = valid_frames (stats d).
Proof.
  intros Hnone.
  pose proof (parse_no_header d data Hnone) as Hparse.
  unfold frame_work_frame. rewrite Hparse. cbn [fst].
  split_and!; [done..|]. by intros d' [= <-].
Qed.

(** ** More on the reprocessing pass *)

Lemma same_control_refl d : same_control d d.
Proof. by repeat split. Qed.

Lemma same_control_trans d1 d2 d3 :
  same_control d1 d2 -> same_control d2 d3 -> same_control d1 d3.
Proof.
  clear kfree_leaves. unfold same_control. intuition congruence. Qed.

Lemma ring_put_same_control d data : same_control d (snd (antsdr_ring_put d data)).
Proof.
  unfold antsdr_ring_put.
  destruct (_ <? _); [apply same_control_refl|].
  destruct (_ <=? _); [apply same_control_refl|]. by repeat split.
Qed.

Lemma ring_put_ok_count d data :
  ring_wf (ring d) ->
  fst (antsdr_ring_put d data) = 0 ->
  ring_count (ring (snd (antsdr_ring_put d data))) = ring_count (ring d) + 1.
Proof.
  intros Hwf. unfold antsdr_ring_put.
  destruct (_ <? _); [done|].
  destruct (Z.leb_spec (ring_size (ring d)) (ring_count (ring d))); [done|].
  intros _. cbn [snd]. rewrite ring_set_ring. cbn [ring_count].
  destruct Hwf. apply u32_small. lia.
Qed.

Lemma ulong_add_l a b : ulong (ulong a + b) = ulong (a + b).
Proof. unfold ulong. apply Zplus_mod_idemp_l. Qed.

(* What the loop of the reprocessing pass changes: one payload in the ring
   and one count of [valid_frames] and [extracted_frames] per frame found,
   and nothing else besides the pending flag of the packetizer. *)
Lemma frame_buffer_scan_accounting fuel : forall buf words word_count size i found d,
  ring_wf (ring d) ->
  let r := frame_buffer_scan fuel buf words word_count size i found d in
  found <= fst r
  /\ ring_wf (ring (snd r))
  /\ ring_count (ring (snd r)) = ring_count (ring d) + (fst r - found)
  /\ ulong (valid_frames (stats (snd r)))
     = ulong (valid_frames (stats d) + (fst r - found))
  /\ ulong (extracted_frames (stats (snd r)))
     = ulong (extracted_frames (stats d) + (fst r - found))
  /\ invalid_frames (stats (snd r)) = invalid_frames (stats d)
  /\ errors (stats (snd r)) = errors (stats d)
  /\ gap (snd r) = gap d
  /\ fbuf (snd r) = fbuf d
  /\ same_control d (snd r)
  /\ (found < fst r \/ udp_work_pending d = true -> udp_work_pending (snd r) = true).
Proof.
  clear kfree_leaves.
  induction fuel as [|fuel IH]; intros buf words wc size i found d Hwf.
  - cbn. rewrite !Z.sub_diag, !Z.add_0_r.
    split_and!;
      first [done|apply same_control_refl|lia|by intros [?|?]; [lia|]].
  - cbn [frame_buffer_scan].
    assert (Hstop :
      found <= found /\ ring_wf (ring d)
      /\ ring_count (ring d) = ring_count (ring d) + (found - found)
      /\ ulong (valid_frames (stats d)) = ulong (valid_frames (stats d) + (found - found))
      /\ ulong (extracted_frames (stats d))
         = ulong (extracted_frames (stats d) + (found - found))
      /\ invalid_frames (stats d) = invalid_frames (stats d)
      /\ errors (stats d) = errors (stats d)
      /\ gap d = gap d /\ fbuf d = fbuf d /\ same_control d d
      /\ (found < found \/ udp_work_pending d = true -> udp_work_pending d = true)).
    { rewrite !Z.sub_diag, !Z.add_0_r.
      split_and!;
      first [done|apply same_control_refl|lia|by intros [?|?]; [lia|]]. }
    destruct (i <? wc - 1); [|exact Hstop].
    destruct (is_header (word_at words i)); [|by apply IH].
    destruct (i + size <=? wc); [|by apply IH].
    destruct (word_at words (i + size - 1) =? FPGA_FOOTER_MARKER); [|by apply IH].
    pose proof (ring_put_wf d (recovered_payload buf size i) Hwf) as Hwf1.
    pose proof (ring_put_ok_count d (recovered_payload buf size i) Hwf) as Hcount.
    pose proof (ring_put_refused d (recovered_payload buf size i)) as Hrefused.
    pose proof (ring_put_frame d (recovered_payload buf size i))
      as (Hstats & Hgap & Hfbuf & _).
    pose proof (ring_put_same_control d (recovered_payload buf size i)) as Hctl.
    destruct (antsdr_ring_put d (recovered_payload buf size i)) as [ret d1].
    cbn [fst snd] in *.
    destruct (Z.eqb_spec ret 0) as [Hret|Hret].
    + specialize (IH buf words wc size (i + (size - 1) + 1) (found + 1)
                    (set_udp_work_pending true (count_valid_frame d1)) Hwf1).
      cbn zeta in IH.
      destruct (frame_buffer_scan fuel buf words wc size (i + (size - 1) + 1)
                  (found + 1) (set_udp_work_pending true (count_valid_frame d1)))
        as [found' d'].
      cbn [fst snd] in *.
      destruct IH as (Hle & Hwf' & Hc & Hv & He & Hi & Her & Hg & Hf & Hct & Hpend).
      change (ring (set_udp_work_pending true (count_valid_frame d1)))
        with (ring d1) in Hc.
      cbn [count_valid_frame set_udp_work_pending set_stats stats valid_frames
             extracted_frames invalid_frames errors gap fbuf] in Hv, He, Hi, Her, Hg, Hf.
      rewrite Hstats in Hv, He, Hi, Her.
      rewrite ulong_add_l in Hv, He.
      split_and!.
      * lia.
      * exact Hwf'.
      * rewrite Hc, (Hcount Hret). lia.
      * rewrite Hv. f_equal. lia.
      * rewrite He. f_equal. lia.
      * exact Hi.
      * exact Her.
      * congruence.
      * congruence.
      * eapply same_control_trans; [exact Hctl|].
        eapply same_control_trans; [|exact Hct]. by repeat split.
      * intros _. apply Hpend. by right.
    + rewrite (Hrefused Hret) in *. by apply IH.
Qed.

(** X8.  The reprocessing pass accounts for what it finds.  On an initialised
    ring, the number of frames it reports is the number of payloads it added
    to the ring and the number of times it incremented [valid_frames] and
    [extracted_frames]; it never counts an error or an invalid frame and
    never touches the gap tracker; with eight bytes or more in the detection
    buffer it leaves the buffer empty, with fewer it changes nothing at
    all. *)
Theorem reprocessing_accounting d :
  ring_wf (ring d) ->
  let r := antsdr_frame_buffer_process d in
  0 <= fst r
  /\ ring_count (ring (snd r)) = ring_count (ring d) + fst r
  /\ ulong (valid_frames (stats (snd r))) = ulong (valid_frames (stats d) + fst r)
  /\ ulong (extracted_frames (stats (snd r)))
     = ulong (extracted_frames (stats d) + fst r)
  /\ invalid_frames (stats (snd r)) = invalid_frames (stats d)
  /\ errors (stats (snd r)) = errors (stats d)
  /\ gap (snd r) = gap d
  /\ (8 <= frame_buffer_used (fbuf d) ->
      frame_buffer_used (fbuf (snd r)) = 0 /\ frames_accumulated (fbuf (snd r)) = 0)
  /\ (frame_buffer_used (fbuf d) < 8 -> r = (0, d))
  /\ (0 < fst r -> udp_work_pending (snd r) = true).
Proof.
  clear kfree_leaves.
  intros Hwf. unfold antsdr_frame_buffer_process.
  destruct (Z.ltb_spec (frame_buffer_used (fbuf d)) 8) as [Hfew|Hmany].
  - cbn. rewrite !Z.add_0_r. split_and!; try done; lia.
  - match goal with
    | |- context [frame_buffer_scan ?n ?b ?w ?c ?s 0 0 d] =>
        pose proof (frame_buffer_scan_accounting n b w c s 0 0 d Hwf) as Hscan;
        cbn zeta in Hscan;
        destruct (frame_buffer_scan n b w c s 0 0 d) as [found d1]
    end.
    cbn [fst snd] in *. rewrite Z.sub_0_r in Hscan.
    destruct Hscan as (Hle & _ & Hc & Hv & He & Hi & Her & Hg & _ & _ & Hpend).
    split_and!; try done; try lia.
    intros Hfound. apply Hpend. by left.
Qed.

(* In long pulse mode every payload of the reprocessing pass is 1604 bytes
   and the ring refuses it. *)
Lemma frame_buffer_scan_long fuel : forall buf words word_count i found d,
  ring_buffer_size (ring d) = RING_BUFFER_SIZE ->
  word_count * 4 <= Z.of_nat (length buf) ->
  0 <= i ->
  frame_buffer_scan fuel buf words word_count FPGA_LONG_PULSE_WORDS i found d
  = (found, d).
Proof.
  induction fuel as [|fuel IH]; intros buf words wc i found d Hsize Hbuf Hi; [done|].
  cbn [frame_buffer_scan].
  destruct (i <? wc - 1); [|done].
  destruct (is_header (word_at words i)); [|apply IH; lia].
  destruct (Z.leb_spec (i + FPGA_LONG_PULSE_WORDS) wc) as [Hfits|]; [|apply IH; lia].
  destruct (word_at words (i + FPGA_LONG_PULSE_WORDS - 1) =? FPGA_FOOTER_MARKER);
    [|apply IH; lia].
  assert (Hput : antsdr_ring_put d (recovered_payload buf FPGA_LONG_PULSE_WORDS i)
                 = (- EINVAL, d)).
  { unfold antsdr_ring_put.
    rewrite recovered_payload_length, Hsize;
      [reflexivity|lia|done|unfold FPGA_LONG_PULSE_WORDS in *; lia]. }
  rewrite Hput. cbn [Z.eqb EINVAL Z.opp]. apply IH; [done..|].
  unfold FPGA_LONG_PULSE_WORDS. lia.
Qed.

(** X9.  In long pulse mode the reprocessing pass never emits a frame, whatever
    the detection buffer holds: its payload would be (403 - 2) * 4 = 1604
    bytes, four more than a ring slot.  It reports 0 frames and leaves the
    ring and the statistics as they are. *)
Theorem reprocessing_long_mode_emits_nothing d :
  pulse_mode d <> 0 ->
  ring_buffer_size (ring d) = RING_BUFFER_SIZE ->
  frame_buffer_used (fbuf d) <= Z.of_nat (length (frame_detection_buffer (fbuf d))) ->
  let r := antsdr_frame_buffer_process d in
  fst r = 0 /\ ring (snd r) = ring d /\ stats (snd r) = stats d
  /\ udp_work_pending (snd r) = udp_work_pending d.
Proof.
  intros Hmode Hsize Hused. unfold antsdr_frame_buffer_process.
  destruct (Z.ltb_spec (frame_buffer_used (fbuf d)) 8) as [|Hmany]; [done|].
  destruct (Z.eqb_spec (pulse_mode d) 0); [done|].
  rewrite frame_buffer_scan_long; [done|done| |lia].
  pose proof (Z.mul_div_le (frame_buffer_used (fbuf d)) 4 ltac:(lia)). lia.
Qed.

(** ** The frame worker in the pipeline *)

Lemma frame_buffer_add_no_overflow d data :
  fbuf_bounded (fbuf d) ->
  Z.of_nat (length data) <= FRAME_DETECTION_BUFFER_SIZE / 2 ->
  fst (antsdr_frame_buffer_add d data) = 0.
Proof.
  intros [Hsize Hcount Hwords Hused] Hlen. unfold antsdr_frame_buffer_add.
  rewrite Hsize.
  change (FRAME_DETECTION_BUFFER_SIZE / 2) with 32768 in *.
  change FRAME_DETECTION_BUFFER_SIZE with 65536.
  by destruct (Z.ltb_spec 65536 (frame_buffer_used (fbuf d) + Z.of_nat (length data)));
    [lia|].
Qed.

Lemma fbuf_bounded_reset d :
  fbuf_bounded (fbuf d) -> fbuf_bounded (fbuf (antsdr_frame_buffer_reset d)).
Proof.
  intros [Hsize Hcount Hwords Hused].
  split; cbn [antsdr_frame_buffer_reset fbuf set_fbuf frame_buffer_used
                frame_buffer_size frames_accumulated]; try done.
Qed.

(* The three ways the frame worker accounts for a raw frame. *)
Lemma counted_once_valid d d0 :
  stats d0 = stats d ->
  let s := stats d in
  let s' := stats (count_valid_frame d0) in
  ulong (valid_frames s' + invalid_frames s' + errors s')
  = ulong (valid_frames s + invalid_frames s + errors s + 1).
Proof.
  intros Hstats. cbn [count_valid_frame set_stats stats valid_frames invalid_frames errors].
  rewrite Hstats. rewrite <- !Z.add_assoc, ulong_add_l. f_equal. lia.
Qed.

Lemma counted_once_invalid d d0 :
  stats d0 = stats d ->
  let s := stats d in
  let s' := stats (count_invalid_frame d0) in
  ulong (valid_frames s' + invalid_frames s' + errors s')
  = ulong (valid_frames s + invalid_frames s + errors s + 1).
Proof.
  intros Hstats.
  cbn [count_invalid_frame set_stats stats valid_frames invalid_frames errors].
  rewrite Hstats.
  replace (valid_frames (stats d) + ulong (invalid_frames (stats d) + 1) + errors (stats d))
    with (ulong (invalid_frames (stats d) + 1) + (valid_frames (stats d) + errors (stats d)))
    by lia.
  rewrite ulong_add_l. f_equal. lia.
Qed.

Lemma counted_once_error d d0 :
  stats d0 = stats d ->
  let s := stats d in
  let s' := stats (count_error d0) in
  ulong (valid_frames s' + invalid_frames s' + errors s')
  = ulong (valid_frames s + invalid_frames s + errors s + 1).
Proof.
  intros Hstats. cbn [count_error set_stats stats valid_frames invalid_frames errors].
  rewrite Hstats.
  replace (valid_frames (stats d) + invalid_frames (stats d) + ulong (errors (stats d) + 1))
    with (ulong (errors (stats d) + 1) + (valid_frames (stats d) + invalid_frames (stats d)))
    by lia.
  rewrite ulong_add_l. f_equal. lia.
Qed.

(* One raw frame through the frame worker, with everything the pipeline
   relies on. *)
Lemma frame_work_frame_step d raw :
  fbuf_clean (fbuf d) ->
  fbuf_bounded (fbuf d) ->
  Z.of_nat (length raw) mod 4 = 0 ->
  Z.of_nat (length raw) <= FRAME_DETECTION_BUFFER_SIZE / 2 ->
  exists d',
    frame_work_frame d raw = Some d'
    /\ fbuf_clean (fbuf d')
    /\ fbuf_bounded (fbuf d')
    /\ same_control d d'
    /\ ulong (valid_frames (stats d') + invalid_frames (stats d') + errors (stats d'))
       = ulong (valid_frames (stats d) + invalid_frames (stats d) + errors (stats d) + 1).
Proof.
  intros Hclean Hbounded Hlen Hmax.
  unfold frame_work_frame, antsdr_parse_fpga_frame.
  set (d0 := set_total_frames_processed _ d).
  assert (Hclean0 : fbuf_clean (fbuf d0)) by exact Hclean.
  assert (Hbounded0 : fbuf_bounded (fbuf d0)) by exact Hbounded.
  assert (Hctl0 : same_control d d0) by (by repeat split).
  assert (Hstats0 : stats d0 = stats d) by reflexivity.
  destruct (scan_markers (words_of raw) 0 (-1) (-1)) as [hp fp] eqn:Hscan.
  destruct (Z.eqb_spec hp (-1)) as [Hhp|Hhp]; cbn [negb andb].
  - eexists. split; [reflexivity|].
    split_and!; [done|done|by repeat split|by apply counted_once_invalid].
  - destruct (Z.eqb_spec fp (-1)) as [Hfp|Hfp]; cbn [negb].
    + assert (Hdata : forall j w, words_of raw !! j = Some w -> w <> FPGA_FOOTER_MARKER).
      { apply (scan_markers_footer_none _ 0 (-1)); [lia|]. by rewrite Hscan. }
      assert (Hword : 4 <= Z.of_nat (length raw)).
      { pose proof (words_of_length raw).
        destruct (words_of raw) as [|w ws] eqn:Hws; [|simpl in *; lia].
        simpl in Hscan. by injection Hscan as <- <-. }
      pose proof (frame_buffer_add_clean d0 raw Hclean0 Hlen Hdata) as Hadd.
      pose proof (frame_buffer_add_no_overflow d0 raw Hbounded0 Hmax) as Hret.
      destruct Hbounded0 as [Hsize Hcount Hwords Hused].
      change (FRAME_DETECTION_BUFFER_SIZE / 2) with 32768 in *.
      revert Hadd Hret. unfold antsdr_frame_buffer_add.
      destruct (_ <? _); [done|].
      cbn [fst snd Z.eqb fbuf set_fbuf frames_accumulated frame_buffer_used].
      rewrite !u32_small by lia. intros Hadd _.
      set (d1 := set_fbuf _ d0) in *.
      destruct (Z.leb_spec 3 (frames_accumulated (fbuf d0) + 1)) as [Hthree|Hthree];
        destruct (Z.leb_spec 32768
                    (frame_buffer_used (fbuf d0) + Z.of_nat (length raw)))
          as [Hhalf|Hhalf]; cbn [orb].
      1-3: rewrite (frame_buffer_process_clean_exact d1 Hadd);
           cbn [fbuf set_fbuf frame_buffer_used d1];
           destruct (Z.ltb_spec (frame_buffer_used (fbuf d0) + Z.of_nat (length raw)) 8);
             [lia|];
           cbn [Z.ltb Z.compare];
           eexists; (split; [reflexivity|]);
           (split_and!;
             [by apply (fbuf_clean_reset d1)
             |split; cbn [count_invalid_frame set_stats antsdr_frame_buffer_reset
                            fbuf set_fbuf d1 frame_buffer_size frames_accumulated
                            frame_buffer_used]; done
             |by repeat split
             |by apply counted_once_invalid]).
      eexists. split; [reflexivity|].
      split_and!; [exact Hadd| |by repeat split|by apply counted_once_invalid].
      split; cbn [count_invalid_frame set_stats fbuf set_fbuf d1 frame_buffer_size
                    frames_accumulated frame_buffer_used]; try done.
      * lia.
      * lia.
    + destruct (_ =? expected_frame_words d0);
        [|eexists; split; [reflexivity|];
          split_and!; [done|done|by repeat split|by apply counted_once_invalid]].
      set (d1 := if hp + 1 <? fp then _ else d0).
      assert (Hfb1 : fbuf d1 = fbuf d0) by (unfold d1; by destruct (_ <? _)).
      assert (Hctl1 : same_control d d1) by (unfold d1; destruct (_ <? _); by repeat split).
      assert (Hstats1 : stats d1 = stats d) by (unfold d1; by destruct (_ <? _)).
      destruct (3 <=? fp - hp + 1);
        [|eexists; split; [reflexivity|];
          split_and!;
            [cbn [count_invalid_frame set_stats fbuf]; by rewrite Hfb1
            |cbn [count_invalid_frame set_stats fbuf]; by rewrite Hfb1
            |done
            |by apply counted_once_invalid]].
      cbv zeta.
      match goal with
      | |- context [antsdr_ring_put d1 ?stored] =>
          pose proof (ring_put_frame d1 stored) as (Hstats2 & _ & Hfbuf & _);
          pose proof (ring_put_same_control d1 stored) as Hctl2
      end.
      destruct (antsdr_ring_put d1 _) as [ret d2]. cbn [snd] in *.
      destruct (ret =? 0); eexists; (split; [reflexivity|]).
      * split_and!.
        -- cbn [count_valid_frame set_stats set_udp_work_pending fbuf].
           by rewrite Hfbuf, Hfb1.
        -- cbn [count_valid_frame set_stats set_udp_work_pending fbuf].
           by rewrite Hfbuf, Hfb1.
        -- eapply same_control_trans; [exact Hctl1|].
           eapply same_control_trans; [exact Hctl2|]. by repeat split.
        -- apply counted_once_valid. cbn [set_udp_work_pending stats]. congruence.
      * split_and!.
        -- cbn [count_error set_stats fbuf]. by rewrite Hfbuf, Hfb1.
        -- cbn [count_error set_stats fbuf]. by rewrite Hfbuf, Hfb1.
        -- eapply same_control_trans; [exact Hctl1|].
           eapply same_control_trans; [exact Hctl2|]. by repeat split.
        -- apply counted_once_error. congruence.
Qed.

Lemma frame_work_loop_spec budget : forall d,
  fbuf_clean (fbuf d) ->
  fbuf_bounded (fbuf d) ->
  Forall frame_fits (raw_frame_fifo d) ->
  exists d',
    frame_work_loop budget d = Some d'
    /\ raw_frame_fifo d' = drop budget (raw_frame_fifo d)
    /\ frame_work_pending d' = frame_work_pending d
    /\ pulse_mode d' = pulse_mode d
    /\ ulong (frames_accounted d')
       = ulong (frames_accounted d
                + Z.of_nat (Nat.min budget (length (raw_frame_fifo d))))
    /\ fbuf_clean (fbuf d')
    /\ fbuf_bounded (fbuf d').
Proof.
  induction budget as [|budget IH]; intros d Hclean Hbounded Hfits.
  - exists d. cbn [frame_work_loop drop Nat.min Z.of_nat].
    by rewrite Z.add_0_r.
  - cbn [frame_work_loop].
    destruct (raw_frame_fifo d) as [|raw rest] eqn:Hfifo.
    + exists d. rewrite Hfifo. cbn [drop length Nat.min Z.of_nat].
      by rewrite Z.add_0_r.
    + inversion Hfits as [|? ? [Hlen Hmax] Hrest]; subst.
      destruct (frame_work_frame_step (set_raw_frame_fifo rest d) raw)
        as (d1 & -> & Hclean1 & Hbounded1 & Hctl & Hsum); [done..|].
      destruct Hctl as (Hfifo1 & Hpending1 & Hmode1 & _).
      cbn [set_raw_frame_fifo raw_frame_fifo frame_work_pending pulse_mode stats]
        in Hfifo1, Hpending1, Hmode1, Hsum.
      destruct (IH d1) as (d' & Hloop & Hfifo' & Hpending' & Hmode' & Hsum'
                           & Hclean' & Hbounded'); [done|done|by rewrite Hfifo1|].
      exists d'. split_and!; try done.
      * by rewrite Hfifo', Hfifo1.
      * congruence.
      * congruence.
      * rewrite Hsum'. unfold frames_accounted in *.
        rewrite Hfifo1. cbn [length Nat.min].
        rewrite <- ulong_add_l, Hsum, ulong_add_l. f_equal. lia.
Qed.

(** X11.  One run of the frame worker on a queue of whole-word transfers, none
    longer than half the detection buffer, starting from a detection
    buffer in its steady state: the run is defined, it consumes the first
    50 queued transfers in order and leaves the others queued, every
    consumed transfer is counted exactly once as valid, invalid or error,
    the pending flag is cleared exactly when the queue was emptied, and
    the detection buffer is again in its steady state. *)
Theorem frame_work_batch d :
  fbuf_clean (fbuf d) ->
  fbuf_bounded (fbuf d) ->
  Forall frame_fits (raw_frame_fifo d) ->
  exists d',
    antsdr_frame_work d = Some d'
    /\ raw_frame_fifo d' = drop 50 (raw_frame_fifo d)
    /\ frame_work_pending d'
       = (if (length (raw_frame_fifo d) <=? 50)%nat then false
          else frame_work_pending d)
    /\ pulse_mode d' = pulse_mode d
    /\ ulong (frames_accounted d')
       = ulong (frames_accounted d
                + Z.of_nat (Nat.min 50 (length (raw_frame_fifo d))))
    /\ fbuf_clean (fbuf d')
    /\ fbuf_bounded (fbuf d').
Proof.
  intros Hclean Hbounded Hfits.
  destruct (frame_work_loop_spec 50 d Hclean Hbounded Hfits)
    as (d1 & Hloop & Hfifo & Hpending & Hmode & Hsum & Hclean1 & Hbounded1).
  unfold antsdr_frame_work. rewrite Hloop.
  destruct (Nat.leb_spec (length (raw_frame_fifo d)) 50) as [Hle|Hgt].
  - rewrite drop_ge in Hfifo by lia. rewrite Hfifo.
    eexists. split; [reflexivity|].
    cbn [set_frame_work_pending raw_frame_fifo frame_work_pending pulse_mode fbuf].
    split_and!; try done. by rewrite drop_ge by lia.
  - destruct (raw_frame_fifo d1) as [|raw rest] eqn:Hfifo1.
    + apply (f_equal length) in Hfifo. rewrite length_drop in Hfifo.
      cbn [length] in Hfifo. lia.
    + eexists. split; [reflexivity|]. split_and!; try done.
      by rewrite Hfifo1.
Qed.

(** ** The packetizer: every datagram of a run *)

Lemma u32_add_l a b : u32 (u32 a + b) = u32 (a + b).
Proof. unfold u32. by rewrite Zplus_mod_idemp_l. Qed.

(* Without a socket or a destination the [for] loop sends nothing and
   touches no counter. *)
Lemma udp_fragment_loop_skipped n : forall l i o ps d,
  sock d && dest_set d = false ->
  let r := udp_fragment_loop n l i o ps d in
  out_sent r = [] /\ out_aborted r = false /\ out_packets_sent r = ps
  /\ stats (out_dev r) = stats d.
Proof.
  induction n as [|n IH]; intros l i o ps d Hoff; cbn [udp_fragment_loop]; [done|].
  unfold udp_fragment_step.
  cbn [set_packet_sequence_number sock dest_set]. rewrite Hoff.
  match goal with
  | |- context [udp_fragment_loop n l ?i' ?o' ?ps' ?d'] =>
      destruct (IH l i' o' ps' d' Hoff) as (? & ? & ? & ?)
  end.
  done.
Qed.

(* The sent counter moves by the number of datagrams handed to the socket. *)
Lemma udp_fragment_loop_counted n : forall l i o ps d,
  let r := udp_fragment_loop n l i o ps d in
  ulong (udp_packets_sent (stats (out_dev r)))
  = ulong (udp_packets_sent (stats d) + Z.of_nat (length (out_sent r))).
Proof.
  induction n as [|n IH]; intros l i o ps d; cbn [udp_fragment_loop].
  - cbn [out_dev out_sent length Z.of_nat]. by rewrite Z.add_0_r.
  - unfold udp_fragment_step.
    cbn [set_packet_sequence_number sock dest_set].
    destruct (sock d && dest_set d).
    + destruct (0 <? kernel_sendmsg _).
      * cbn [out_dev out_sent length].
        match goal with
        | |- context [udp_fragment_loop n l ?i' ?o' ?ps' ?d'] =>
            pose proof (IH l i' o' ps' d') as IH'
        end.
        cbn zeta in IH'. rewrite IH'.
        cbn [count_packet_sent set_stats stats udp_packets_sent
               set_packet_sequence_number].
        rewrite ulong_add_l. f_equal. lia.
      * cbn [out_dev out_sent length Z.of_nat count_error set_stats stats
               udp_packets_sent].
        by rewrite Z.add_0_r.
    + match goal with
      | |- context [udp_fragment_loop n l ?i' ?o' ?ps' ?d'] =>
          exact (IH l i' o' ps' d')
      end.
Qed.

(* The datagrams of one slot, whatever kernel_sendmsg answers. *)
Lemma udp_fragment_loop_datagrams n : forall l i o ps d (k : nat) p,
  0 <= o ->
  Z.of_nat n = fragments_left (payload_len l) o ->
  payload_len l <= Z.of_nat (length (ring_slot d (ring_data l))) ->
  payload_len l < 2 ^ 32 ->
  out_sent (udp_fragment_loop n l i o ps d) !! k = Some p ->
  datagram_ok (packet_sequence_number d) (missing_frame_count (gap d)) k p.
Proof.
  unfold datagram_ok.
  induction n as [|n IH]; intros l i o ps d k p Ho Hn Hslot Hlen; [done|].
  assert (Hlt : o < payload_len l) by (apply fragments_left_pos; lia).
  destruct (sock d && dest_set d) eqn:Hon.
  - cbn [udp_fragment_loop]. unfold udp_fragment_step.
    cbn [set_packet_sequence_number sock dest_set]. rewrite Hon.
    destruct (0 <? kernel_sendmsg _); [|done].
    cbn [out_sent]. destruct k as [|k]; cbn [lookup list_lookup].
    + intros [= <-].
      cbn [udp_fragment header packet_payload hdr.sequence_number hdr.payload_length
             hdr.total_length hdr.checksum hdr.start_marker hdr.end_marker
             hdr.missing_frame_count].
      set (size := Z.min (payload_len l - o) ANTSDR_MAX_PAYLOAD_SIZE).
      assert (Hsize : 0 < size <= ANTSDR_MAX_PAYLOAD_SIZE)
        by (unfold size, ANTSDR_MAX_PAYLOAD_SIZE; lia).
      assert (Hslice : Z.of_nat (length (slice (ring_slot d (ring_data l)) o size))
                       = size).
      { unfold slice. rewrite length_take, length_drop.
        unfold size in *. lia. }
      rewrite Hslice, Z.add_0_r.
      unfold ANTSDR_MAX_PAYLOAD_SIZE, ANTSDR_PACKET_HEADER_SIZE in *.
      rewrite !(u32_small size), (u32_small (_ + size)) by lia. done.
    + intros Hk.
      eapply IH in Hk; [|unfold ANTSDR_MAX_PAYLOAD_SIZE; lia
                        |rewrite fragments_left_step by done; lia
                        |exact Hslot|exact Hlen].
      cbn [count_packet_sent set_stats set_packet_sequence_number
             packet_sequence_number gap] in Hk.
      rewrite u32_add_l in Hk.
      by replace (packet_sequence_number d + Z.of_nat (S k))
        with (packet_sequence_number d + 1 + Z.of_nat k) by lia.
  - by rewrite (proj1 (udp_fragment_loop_skipped (S n) l i o ps d Hon)).
Qed.

(* Where the sequence number stands after a slot that was sent whole. *)
Lemma udp_fragment_loop_sequence n : forall l i o ps d,
  sock d && dest_set d = true ->
  let r := udp_fragment_loop n l i o ps d in
  out_aborted r = false ->
  u32 (packet_sequence_number (out_dev r))
  = u32 (packet_sequence_number d + Z.of_nat (length (out_sent r))).
Proof.
  induction n as [|n IH]; intros l i o ps d Hon; cbn [udp_fragment_loop].
  - cbn [out_dev out_sent length Z.of_nat]. by rewrite Z.add_0_r.
  - unfold udp_fragment_step.
    cbn [set_packet_sequence_number sock dest_set]. rewrite Hon.
    destruct (0 <? kernel_sendmsg _); [|done].
    cbn [out_dev out_sent out_aborted length]. intros Hrun.
    match goal with
    | |- context [udp_fragment_loop n l ?i' ?o' ?ps' ?d'] =>
        pose proof (IH l i' o' ps' d' Hon Hrun) as IH'
    end.
    rewrite IH'.
    cbn [count_packet_sent set_stats packet_sequence_number
           set_packet_sequence_number].
    rewrite u32_add_l. f_equal. lia.
Qed.

Lemma datagram_ok_shift seq0 seq1 missing (n k : nat) p :
  u32 seq1 = u32 (seq0 + Z.of_nat n) ->
  datagram_ok seq1 missing k p ->
  datagram_ok seq0 missing (n + k) p.
Proof.
  intros Hseq (Hnum & Hrest). split; [|exact Hrest].
  rewrite Hnum, <- u32_add_l, Hseq, u32_add_l. f_equal. lia.
Qed.

Lemma ring_tail_slot_length d :
  ring_wf (ring d) ->
  Z.of_nat (length (ring_slot d (ring_tail (ring d)))) = ring_buffer_size (ring d).
Proof.
  intros [Hpos Hu32 Hslots Hhead Htail Hcount Hht Hss].
  unfold ring_slot.
  destruct (ring_buffers (ring d) !! Z.to_nat (ring_tail (ring d))) as [slot|] eqn:Hslot.
  - cbn [default]. by eapply (Forall_lookup_1 _ _ _ _ Hss).
  - apply lookup_ge_None_1 in Hslot. lia.
Qed.

(* One pass of the [while] loop on a non-empty ring. *)
Lemma udp_work_slot_pass d ps :
  ring_wf (ring d) ->
  ring_buffer_size (ring d) = RING_BUFFER_SIZE ->
  let r := udp_work_slot d (ring_tail (ring d)) (ring_buffer_size (ring d)) ps in
  ring (out_dev r) = ring (antsdr_ring_return_buffer d)
  /\ gap (out_dev r) = gap d
  /\ sock (out_dev r) = sock d
  /\ dest_set (out_dev r) = dest_set d
  /\ ulong (udp_packets_sent (stats (out_dev r)))
     = ulong (udp_packets_sent (stats d) + Z.of_nat (length (out_sent r)))
  /\ (forall k p, out_sent r !! k = Some p ->
        datagram_ok (packet_sequence_number d) (missing_frame_count (gap d)) k p)
  /\ (sock d && dest_set d = true -> out_aborted r = false ->
      u32 (packet_sequence_number (out_dev r))
      = u32 (packet_sequence_number d + Z.of_nat (length (out_sent r))))
  /\ (sock d && dest_set d = false ->
      out_sent r = [] /\ out_aborted r = false /\ out_packets_sent r = ps
      /\ stats (out_dev r) = stats d).
Proof.
  intros Hwf Hsize. rewrite Hsize. unfold udp_work_slot.
  pose proof (udp_take_slot_frame d (ring_tail (ring d)) RING_BUFFER_SIZE) as Htake.
  assert (Hseq1 : packet_sequence_number
                    (snd (udp_take_slot d (ring_tail (ring d)) RING_BUFFER_SIZE))
                  = packet_sequence_number d
                  /\ stats (snd (udp_take_slot d (ring_tail (ring d)) RING_BUFFER_SIZE))
                     = stats d).
  { unfold udp_take_slot, antsdr_ring_return_buffer. cbn [snd].
    by destruct (0 <? _). }
  destruct (udp_take_slot d (ring_tail (ring d)) RING_BUFFER_SIZE) as [l d1].
  destruct Htake as (Hdata & Hlen & _ & Hneeded & Hring & _ & Hsock & Hdest & Hgap).
  cbn [snd] in Hseq1. destruct Hseq1 as [Hseq1 Hstats1].
  pose proof (udp_fragment_loop_frame (Z.to_nat (fragments_needed l)) l 0 0 ps d1)
    as (Hring' & Hgap' & _ & Hsock' & Hdest' & _).
  cbn zeta in *.
  split_and!.
  - by rewrite Hring'.
  - congruence.
  - congruence.
  - congruence.
  - rewrite <- Hstats1. apply udp_fragment_loop_counted.
  - intros k p Hk. rewrite <- Hseq1, <- Hgap.
    eapply udp_fragment_loop_datagrams; [| | | |exact Hk].
    + done.
    + rewrite Hneeded, Hlen. vm_compute. reflexivity.
    + rewrite Hdata, Hlen.
      assert (Hslot : ring_slot d1 (ring_tail (ring d)) = ring_slot d (ring_tail (ring d))).
      { unfold ring_slot. by rewrite Hring, ring_return_buffer_buffers. }
      rewrite Hslot, ring_tail_slot_length by done. lia.
    + rewrite Hlen. done.
  - intros Hon. rewrite <- Hseq1. apply udp_fragment_loop_sequence. congruence.
  - intros Hoff. rewrite <- Hstats1. apply udp_fragment_loop_skipped. congruence.
Qed.

Lemma udp_work_loop_skipped fuel : forall ps d,
  sock d && dest_set d = false ->
  ring_wf (ring d) ->
  ring_buffer_size (ring d) = RING_BUFFER_SIZE ->
  snd (udp_work_loop fuel ps d) = []
  /\ stats (fst (udp_work_loop fuel ps d)) = stats d.
Proof.
  induction fuel as [|fuel IH]; intros ps d Hoff Hwf Hsize; cbn [udp_work_loop]; [done|].
  destruct (ps <? 200); [|done].
  unfold antsdr_ring_get. destruct (ring_count (ring d) =? 0); [done|].
  pose proof (udp_work_slot_pass d ps Hwf Hsize)
    as (Hring & _ & Hsock & Hdest & _ & _ & _ & Hskip).
  destruct (Hskip Hoff) as (Hnil & Hrun & _ & Hstats).
  cbn zeta in *.
  destruct (udp_work_slot d (ring_tail (ring d)) (ring_buffer_size (ring d)) ps)
    as [d2 sent ps' aborted].
  cbn [out_dev out_sent out_packets_sent out_aborted] in *. subst sent aborted.
  destruct (IH ps' d2) as [IHnil IHstats].
  - congruence.
  - rewrite Hring. by apply ring_return_buffer_wf.
  - rewrite Hring, <- Hsize. apply (ring_apply_buffer_size d RingReturn).
  - destruct (udp_work_loop fuel ps' d2) as [d3 more]. cbn [fst snd] in *.
    subst more. split; [done|congruence].
Qed.

Lemma udp_work_loop_counted fuel : forall ps d,
  ring_wf (ring d) ->
  ring_buffer_size (ring d) = RING_BUFFER_SIZE ->
  ulong (udp_packets_sent (stats (fst (udp_work_loop fuel ps d))))
  = ulong (udp_packets_sent (stats d)
           + Z.of_nat (length (snd (udp_work_loop fuel ps d)))).
Proof.
  induction fuel as [|fuel IH]; intros ps d Hwf Hsize; cbn [udp_work_loop].
  - cbn [fst snd length Z.of_nat]. by rewrite Z.add_0_r.
  - destruct (ps <? 200);
      [|cbn [fst snd length Z.of_nat]; by rewrite Z.add_0_r].
    unfold antsdr_ring_get.
    destruct (ring_count (ring d) =? 0);
      [cbn [fst snd length Z.of_nat]; by rewrite Z.add_0_r|].
    pose proof (udp_work_slot_pass d ps Hwf Hsize)
      as (Hring & _ & _ & _ & Hcount & _).
    cbn zeta in *.
    destruct (udp_work_slot d (ring_tail (ring d)) (ring_buffer_size (ring d)) ps)
      as [d2 sent ps' aborted].
    cbn [out_dev out_sent out_packets_sent out_aborted] in *.
    destruct aborted; [done|].
    specialize (IH ps' d2).
    destruct (udp_work_loop fuel ps' d2) as [d3 more]. cbn [fst snd] in *.
    rewrite IH.
    + rewrite <- ulong_add_l, Hcount, ulong_add_l, length_app. f_equal. lia.
    + rewrite Hring. by apply ring_return_buffer_wf.
    + rewrite Hring, <- Hsize. apply (ring_apply_buffer_size d RingReturn).
Qed.

Lemma udp_work_loop_datagrams fuel : forall ps d (k : nat) p,
  ring_wf (ring d) ->
  ring_buffer_size (ring d) = RING_BUFFER_SIZE ->
  snd (udp_work_loop fuel ps d) !! k = Some p ->
  datagram_ok (packet_sequence_number d) (missing_frame_count (gap d)) k p.
Proof.
  induction fuel as [|fuel IH]; intros ps d k p Hwf Hsize; [done|].
  destruct (sock d && dest_set d) eqn:Hon;
    [|by rewrite (proj1 (udp_work_loop_skipped (S fuel) ps d Hon Hwf Hsize))].
  cbn [udp_work_loop].
  destruct (ps <? 200); [|done].
  unfold antsdr_ring_get. destruct (ring_count (ring d) =? 0); [done|].
  pose proof (udp_work_slot_pass d ps Hwf Hsize)
    as (Hring & Hgap & Hsock & Hdest & _ & Hsent & Hseq & _).
  cbn zeta in *.
  destruct (udp_work_slot d (ring_tail (ring d)) (ring_buffer_size (ring d)) ps)
    as [d2 sent ps' aborted].
  cbn [out_dev out_sent out_packets_sent out_aborted] in *.
  destruct aborted; [by apply Hsent|].
  specialize (IH ps' d2).
  destruct (udp_work_loop fuel ps' d2) as [d3 more]. cbn [fst snd] in *.
  intros Hk. apply lookup_app_Some in Hk as [Hk|[Hge Hk]]; [by apply Hsent|].
  replace k with (length sent + (k - length sent))%nat by lia.
  eapply datagram_ok_shift; [by apply Hseq|].
  rewrite <- Hgap. apply IH; [| |done].
  - rewrite Hring. by apply ring_return_buffer_wf.
  - rewrite Hring, <- Hsize. apply (ring_apply_buffer_size d RingReturn).
Qed.

(** X13.  Every datagram of a run of the packetizer is well formed, whatever
    kernel_sendmsg answers and whether or not the buffer allocation
    succeeds: on a ring as antsdr_ring_init lays it out, the [k]-th datagram
    handed to the socket carries the sequence number of the device plus
    [k] (modulo 2^32), a payload of 1 to 1360 bytes whose length is the
    header's payload length, a total length of 48 bytes more, the CRC-32
    of exactly the payload bytes, both markers and the missing-frame count
    of the gap tracker.  The sent counter moves by the number of datagrams
    (modulo the width of unsigned long), and without a socket or a
    destination nothing is sent and no counter moves. *)
Theorem udp_work_datagrams kmalloc_ok d :
  ring_wf (ring d) ->
  ring_buffer_size (ring d) = RING_BUFFER_SIZE ->
  let r := antsdr_udp_work kmalloc_ok d in
  (forall (k : nat) p, snd r !! k = Some p ->
     datagram_ok (packet_sequence_number d) (missing_frame_count (gap d)) k p)
  /\ ulong (udp_packets_sent (stats (fst r)))
     = ulong (udp_packets_sent (stats d) + Z.of_nat (length (snd r)))
  /\ (sock d && dest_set d = false -> snd r = [] /\ stats (fst r) = stats d).
Proof.
  intros Hwf Hsize. unfold antsdr_udp_work.
  destruct kmalloc_ok.
  - pose proof (udp_work_loop_datagrams (S (Z.to_nat (ring_count (ring d)))) 0 d)
      as Hsent.
    pose proof (udp_work_loop_counted (S (Z.to_nat (ring_count (ring d)))) 0 d
                  Hwf Hsize) as Hcount.
    pose proof (udp_work_loop_skipped (S (Z.to_nat (ring_count (ring d)))) 0 d)
      as Hskip.
    destruct (udp_work_loop (S (Z.to_nat (ring_count (ring d)))) 0 d) as [d1 sent].
    cbn [fst snd] in *.
    assert (Hstats : stats (if 0 <? ring_count (ring d1) then d1
                            else set_udp_work_pending false d1) = stats d1)
      by (by destruct (0 <? _)).
    rewrite Hstats. split_and!.
    + intros k p Hk. by apply Hsent.
    + exact Hcount.
    + intros Hoff. by apply Hskip.
  - cbn [fst snd length Z.of_nat set_udp_work_pending stats].
    split_and!; [done|by rewrite Z.add_0_r|done].
Qed.

(** ** The packetizer: a run in which every send succeeds *)

Lemma udp_fragment_step_delivered d l i o :
  (forall p, 0 < kernel_sendmsg p) ->
  sock d = true -> dest_set d = true ->
  udp_fragment_step d l i o
  = (FragmentSent (udp_fragment d l i o),
     count_packet_sent
       (set_packet_sequence_number (u32 (packet_sequence_number d + 1)) d)).
Proof.
  intros Hsend Hsock Hdest. unfold udp_fragment_step.
  cbn [set_packet_sequence_number sock dest_set]. rewrite Hsock, Hdest. cbn [andb].
  destruct (Z.ltb_spec 0 (kernel_sendmsg (udp_fragment d l i o))) as [_|Hno]; [done|].
  specialize (Hsend (udp_fragment d l i o)). lia.
Qed.

(* One slot of 1600 bytes goes out as two datagrams. *)
Lemma udp_work_slot_delivered d ps :
  (forall p, 0 < kernel_sendmsg p) ->
  sock d = true -> dest_set d = true ->
  ring_wf (ring d) ->
  ring_buffer_size (ring d) = RING_BUFFER_SIZE ->
  let slot := ring_slot d (ring_tail (ring d)) in
  let r := udp_work_slot d (ring_tail (ring d)) (ring_buffer_size (ring d)) ps in
  exists p q,
    out_sent r = [p; q]
    /\ payload_datagrams (frame_id_counter d) slot p q
    /\ out_aborted r = false
    /\ out_packets_sent r = ps + 2
    /\ frame_id_counter (out_dev r) = u32 (frame_id_counter d + 1)
    /\ udp_work_pending (out_dev r) = udp_work_pending d
    /\ sock (out_dev r) = true /\ dest_set (out_dev r) = true
    /\ ring (out_dev r) = ring (antsdr_ring_return_buffer d).
Proof.
  intros Hsend Hsock Hdest Hwf Hsize slot r.
  pose proof (ring_tail_slot_length d Hwf) as Hlen. fold slot in Hlen.
  rewrite Hsize in Hlen.
  assert (Hbuffers : ring_buffers (ring (antsdr_ring_return_buffer d))
                     = ring_buffers (ring d)) by apply ring_return_buffer_buffers.
  unfold r, udp_work_slot, udp_take_slot. rewrite Hsize.
  change ((RING_BUFFER_SIZE + ANTSDR_MAX_PAYLOAD_SIZE - 1) / ANTSDR_MAX_PAYLOAD_SIZE)
    with 2.
  cbn [fragments_needed]. change (Z.to_nat 2) with 2%nat.
  set (d0 := antsdr_ring_return_buffer d) in *.
  assert (Hctl : sock d0 = true /\ dest_set d0 = true
                 /\ frame_id_counter d0 = frame_id_counter d
                 /\ udp_work_pending d0 = udp_work_pending d).
  { unfold d0, antsdr_ring_return_buffer. by destruct (0 <? _). }
  destruct Hctl as (Hsock0 & Hdest0 & Hfid0 & Hpend0).
  cbn [udp_fragment_loop].
  rewrite udp_fragment_step_delivered by done.
  rewrite udp_fragment_step_delivered by done.
  cbn [out_sent out_aborted out_packets_sent out_dev].
  eexists _, _. split; [reflexivity|]. unfold payload_datagrams.
  cbn [udp_fragment header packet_payload hdr.frame_id hdr.fragment_index
         hdr.fragment_count ring_data payload_len current_frame_id fragments_needed
         frame_id_counter udp_work_pending sock dest_set ring].
  assert (Hslot : forall d', ring d' = ring d0 ->
                    ring_slot d' (ring_tail (ring d)) = slot).
  { intros d' Hring. unfold ring_slot, slot. by rewrite Hring, Hbuffers. }
  rewrite !Hslot by reflexivity.
  rewrite Hfid0.
  change (Z.min (RING_BUFFER_SIZE - 0) ANTSDR_MAX_PAYLOAD_SIZE) with 1360.
  change (Z.min (RING_BUFFER_SIZE - (0 + 1360)) ANTSDR_MAX_PAYLOAD_SIZE) with 240.
  split_and!; try done.
  - unfold slice. change (Z.to_nat (0 + 1360)) with (Z.to_nat ANTSDR_MAX_PAYLOAD_SIZE).
    apply take_ge. rewrite length_drop.
    unfold ANTSDR_MAX_PAYLOAD_SIZE, RING_BUFFER_SIZE in *. lia.
  - lia.
Qed.

Lemma ring_return_buffer_count d :
  ring_wf (ring d) ->
  ring_count (ring d) <> 0 ->
  ring_count (ring (antsdr_ring_return_buffer d)) = ring_count (ring d) - 1.
Proof.
  intros [Hpos Hu32 Hslots Hhead Htail Hcount Hht Hss] Hne.
  unfold antsdr_ring_return_buffer.
  destruct (Z.ltb_spec 0 (ring_count (ring d))); [|lia].
  rewrite ring_set_ring. cbn [ring_count]. rewrite u32_small; lia.
Qed.

Lemma udp_work_loop_delivered fuel : forall (t : nat) d,
  (forall p, 0 < kernel_sendmsg p) ->
  sock d = true -> dest_set d = true ->
  ring_wf (ring d) ->
  ring_buffer_size (ring d) = RING_BUFFER_SIZE ->
  ring_count (ring d) < Z.of_nat fuel ->
  let m := Nat.min (Z.to_nat (ring_count (ring d))) (100 - t) in
  let r := udp_work_loop fuel (2 * Z.of_nat t) d in
  length (snd r) = (2 * m)%nat
  /\ (forall (j : nat) payload,
        (j < m)%nat ->
        ring_contents (ring d) !! j = Some payload ->
        exists p q,
          snd r !! (2 * j)%nat = Some p /\ snd r !! (2 * j + 1)%nat = Some q
          /\ payload_datagrams (frame_id_counter d + Z.of_nat j) payload p q)
  /\ ring_contents (ring (fst r)) = drop m (ring_contents (ring d))
  /\ ring_count (ring (fst r)) = ring_count (ring d) - Z.of_nat m
  /\ udp_work_pending (fst r) = udp_work_pending d.
Proof.
  induction fuel as [|fuel IH]; intros t d Hsend Hsock Hdest Hwf Hsize Hfuel.
  { destruct Hwf. lia. }
  assert (Hcount : 0 <= ring_count (ring d)) by (destruct Hwf; lia).
  cbn [udp_work_loop].
  destruct (Z.ltb_spec (2 * Z.of_nat t) 200) as [Hbudget|Hbudget]; cycle 1.
  { replace (100 - t)%nat with 0%nat by lia. rewrite Nat.min_0_r.
    cbn [fst snd length drop]. split_and!; [done|intros; lia|done|lia|done]. }
  unfold antsdr_ring_get.
  destruct (Z.eqb_spec (ring_count (ring d)) 0) as [Hempty|Hne].
  { rewrite Hempty. cbn [Z.to_nat Nat.min fst snd length drop].
    split_and!; [done|intros; lia|done|lia|done]. }
  destruct (udp_work_slot_delivered d (2 * Z.of_nat t) Hsend Hsock Hdest Hwf Hsize)
    as (p0 & q0 & Hsent & Hpq & Hrun & Hps & Hfid & Hpend & Hsock2 & Hdest2 & Hring).
  destruct (udp_work_slot d (ring_tail (ring d)) (ring_buffer_size (ring d))
              (2 * Z.of_nat t)) as [d2 sent ps' aborted].
  cbn [out_dev out_sent out_packets_sent out_aborted] in *. subst sent aborted ps'.
  assert (Hwf2 : ring_wf (ring d2)) by (rewrite Hring; by apply ring_return_buffer_wf).
  assert (Hsize2 : ring_buffer_size (ring d2) = RING_BUFFER_SIZE).
  { rewrite Hring, <- Hsize. apply (ring_apply_buffer_size d RingReturn). }
  assert (Hcount2 : ring_count (ring d2) = ring_count (ring d) - 1)
    by (rewrite Hring; by apply ring_return_buffer_count).
  assert (Hcontents2 : ring_contents (ring d2) = drop 1 (ring_contents (ring d)))
    by (rewrite Hring; by apply ring_contents_return).
  replace (2 * Z.of_nat t + 2) with (2 * Z.of_nat (S t)) by lia.
  destruct (IH (S t) d2 Hsend Hsock2 Hdest2 Hwf2 Hsize2 ltac:(lia))
    as (IHlen & IHsent & IHcontents & IHcount & IHpend).
  destruct (udp_work_loop fuel (2 * Z.of_nat (S t)) d2) as [d3 more].
  cbn [fst snd] in *.
  set (m' := Nat.min (Z.to_nat (ring_count (ring d2))) (100 - S t)) in *.
  assert (Hm : Nat.min (Z.to_nat (ring_count (ring d))) (100 - t) = S m')
    by (unfold m'; lia).
  rewrite Hm. split_and!.
  - cbn [app length]. lia.
  - intros j payload Hj Hpayload. destruct j as [|j].
    + rewrite (ring_contents_get d Hwf Hne) in Hpayload.
      injection Hpayload as <-.
      exists p0, q0. rewrite Z.add_0_r. by split_and!.
    + assert (Hpayload2 : ring_contents (ring d2) !! j = Some payload)
        by (by rewrite Hcontents2, lookup_drop).
      destruct (IHsent j payload ltac:(lia) Hpayload2) as (p & q & Hp & Hq & Hdg).
      exists p, q.
      replace (2 * S j)%nat with (S (S (2 * j))) by lia.
      replace (S (S (2 * j)) + 1)%nat with (S (S (2 * j + 1))) by lia.
      split_and!; [done|done|].
      destruct Hdg as (? & ? & Hf1 & Hf2 & ? & ? & ? & ?).
      rewrite Hfid, u32_add_l in Hf1, Hf2.
      replace (frame_id_counter d + 1 + Z.of_nat j)
        with (frame_id_counter d + Z.of_nat (S j)) in Hf1, Hf2 by lia.
      unfold payload_datagrams. by split_and!.
  - rewrite IHcontents, Hcontents2, drop_drop. done.
  - lia.
  - congruence.
Qed.

(** X14.  A run of the packetizer while the socket accepts every datagram, on a
    ring as antsdr_ring_init lays it out: it takes the oldest
    min(ring_count, 100) payloads in the order they were queued and sends
    each of them as two datagrams, the first 1360 bytes then the other 240,
    both under one frame id, the ids of consecutive payloads being
    consecutive; the payloads not taken stay queued in order, and the
    pending flag is cleared exactly when the ring was emptied. *)
Theorem udp_work_delivers_in_order d :
  (forall p, 0 < kernel_sendmsg p) ->
  sock d = true -> dest_set d = true ->
  ring_wf (ring d) ->
  ring_buffer_size (ring d) = RING_BUFFER_SIZE ->
  let m := Nat.min (Z.to_nat (ring_count (ring d))) 100 in
  let r := antsdr_udp_work true d in
  length (snd r) = (2 * m)%nat
  /\ (forall (j : nat) payload,
        (j < m)%nat ->
        ring_contents (ring d) !! j = Some payload ->
        exists p q,
          snd r !! (2 * j)%nat = Some p /\ snd r !! (2 * j + 1)%nat = Some q
          /\ payload_datagrams (frame_id_counter d + Z.of_nat j) payload p q)
  /\ ring_contents (ring (fst r)) = drop m (ring_contents (ring d))
  /\ udp_work_pending (fst r)
     = (if ring_count (ring d) <=? 100 then false else udp_work_pending d).
Proof.
  intros Hsend Hsock Hdest Hwf Hsize.
  assert (Hcount : 0 <= ring_count (ring d)) by (destruct Hwf; lia).
  destruct (udp_work_loop_delivered (S (Z.to_nat (ring_count (ring d)))) 0 d
              Hsend Hsock Hdest Hwf Hsize ltac:(lia))
    as (Hlen & Hsent & Hcontents & Hleft & Hpend).
  cbn zeta. unfold antsdr_udp_work.
  change (2 * Z.of_nat 0) with 0 in *.
  destruct (udp_work_loop (S (Z.to_nat (ring_count (ring d)))) 0 d) as [d1 sent].
  cbn [fst snd] in *.
  replace (100 - 0)%nat with 100%nat in * by lia.
  assert (Hring : ring (if 0 <? ring_count (ring d1) then d1
                        else set_udp_work_pending false d1) = ring d1)
    by (by destruct (0 <? _)).
  rewrite Hring. split_and!; [done|done|done|].
  destruct (Z.ltb_spec 0 (ring_count (ring d1)));
    destruct (Z.leb_spec (ring_count (ring d)) 100); try lia; done.
Qed.

(** ** Gap tracking over a session *)

Lemma gap_track_ascending cs : forall g,
  first_frame_received g = true ->
  0 <= missing_frame_count g <= last_frame_counter g ->
  counters_ascending (last_frame_counter g) cs ->
  let g' := foldl gap_track g cs in
  missing_frame_count g'
  = missing_frame_count g
    + (List.last cs (last_frame_counter g) - last_frame_counter g
       - Z.of_nat (length cs))
  /\ last_frame_counter g' = List.last cs (last_frame_counter g)
  /\ first_frame_received g' = true.
Proof.
  induction cs as [|c cs IH]; intros g Hfirst Hmissing Hasc.
  - cbn [foldl length List.last Z.of_nat]. split_and!; [lia|done|done].
  - destruct Hasc as [Hc Hasc].
    assert (Hstep : missing_frame_count (gap_track g c)
                    = missing_frame_count g + (c - last_frame_counter g - 1)
                    /\ last_frame_counter (gap_track g c) = c
                    /\ first_frame_received (gap_track g c) = true).
    { unfold gap_track. rewrite Hfirst. cbn [negb missing_frame_count
        last_frame_counter first_frame_received].
      rewrite (u32_small (last_frame_counter g + 1)) by lia.
      split_and!; [|done..].
      destruct (Z.ltb_spec (last_frame_counter g + 1) c); [|lia].
      rewrite (u32_small (c - _)) by lia. rewrite u32_small by lia. lia. }
    destruct Hstep as (Hm & Hl & Hf).
    cbn [foldl].
    destruct (IH (gap_track g c)) as (IHm & IHl & IHf).
    + done.
    + rewrite Hm, Hl. lia.
    + by rewrite Hl.
    + assert (Hlast : List.last (c :: cs) (last_frame_counter g) = List.last cs c)
        by (clear; revert c; induction cs as [|c' cs IHcs]; intros c;
            [done|]; cbn [List.last] in *; destruct cs; [done|apply IHcs]).
      rewrite Hlast. split_and!; [|by rewrite IHl, Hl|done].
      rewrite IHm, Hm, Hl. cbn [length]. lia.
Qed.

(** X7.  Over a streaming session whose valid frames arrive with strictly
    increasing 32-bit counters, the gap tracker started by
    antsdr_dma_start_streaming ends with a missing-frame count equal to the
    number of counter values skipped between the first and the last frame:
    last - first - (number of frames - 1). *)
Theorem gap_track_counts_skipped c0 cs :
  0 <= c0 ->
  counters_ascending c0 cs ->
  let g := foldl gap_track gap_reset (c0 :: cs) in
  missing_frame_count g = List.last cs c0 - c0 - Z.of_nat (length cs)
  /\ last_frame_counter g = List.last cs c0
  /\ first_frame_received g = true.
Proof.
  intros Hc0 Hasc.
  cbn [foldl]. change (gap_track gap_reset c0) with (mk_gap 0 c0 true).
  destruct (gap_track_ascending cs (mk_gap 0 c0 true)) as (Hm & Hl & Hf);
    cbn [missing_frame_count last_frame_counter first_frame_received];
    [done|lia|done|].
  cbn [missing_frame_count last_frame_counter] in Hm, Hl.
  cbn zeta. split_and!; [lia|done|done].
Qed.

(** ** From the DMA buffer to the datagrams *)

Lemma ring_slot_length d slot :
  ring_wf (ring d) ->
  0 <= slot < ring_size (ring d) ->
  Z.of_nat (length (ring_slot d slot)) = ring_buffer_size (ring d).
Proof.
  intros [Hpos Hu32 Hslots Hhead Htail Hcount Hht Hss] Hslot.
  unfold ring_slot.
  destruct (ring_buffers (ring d) !! Z.to_nat slot) as [s|] eqn:Hs.
  - cbn [default]. by eapply (Forall_lookup_1 _ _ _ _ Hss).
  - apply lookup_ge_None_1 in Hs. lia.
Qed.

(* A payload that fills a slot replaces its contents. *)
Lemma ring_contents_put_whole d data :
  ring_wf (ring d) ->
  ring_count (ring d) < ring_size (ring d) ->
  Z.of_nat (length data) = ring_buffer_size (ring d) ->
  ring_contents (ring (snd (antsdr_ring_put d data))) = ring_contents (ring d) ++ [data].
Proof.
  intros Hwf Hroom Hlen.
  rewrite ring_contents_put by (done || lia).
  pose proof (ring_slot_length d (ring_head (ring d)) Hwf
                ltac:(destruct Hwf; lia)) as Hslot.
  unfold memcpy_at. cbn [Z.to_nat take Nat.add app].
  rewrite drop_ge by lia. by rewrite app_nil_r.
Qed.

Lemma frame_work_loop_single budget d raw d' :
  raw_frame_fifo d = [raw] ->
  frame_work_frame (set_raw_frame_fifo [] d) raw = Some d' ->
  raw_frame_fifo d' = [] ->
  frame_work_loop (S (S budget)) d = Some d'.
Proof.
  intros Hfifo Hframe Hempty.
  cbn [frame_work_loop]. rewrite Hfifo, Hframe. by rewrite Hempty.
Qed.

(* The reset of antsdr_dma_reset_and_restart leaves a ring as
   antsdr_ring_init lays it out, empty. *)
Lemma reset_and_restart_ring engine c :
  let c' := snd (antsdr_dma_reset_and_restart engine c) in
  (ring_wf (ring (dma_dev c)) -> ring_wf (ring (dma_dev c')))
  /\ (ring_count (ring (dma_dev c)) = 0 -> ring_count (ring (dma_dev c')) = 0)
  /\ ring_buffer_size (ring (dma_dev c')) = ring_buffer_size (ring (dma_dev c))
  /\ raw_frame_fifo (dma_dev c') = raw_frame_fifo (dma_dev c)
  /\ frame_work_pending (dma_dev c') = frame_work_pending (dma_dev c)
  /\ pulse_mode (dma_dev c') = pulse_mode (dma_dev c)
  /\ sock (dma_dev c') = sock (dma_dev c)
  /\ dest_set (dma_dev c') = dest_set (dma_dev c)
  /\ gap (dma_dev c') = gap (dma_dev c)
  /\ frame_id_counter (dma_dev c') = frame_id_counter (dma_dev c)
  /\ packet_sequence_number (dma_dev c') = packet_sequence_number (dma_dev c)
  /\ stats (dma_dev c') = stats (dma_dev c).
Proof.
  unfold antsdr_dma_reset_and_restart.
  destruct (streaming c); cbn [negb]; [|done].
  assert (Hwf : ring_wf (ring (dma_dev c)) ->
                ring_wf {| ring_buffers := ring_buffers (ring (dma_dev c));
                           ring_size := ring_size (ring (dma_dev c));
                           ring_head := 0; ring_tail := 0; ring_count := 0;
                           ring_buffer_size := ring_buffer_size (ring (dma_dev c)) |}).
  { intros [Hpos Hu32 Hslots Hhead Htail Hcount Hht Hss].
    split; cbn [ring_buffers ring_size ring_head ring_tail ring_count
                  ring_buffer_size]; try done; lia. }
  by destruct (_ =? 0).
Qed.

(* The DMA callback in long-pulse mode, on a transfer it can queue. *)
Lemma callback_long_queues e c buf :
  pulse_mode (dma_dev c) <> 0 ->
  dest_set (dma_dev c) = true ->
  tx_status_error e = false ->
  raw_alloc_ok e = true ->
  Z.of_nat (length (raw_frame_fifo (dma_dev c))) < RAW_FRAME_FIFO_FRAMES ->
  antsdr_get_current_buffer c = Some buf ->
  FPGA_LONG_PULSE_WORDS * 4 <= Z.of_nat (length buf) ->
  exists c',
    antsdr_dma_callback e c = Some c'
    /\ raw_frame_fifo (dma_dev c')
       = raw_frame_fifo (dma_dev c) ++ [take (Z.to_nat (FPGA_LONG_PULSE_WORDS * 4)) buf]
    /\ frame_work_pending (dma_dev c') = true
    /\ (ring_wf (ring (dma_dev c)) -> ring_wf (ring (dma_dev c')))
    /\ (ring_count (ring (dma_dev c)) = 0 -> ring_count (ring (dma_dev c')) = 0)
    /\ ring_buffer_size (ring (dma_dev c')) = ring_buffer_size (ring (dma_dev c))
    /\ pulse_mode (dma_dev c') = pulse_mode (dma_dev c)
    /\ sock (dma_dev c') = sock (dma_dev c)
    /\ dest_set (dma_dev c') = dest_set (dma_dev c)
    /\ gap (dma_dev c') = gap (dma_dev c)
    /\ frame_id_counter (dma_dev c') = frame_id_counter (dma_dev c)
    /\ packet_sequence_number (dma_dev c') = packet_sequence_number (dma_dev c)
    /\ transfers_completed (stats (dma_dev c'))
       = ulong (transfers_completed (stats (dma_dev c)) + 1).
Proof.
  intros Hmode Hdest Hstatus Halloc Hroom Hbuf Hlen.
  unfold antsdr_dma_callback, callback_queue_frame, antsdr_get_transfer_size.
  rewrite Hstatus, Halloc, Hbuf.
  destruct (Z.eqb_spec (pulse_mode (dma_dev c)) 0) as [|_]; [done|]. cbn [negb].
  cbn [count_transfer set_stats dest_set raw_frame_fifo]. rewrite Hdest.
  change (FPGA_LONG_PULSE_WORDS * 4 <=? MAX_S2MM_TRANSFER_SIZE) with true.
  cbn [andb].
  destruct (Z.leb_spec (FPGA_LONG_PULSE_WORDS * 4) (Z.of_nat (length buf))); [|lia].
  destruct (Z.ltb_spec (Z.of_nat (length (raw_frame_fifo (dma_dev c))))
              RAW_FRAME_FIFO_FRAMES); [|lia].
  set (d1 := set_frame_work_pending true _).
  cbn [set_dma_dev set_current_buffer streaming].
  destruct (streaming c); cbn [negb].
  - destruct (_ =? 0).
    + eexists. split; [reflexivity|]. cbn [dma_dev]. by split_and!.
    + match goal with
      | |- context [antsdr_dma_reset_and_restart ?g ?c0] =>
          pose proof (reset_and_restart_ring g c0) as Hreset
      end.
      cbn zeta in Hreset.
      destruct Hreset as (Hwf & Hcount & Hsize & Hfifo & Hpend & Hpm & Hsock & Hds
                          & Hgap & Hfid & Hseq & Hstats).
      eexists. split; [reflexivity|].
      rewrite Hfifo, Hpend, Hsize, Hpm, Hsock, Hds, Hgap, Hfid, Hseq, Hstats.
      split_and!; try done.
  - eexists. split; [reflexivity|]. cbn [dma_dev]. by split_and!.
Qed.

(* The frame worker on a queue of one valid transfer whose payload fills
   a slot, the ring being empty: the slot receives [stored], what the
   freed transfer holds where the payload was. *)
Lemma frame_work_single_valid d raw h f :
  raw_frame_fifo d = [raw] ->
  ring_wf (ring d) ->
  ring_count (ring d) = 0 ->
  first_header (words_of raw) h ->
  last_footer (words_of raw) f ->
  Z.of_nat f - Z.of_nat h + 1 = expected_frame_words d ->
  (expected_frame_words d - 3) * 4 = ring_buffer_size (ring d) ->
  let payload := slice raw ((Z.of_nat h + 1) * 4) ((expected_frame_words d - 3) * 4) in
  exists d2 stored,
    antsdr_frame_work d = Some d2
    /\ (exists d1,
          stored = read_after_kfree d1 raw (Z.to_nat ((Z.of_nat h + 1) * 4))
                     (length payload))
    /\ (kfree_keeps raw -> stored = payload)
    /\ raw_frame_fifo d2 = []
    /\ frame_work_pending d2 = false
    /\ ring_wf (ring d2)
    /\ ring_contents (ring d2) = [stored]
    /\ ring_count (ring d2) = 1
    /\ ring_buffer_size (ring d2) = ring_buffer_size (ring d)
    /\ gap d2 = gap_track (gap d) (word_at (words_of raw) (Z.of_nat f - 1))
    /\ sock d2 = sock d
    /\ dest_set d2 = dest_set d
    /\ frame_id_counter d2 = frame_id_counter d
    /\ packet_sequence_number d2 = packet_sequence_number d.
Proof.
  intros Hfifo Hwf Hempty Hh Hf Hspan Hslot payload.
  set (d0 := set_raw_frame_fifo [] d).
  assert (Hparse := parse_valid d0 raw h f Hh Hf Hspan).
  change (expected_frame_words d0) with (expected_frame_words d) in Hparse.
  fold payload in Hparse.
  set (d1 := set_gap _ _) in Hparse.
  assert (Hframe := frame_work_frame_valid d0 raw payload d1 Hparse).
  cbn zeta in Hframe.
  rewrite (payload_offset_found raw h f Hh Hf) in Hframe.
  set (stored := read_after_kfree d1 raw _ _) in Hframe.
  assert (Hstored : length stored = length payload) by apply read_after_kfree_length.
  assert (Hlen : Z.of_nat (length stored) = ring_buffer_size (ring d)).
  { rewrite Hstored. unfold payload.
    rewrite (valid_payload_length d raw h f Hf Hspan). done. }
  assert (Hwf1 : ring_wf (ring d1)) by exact Hwf.
  assert (Hroom : ring_count (ring d1) < ring_size (ring d1)).
  { change (ring d1) with (ring d). destruct Hwf. lia. }
  assert (Hfit : Z.of_nat (length stored) <= ring_buffer_size (ring d1))
    by (change (ring d1) with (ring d); lia).
  destruct (ring_put_stored d1 stored Hwf1 Hroom Hfit) as (Hret & Hcount & _).
  pose proof (ring_put_wf d1 stored Hwf1) as Hwf2.
  pose proof (ring_contents_put_whole d1 stored Hwf1 Hroom
                ltac:(change (ring d1) with (ring d); lia)) as Hcontents.
  pose proof (ring_put_same_control d1 stored)
    as (Hq & Hp & _ & Hsock & Hdest & Hseq & Hfid & _ & Hsize).
  pose proof (ring_put_frame d1 stored) as (_ & Hgap & _).
  rewrite Hret in Hframe. cbn [Z.eqb] in Hframe.
  set (d2 := count_valid_frame _) in Hframe.
  assert (Hrun : frame_work_loop 50 d = Some d2)
    by (apply (frame_work_loop_single 48 d raw d2 Hfifo Hframe); exact Hq).
  exists (set_frame_work_pending false d2), stored.
  unfold antsdr_frame_work. rewrite Hrun.
  change (raw_frame_fifo d2) with (raw_frame_fifo (snd (antsdr_ring_put d1 stored))).
  rewrite Hq. cbn [d1 d0 set_gap set_raw_frame_fifo raw_frame_fifo].
  split; [reflexivity|].
  split; [by exists d1|].
  split.
  { intros Hkeeps. unfold stored.
    rewrite <- (payload_offset_found raw h f Hh Hf).
    by apply (valid_payload_kept d d1 raw h f). }
  cbn [set_frame_work_pending d2 count_valid_frame set_stats set_udp_work_pending
         raw_frame_fifo frame_work_pending ring gap sock dest_set frame_id_counter
         packet_sequence_number].
  split_and!; try done.
  - rewrite Hcontents. change (ring d1) with (ring d).
    unfold ring_contents. by rewrite Hempty.
  - rewrite Hcount. change (ring d1) with (ring d). lia.
Qed.

(* The packetizer on a ring that holds one payload. *)
Lemma udp_work_single d payload :
  (forall p, 0 < kernel_sendmsg p) ->
  sock d = true -> dest_set d = true ->
  ring_wf (ring d) ->
  ring_buffer_size (ring d) = RING_BUFFER_SIZE ->
  ring_contents (ring d) = [payload] ->
  exists d3 p q,
    antsdr_udp_work true d = (d3, [p; q])
    /\ payload_datagrams (frame_id_counter d) payload p q
    /\ datagram_ok (packet_sequence_number d) (missing_frame_count (gap d)) 0 p
    /\ datagram_ok (packet_sequence_number d) (missing_frame_count (gap d)) 1 q
    /\ ring_count (ring d3) = 0
    /\ udp_work_pending d3 = false.
Proof.
  intros Hsend Hsock Hdest Hwf Hsize Hcontents.
  assert (Hcount : ring_count (ring d) = 1).
  { apply (f_equal length) in Hcontents.
    rewrite ring_contents_length in Hcontents. cbn [length] in Hcontents.
    destruct Hwf. lia. }
  unfold antsdr_udp_work. rewrite Hcount. change (S (Z.to_nat 1)) with 2%nat.
  destruct (udp_work_loop_delivered 2 0 d Hsend Hsock Hdest Hwf Hsize ltac:(lia))
    as (Hlen & Hsent & _ & Hleft & _).
  pose proof (udp_work_loop_datagrams 2 0 d) as Hok.
  rewrite Hcount in Hlen, Hsent, Hleft.
  change (Nat.min (Z.to_nat 1) (100 - 0)) with 1%nat in *.
  change (2 * Z.of_nat 0) with 0 in *.
  destruct (udp_work_loop 2 0 d) as [d1 sent]. cbn [fst snd] in *.
  destruct (Hsent 0%nat payload ltac:(lia) ltac:(by rewrite Hcontents))
    as (p & q & Hp & Hq & Hpq).
  destruct sent as [|p' [|q' [|? ?]]]; cbn [length] in Hlen; try lia.
  cbn in Hp, Hq. injection Hp as ->. injection Hq as ->.
  destruct (Z.ltb_spec 0 (ring_count (ring d1))); [lia|].
  eexists _, p, q. split; [reflexivity|].
  rewrite Z.add_0_r in Hpq.
  split_and!; [done|by apply Hok|by apply Hok| |done].
  cbn [set_udp_work_pending ring]. lia.
Qed.


(** X16.  A long-pulse frame from the DMA buffer to the network.  The
    device is in long-pulse mode with a socket and a destination, the raw
    frame FIFO and the payload ring are empty, and the current DMA buffer
    holds, in its first 403 words, a frame whose first start marker is word
    0 and whose last end marker is word 402.  Then the DMA callback
    (whatever becomes of the next transfer it submits), the frame worker
    and the packetizer (every send succeeding) run without error, and
    exactly two datagrams leave, of 1360 and 240 bytes, under the device's
    frame id and its next two sequence numbers, with the missing-frame
    count the gap tracker reaches on word 401, the frame counter.
    Together they carry the 1600 bytes the frame worker read at the
    payload's address after it had freed its copy of the transfer: words 1
    to 400 of the buffer if the allocator left the freed copy alone.
    Afterwards the FIFO and the ring are empty again and no work is
    pending. *)
Theorem long_frame_reaches_the_network e c buf :
  (forall p, 0 < kernel_sendmsg p) ->
  pulse_mode (dma_dev c) <> 0 ->
  sock (dma_dev c) = true ->
  dest_set (dma_dev c) = true ->
  tx_status_error e = false ->
  raw_alloc_ok e = true ->
  antsdr_get_current_buffer c = Some buf ->
  FPGA_LONG_PULSE_WORDS * 4 <= Z.of_nat (length buf) ->
  let raw := take (Z.to_nat (FPGA_LONG_PULSE_WORDS * 4)) buf in
  first_header (words_of raw) 0 ->
  last_footer (words_of raw) 402 ->
  raw_frame_fifo (dma_dev c) = [] ->
  ring_wf (ring (dma_dev c)) ->
  ring_count (ring (dma_dev c)) = 0 ->
  ring_buffer_size (ring (dma_dev c)) = RING_BUFFER_SIZE ->
  exists c1 d2 d3 p q stored,
    antsdr_dma_callback e c = Some c1
    /\ antsdr_frame_work (dma_dev c1) = Some d2
    /\ antsdr_udp_work true d2 = (d3, [p; q])
    /\ (exists d1, stored = read_after_kfree d1 raw 4 1600)
    /\ (kfree_keeps raw -> stored = slice buf 4 1600)
    /\ payload_datagrams (frame_id_counter (dma_dev c)) stored p q
    /\ packet_payload p ++ packet_payload q = stored
    /\ (let missing :=
          missing_frame_count (gap_track (gap (dma_dev c)) (word_at (words_of raw) 401)) in
        datagram_ok (packet_sequence_number (dma_dev c)) missing 0 p
        /\ datagram_ok (packet_sequence_number (dma_dev c)) missing 1 q)
    /\ raw_frame_fifo d2 = []
    /\ frame_work_pending d2 = false
    /\ ring_count (ring d3) = 0
    /\ udp_work_pending d3 = false.
Proof.
  intros Hsend Hmode Hsock Hdest Hstatus Halloc Hbuf Hlen raw Hh Hf Hfifo Hwf
    Hempty Hsize.
  destruct (callback_long_queues e c buf Hmode Hdest Hstatus Halloc
              ltac:(by rewrite Hfifo) Hbuf Hlen)
    as (c1 & Hcb & Hfifo1 & _ & Hwf1 & Hempty1 & Hsize1 & Hmode1 & Hsock1 & Hdest1
        & Hgap1 & Hfid1 & Hseq1 & _).
  rewrite Hfifo in Hfifo1. cbn [app] in Hfifo1. fold raw in Hfifo1.
  assert (Hexp : expected_frame_words (dma_dev c1) = FPGA_LONG_PULSE_WORDS).
  { rewrite expected_frame_words_process, Hmode1.
    by destruct (Z.eqb_spec (pulse_mode (dma_dev c)) 0). }
  assert (Hslice : slice raw 4 1600 = slice buf 4 1600).
  { unfold slice, raw.
    change (Z.to_nat (FPGA_LONG_PULSE_WORDS * 4)) with (Z.to_nat 4 + 1608)%nat.
    rewrite <- take_drop_commute, take_take. f_equal. }
  assert (Hpayload : Z.of_nat (length (slice raw 4 1600)) = 1600).
  { pose proof (valid_payload_length (dma_dev c1) raw 0 402 Hf) as Hl.
    rewrite Hexp in Hl. apply Hl. reflexivity. }
  destruct (frame_work_single_valid (dma_dev c1) raw 0 402 Hfifo1 (Hwf1 Hwf)
              (Hempty1 Hempty) Hh Hf)
    as (d2 & stored & Hfw & (d1 & Hstored) & Hkept & Hfifo2 & Hpend2 & Hwf2
        & Hcontents2 & _ & Hsize2 & Hgap2 & Hsock2 & Hdest2 & Hfid2 & Hseq2).
  { by rewrite Hexp. }
  { by rewrite Hexp, Hsize1, Hsize. }
  rewrite Hexp in Hstored, Hkept.
  change ((Z.of_nat 0 + 1) * 4) with 4 in Hstored, Hkept.
  change ((FPGA_LONG_PULSE_WORDS - 3) * 4) with 1600 in Hstored, Hkept.
  change (Z.of_nat 402 - 1) with 401 in Hgap2.
  replace (length (slice raw 4 1600)) with 1600%nat in Hstored by lia.
  change (Z.to_nat 4) with 4%nat in Hstored.
  rewrite Hslice in Hkept.
  destruct (udp_work_single d2 stored Hsend)
    as (d3 & p & q & Hudp & Hpq & Hp & Hq & Hleft & Hpend3);
    [congruence|congruence|done|congruence|done|].
  exists c1, d2, d3, p, q, stored.
  rewrite Hfid2, Hfid1 in Hpq. rewrite Hseq2, Hseq1, Hgap2, Hgap1 in Hp, Hq.
  split_and!; try done.
  - by exists d1.
  - destruct Hpq as (-> & -> & _). apply take_drop.
Qed.

(** ** A batch of whole frames through the frame worker *)

Lemma frame_work_frame_queues d raw :
  ring_wf (ring d) ->
  ring_count (ring d) < ring_size (ring d) ->
  whole_frame d raw ->
  (expected_frame_words d - 3) * 4 = ring_buffer_size (ring d) ->
  exists d' stored,
    frame_work_frame d raw = Some d'
    /\ freed_payload d raw stored
    /\ (kfree_keeps raw -> stored = frame_payload d raw)
    /\ ring_wf (ring d')
    /\ ring_contents (ring d') = ring_contents (ring d) ++ [stored]
    /\ ring_count (ring d') = ring_count (ring d) + 1
    /\ gap d' = gap_track (gap d) (frame_counter d raw)
    /\ same_control d d'
    /\ udp_work_pending d' = true
    /\ valid_frames (stats d') = ulong (valid_frames (stats d) + 1)
    /\ invalid_frames (stats d') = invalid_frames (stats d)
    /\ errors (stats d') = errors (stats d).
Proof.
  intros Hwf Hroom [Hh Hf] Hslot.
  pose proof (expected_frame_words_cases d) as Hcases.
  unfold FPGA_SHORT_PULSE_WORDS, FPGA_LONG_PULSE_WORDS in Hcases.
  assert (Hspan : Z.of_nat (Z.to_nat (expected_frame_words d - 1)) - Z.of_nat 0 + 1
                  = expected_frame_words d) by lia.
  assert (Hparse := parse_valid d raw 0 _ Hh Hf Hspan).
  change ((Z.of_nat 0 + 1) * 4) with 4 in Hparse.
  fold (frame_payload d raw) in Hparse.
  replace (Z.of_nat (Z.to_nat (expected_frame_words d - 1)) - 1)
    with (expected_frame_words d - 2) in Hparse by lia.
  fold (frame_counter d raw) in Hparse.
  set (payload := frame_payload d raw) in *.
  set (d1 := set_gap _ _) in Hparse.
  assert (Hframe := frame_work_frame_valid d raw payload d1 Hparse).
  cbn zeta in Hframe.
  rewrite (payload_offset_found raw 0 _ Hh Hf) in Hframe.
  change (Z.to_nat ((Z.of_nat 0 + 1) * 4)) with 4%nat in Hframe.
  set (stored := read_after_kfree d1 raw 4 (length payload)) in Hframe.
  assert (Hstored : length stored = length payload) by apply read_after_kfree_length.
  assert (Hlen : Z.of_nat (length stored) = ring_buffer_size (ring d)).
  { rewrite Hstored. unfold payload, frame_payload.
    pose proof (valid_payload_length d raw 0 _ Hf Hspan) as Hl.
    change ((Z.of_nat 0 + 1) * 4) with 4 in Hl. by rewrite Hl. }
  assert (Hwf1 : ring_wf (ring d1)) by exact Hwf.
  assert (Hroom1 : ring_count (ring d1) < ring_size (ring d1)) by exact Hroom.
  assert (Hfit : Z.of_nat (length stored) <= ring_buffer_size (ring d1))
    by (change (ring d1) with (ring d); lia).
  destruct (ring_put_stored d1 stored Hwf1 Hroom1 Hfit) as (Hret & Hcount & _).
  pose proof (ring_put_wf d1 stored Hwf1) as Hwf2.
  pose proof (ring_contents_put_whole d1 stored Hwf1 Hroom1
                ltac:(change (ring d1) with (ring d); lia)) as Hcontents.
  pose proof (ring_put_same_control d1 stored) as Hctl.
  pose proof (ring_put_frame d1 stored) as (Hstats & Hgap & _).
  rewrite Hret in Hframe. cbn [Z.eqb] in Hframe.
  eexists. exists stored. split; [exact Hframe|].
  cbn [count_valid_frame set_stats set_udp_work_pending ring gap udp_work_pending
         stats valid_frames invalid_frames errors].
  rewrite Hstats.
  split_and!; try done.
  - by exists d1.
  - intros Hkeeps. unfold stored.
    change 4%nat with (Z.to_nat ((Z.of_nat 0 + 1) * 4)).
    rewrite <- (payload_offset_found raw 0 _ Hh Hf).
    by apply (valid_payload_kept d d1 raw 0 (Z.to_nat (expected_frame_words d - 1))).
Qed.

Lemma frame_work_loop_queues budget : forall d,
  (length (raw_frame_fifo d) <= budget)%nat ->
  ring_wf (ring d) ->
  ring_count (ring d) + Z.of_nat (length (raw_frame_fifo d)) <= ring_size (ring d) ->
  Forall (whole_frame d) (raw_frame_fifo d) ->
  (expected_frame_words d - 3) * 4 = ring_buffer_size (ring d) ->
  exists d' stored,
    frame_work_loop budget d = Some d'
    /\ Forall2 (freed_payload d) (raw_frame_fifo d) stored
    /\ (Forall kfree_keeps (raw_frame_fifo d) ->
        stored = map (frame_payload d) (raw_frame_fifo d))
    /\ raw_frame_fifo d' = []
    /\ frame_work_pending d' = frame_work_pending d
    /\ ring_wf (ring d')
    /\ ring_contents (ring d') = ring_contents (ring d) ++ stored
    /\ gap d' = foldl gap_track (gap d) (map (frame_counter d) (raw_frame_fifo d))
    /\ ulong (valid_frames (stats d'))
       = ulong (valid_frames (stats d) + Z.of_nat (length (raw_frame_fifo d)))
    /\ invalid_frames (stats d') = invalid_frames (stats d)
    /\ errors (stats d') = errors (stats d)
    /\ (udp_work_pending d = true \/ raw_frame_fifo d <> [] ->
        udp_work_pending d' = true).
Proof.
  induction budget as [|budget IH]; intros d Hlen Hwf Hroom Hwhole Hslot.
  - destruct (raw_frame_fifo d) as [|raw rest] eqn:Hfifo; [|cbn [length] in Hlen; lia].
    exists d, []. cbn [frame_work_loop map foldl length Z.of_nat].
    rewrite app_nil_r, Z.add_0_r.
    split_and!; try done; try (by intros [?|?]); constructor.
  - cbn [frame_work_loop].
    destruct (raw_frame_fifo d) as [|raw rest] eqn:Hfifo.
    + exists d, []. cbn [map foldl length Z.of_nat].
      rewrite app_nil_r, Z.add_0_r.
      split_and!; try done; try (by intros [?|?]); constructor.
    + cbn [length] in Hlen, Hroom.
      inversion Hwhole as [|? ? Hraw Hrest]; subst.
      set (d0 := set_raw_frame_fifo rest d).
      destruct (frame_work_frame_queues d0 raw) as
        (d1 & s1 & Hframe & Hfreed1 & Hkept1 & Hwf1 & Hcontents1 & Hcount1 & Hgap1
         & Hctl1 & Hpend1 & Hvalid1 & Hinvalid1 & Herrors1);
        [done|cbn; lia|done|done|].
      destruct Hctl1 as (Hq1 & Hfp1 & Hmode1 & _ & _ & _ & _ & Hsize1 & Hbsize1).
      assert (Hexp1 : expected_frame_words d1 = expected_frame_words d)
        by (unfold expected_frame_words; by rewrite Hmode1).
      assert (Hsame : forall raw', whole_frame d1 raw' <-> whole_frame d raw')
        by (intros raw'; unfold whole_frame; by rewrite Hexp1).
      destruct (IH d1) as (d' & srest & Hloop & Hfreed' & Hkept' & Hq' & Hfp' & Hwf'
                           & Hcontents' & Hgap' & Hvalid' & Hinvalid' & Herrors'
                           & Hpend').
      * rewrite Hq1. cbn [d0 set_raw_frame_fifo raw_frame_fifo]. lia.
      * done.
      * rewrite Hq1, Hcount1, Hsize1.
        cbn [d0 set_raw_frame_fifo raw_frame_fifo ring]. lia.
      * rewrite Hq1. cbn [d0 set_raw_frame_fifo raw_frame_fifo].
        eapply Forall_impl; [|exact Hrest]. intros raw' Hraw'. by apply Hsame.
      * by rewrite Hexp1, Hbsize1.
      * rewrite Hframe. exists d', (s1 :: srest).
        rewrite Hq1 in Hgap', Hvalid', Hfreed', Hkept'.
        cbn [d0 set_raw_frame_fifo raw_frame_fifo] in Hgap', Hvalid', Hfreed', Hkept'.
        assert (Hpayload : forall raw', frame_payload d1 raw' = frame_payload d raw')
          by (intros; unfold frame_payload; by rewrite Hexp1).
        assert (Hpayloads : map (frame_payload d1) rest = map (frame_payload d) rest)
          by (apply map_ext; intros; apply Hpayload).
        assert (Hcounters : map (frame_counter d1) rest = map (frame_counter d) rest)
          by (apply map_ext; intros; unfold frame_counter; by rewrite Hexp1).
        split_and!; try done.
        -- constructor; [exact Hfreed1|].
           eapply Forall2_impl; [|exact Hfreed'].
           intros raw' s' (dx & ->). exists dx. by rewrite Hpayload.
        -- intros Hkeeps. inversion Hkeeps as [|? ? Hk Hks]; subst.
           cbn [map]. rewrite (Hkept1 Hk), (Hkept' Hks), Hpayloads. done.
        -- by rewrite Hfp', Hfp1.
        -- rewrite Hcontents', Hcontents1, <- app_assoc. done.
        -- rewrite Hgap', Hgap1, Hcounters. done.
        -- rewrite Hvalid', Hvalid1. cbn [d0 set_raw_frame_fifo stats length].
           rewrite ulong_add_l. f_equal. lia.
        -- by rewrite Hinvalid', Hinvalid1.
        -- by rewrite Herrors', Herrors1.
        -- intros _. apply Hpend'. by left.
Qed.

(** X12.  A batch of whole frames goes through the frame worker in order.  When
    the raw frame FIFO holds at most 50 transfers, each exactly one frame
    whose payload fills a ring slot (long-pulse mode with the slots of
    antsdr_ring_init), and the ring has room for them, one run of the frame
    worker empties the FIFO, appends one slot per transfer to the ring in
    arrival order, feeds the frame counters to the gap tracker in the same
    order, counts each frame as valid and none as invalid or as an error,
    clears its pending flag and leaves the packetizer scheduled.  The
    worker frees its copy of a transfer before it copies the payload out
    of it, so what a slot receives is what is found, after the free, at
    byte 4 of the transfer over the length of the payload; the slots hold
    the payloads themselves if the allocator left every freed transfer
    alone. *)
Theorem frame_work_queues_in_order d :
  (length (raw_frame_fifo d) <= 50)%nat ->
  ring_wf (ring d) ->
  ring_count (ring d) + Z.of_nat (length (raw_frame_fifo d)) <= ring_size (ring d) ->
  Forall (whole_frame d) (raw_frame_fifo d) ->
  (expected_frame_words d - 3) * 4 = ring_buffer_size (ring d) ->
  exists d' stored,
    antsdr_frame_work d = Some d'
    /\ raw_frame_fifo d' = []
    /\ frame_work_pending d' = false
    /\ ring_contents (ring d') = ring_contents (ring d) ++ stored
    /\ Forall2 (freed_payload d) (raw_frame_fifo d) stored
    /\ (Forall kfree_keeps (raw_frame_fifo d) ->
        stored = map (frame_payload d) (raw_frame_fifo d))
    /\ gap d' = foldl gap_track (gap d) (map (frame_counter d) (raw_frame_fifo d))
    /\ ulong (valid_frames (stats d'))
       = ulong (valid_frames (stats d) + Z.of_nat (length (raw_frame_fifo d)))
    /\ invalid_frames (stats d') = invalid_frames (stats d)
    /\ errors (stats d') = errors (stats d)
    /\ (raw_frame_fifo d <> [] -> udp_work_pending d' = true).
Proof.
  intros Hlen Hwf Hroom Hwhole Hslot.
  destruct (frame_work_loop_queues 50 d Hlen Hwf Hroom Hwhole Hslot)
    as (d1 & stored & Hloop & Hfreed & Hkept & Hfifo & _ & _ & Hcontents & Hgap
        & Hvalid & Hinvalid & Herrors & Hpend).
  unfold antsdr_frame_work. rewrite Hloop, Hfifo.
  eexists. exists stored. split; [reflexivity|].
  cbn [set_frame_work_pending raw_frame_fifo frame_work_pending ring gap stats
         udp_work_pending].
  split_and!; try done. intros Hne. apply Hpend. by right.
Qed.

(** ** The DMA buffers *)

Lemma reset_and_restart_layout engine c :
  probe_layout c -> probe_layout (snd (antsdr_dma_reset_and_restart engine c)).
Proof.
  intros [Hchan Hlong Hcount Hshort Hindex].
  unfold antsdr_dma_reset_and_restart.
  destruct (streaming c); cbn [negb snd]; [|done].
  by destruct (_ =? 0).
Qed.

(** X15.  The DMA buffers as antsdr_dma_probe leaves them (sixteen long buffers
    of 2048 bytes, the short buffer pointers null, a buffer index below
    16) stay so through antsdr_dma_start_streaming,
    antsdr_dma_reset_and_restart and antsdr_dma_callback.  In long-pulse
    mode the current buffer is therefore one of the 2048-byte buffers, of
    which the callback queues the first 1612 bytes.  In short-pulse mode,
    the mode probe selects, the current buffer pointer is null: with a
    destination set and the copy allocated, the callback copies 212 bytes
    through it and has no defined result. *)
Theorem short_mode_callback_reads_null_buffer e engine c :
  probe_layout c ->
  probe_layout (snd (antsdr_dma_start_streaming engine c))
  /\ probe_layout (snd (antsdr_dma_reset_and_restart engine c))
  /\ (forall c', antsdr_dma_callback e c = Some c' -> probe_layout c')
  /\ (pulse_mode (dma_dev c) <> 0 ->
      exists buf, antsdr_get_current_buffer c = Some buf
                  /\ Z.of_nat (length buf) = MAX_S2MM_TRANSFER_SIZE)
  /\ (pulse_mode (dma_dev c) = 0 ->
      antsdr_get_current_buffer c = None
      /\ (dest_set (dma_dev c) = true ->
          tx_status_error e = false ->
          raw_alloc_ok e = true ->
          antsdr_dma_callback e c = None)).
Proof.
  intros Hlayout.
  assert (Hnext : forall d, probe_layout
            (set_current_buffer ((current_buffer c + 1) mod NUM_BUFFERS)
               (set_dma_dev d c))).
  { intros d. destruct Hlayout as [Hchan Hlong Hcount Hshort Hindex].
    split; cbn [set_current_buffer set_dma_dev rx_chan long_dma_buffers
                  short_dma_buffers current_buffer]; try done.
    apply Z.mod_pos_bound. done. }
  assert (Hdev : forall d c0, probe_layout c0 -> probe_layout (set_dma_dev d c0)).
  { intros d c0 [Hchan Hlong Hcount Hshort Hindex]. by split. }
  split_and!.
  - destruct Hlayout as [Hchan Hlong Hcount Hshort Hindex].
    unfold antsdr_dma_start_streaming.
    destruct (streaming c); cbn [snd]; [by split|].
    cbn [set_streaming set_dma_dev set_current_buffer rx_chan]. rewrite Hchan.
    destruct (_ =? 0); cbn [snd]; by split.
  - by apply reset_and_restart_layout.
  - intros c'. unfold antsdr_dma_callback.
    destruct (tx_status_error e).
    { intros [= <-]. apply reset_and_restart_layout. by apply Hdev. }
    destruct (callback_queue_frame e c) as [d|]; [|done].
    cbn [set_current_buffer set_dma_dev streaming current_buffer dma_dev].
    destruct (streaming c); cbn [negb]; [|intros [= <-]; by apply Hdev].
    destruct (_ =? 0); [intros [= <-]; apply Hnext|].
    intros [= <-]. apply reset_and_restart_layout.
    apply (Hdev _ _ (Hnext d)).
  - intros Hmode. destruct Hlayout as [Hchan Hlong Hcount Hshort Hindex].
    unfold antsdr_get_current_buffer.
    destruct (Z.eqb_spec (pulse_mode (dma_dev c)) 0); [done|]. cbn [negb].
    destruct (long_dma_buffers c !! Z.to_nat (current_buffer c)) as [b|] eqn:Hb.
    + destruct (Forall_lookup_1 _ _ _ _ Hlong Hb) as (buf & -> & Hlen).
      by exists buf.
    + apply lookup_ge_None_1 in Hb. lia.
  - intros Hmode. destruct Hlayout as [Hchan Hlong Hcount Hshort Hindex].
    assert (Hnull : antsdr_get_current_buffer c = None).
    { unfold antsdr_get_current_buffer. rewrite Hmode, Hshort. cbn [Z.eqb negb].
      rewrite lookup_replicate_2; [done|].
      unfold NUM_BUFFERS in *. lia. }
    split; [done|]. intros Hdest Hstatus Halloc.
    unfold antsdr_dma_callback, callback_queue_frame, antsdr_get_transfer_size.
    rewrite Hstatus, Halloc, Hnull, Hmode. cbn [Z.eqb negb].
    cbn [count_transfer set_stats dest_set]. rewrite Hdest.
    reflexivity.
Qed.

(** ** Reading the ring from user space *)


End Pipeline.

(** C6: the code on a full ring.  antsdr_udp_work returns the slot to the
    ring right after antsdr_ring_get and copies the fragments out of it
    afterwards.  On a full ring the returned slot is the one at the head, so
    a put that the ring refused before the return is accepted after it and
    lands in the slot the packetizer is about to read: the datagrams that
    leave carry the new payload, not the bytes the slot held when it was
    handed out. *)
Theorem early_return_lets_put_overwrite (BITS_PER_LONG : Z) (crc32 : Z -> list byte -> Z) :
  let run := run BITS_PER_LONG crc32 sendmsg_all in
  let fresh := replicate 200 x77 in
  let s0 := mk_system full_ring_dev AtRingGet 0 [] in
  let at_get := run [Packetizer] s0 in
  let returned := run [Packetizer; Packetizer] s0 in
  let s := run [Packetizer; Packetizer; Producer fresh; Packetizer; Packetizer] s0 in
  ring_count (ring full_ring_dev) = ring_size (ring full_ring_dev)
  /\ sys_pc at_get = AtReturnBuffer 0 1600
  /\ ring_slot (sys_dev at_get) 0 = replicate 200 x00 ++ replicate 1400 x55
  /\ fst (antsdr_ring_put (sys_dev at_get) fresh) = - ENOSPC
  /\ fst (antsdr_ring_put (sys_dev returned) fresh) = 0
  /\ concat (map packet_payload (sys_sent s)) = fresh ++ replicate 1400 x55
  /\ concat (map packet_payload (sys_sent s)) <> ring_slot (sys_dev at_get) 0
  /\ read_bytes (antsdr_dma_read true true (sys_dev at_get) 1600)
     = ring_slot (sys_dev at_get) 0.
Proof.
  intros run0 fresh s0 at_get returned s.
  split_and!; try (vm_compute; reflexivity).
  vm_compute. discriminate.
Qed.

(** ** Inputs at which the claims as first stated fail *)

(** C1 as stated fails when the payload ring is full: the transfer is a
    well-formed short-pulse frame, the parser returns its payload, and
    [valid_frames] and [extracted_frames] keep their values. *)
Lemma valid_frame_dropped_on_full_ring :
  let data := short_transfer 5 in
  let d := full_ring_dev in
  first_header (words_of data) 0
  /\ last_footer (words_of data) 52
  /\ Z.of_nat 52 - Z.of_nat 0 + 1 = expected_frame_words d
  /\ fst (antsdr_parse_fpga_frame 32 d data) = FrameValid (slice data 4 200)
  /\ (fun d' => valid_frames (stats d')) <$> frame_work_frame 32 kfree_intact d data
     = Some (valid_frames (stats d))
  /\ (fun d' => extracted_frames (stats d')) <$> frame_work_frame 32 kfree_intact d data
     = Some (extracted_frames (stats d))
  /\ (fun d' => errors (stats d')) <$> frame_work_frame 32 kfree_intact d data
     = Some (errors (stats d) + 1).
Proof.
  split_and!; try (vm_compute; reflexivity).
  - split; [by eexists; split; vm_compute|]. intros j w Hj. lia.
  - split; [vm_compute; reflexivity|].
    intros j w Hj Hw. apply lookup_lt_Some in Hw.
    assert (length (words_of (short_transfer 5)) = 53%nat) by (vm_compute; reflexivity).
    lia.
Qed.

(* A failed send ends the slot: the packetizer has taken it (the ring is
   empty afterwards) and the reported size calls for two datagrams, but
   none leaves and an error is counted.  With every send succeeding, the
   datagrams of a 200-byte payload concatenate to the 1600 bytes of the
   slot. *)
Lemma no_fragment_when_send_fails :
  let payload := replicate 200 x01 in
  let d := snd (antsdr_ring_put (probed true) payload) in
  let r := udp_work_slot 32 (fun _ _ => 0) sendmsg_unreachable d 0 1600 0 in
  let r' := udp_work_slot 32 (fun _ _ => 0) sendmsg_all d 0 1600 0 in
  antsdr_ring_get d = (0, Some (0, 1600))
  /\ (1600 + ANTSDR_MAX_PAYLOAD_SIZE - 1) / ANTSDR_MAX_PAYLOAD_SIZE = 2
  /\ out_sent r = []
  /\ out_aborted r = true
  /\ ring_count (ring (out_dev r)) = 0
  /\ errors (stats (out_dev r)) = 1
  /\ concat (map packet_payload (out_sent r')) = payload ++ replicate 1400 x55
  /\ concat (map packet_payload (out_sent r')) <> payload.
Proof.
  split_and!; try (vm_compute; reflexivity).
  vm_compute. discriminate.
Qed.

(** C3 as stated fails at the wrap of the frame counter: after a frame with
    counter 2^32 - 1 the expected counter is 0, so a frame with counter 5,
    which is not above the last counter, adds 5 to the missing count. *)
Lemma gap_counted_after_counter_wrap :
  let g := mk_gap 0 (2 ^ 32 - 1) true in
  5 <= last_frame_counter g
  /\ missing_frame_count (gap_track g 5) = 5
  /\ missing_frame_count (gap_track g 5) <> missing_frame_count g
  /\ gap <$> frame_work_loop 32 kfree_intact 50
               (set_raw_frame_fifo (short_transfer <$> [2 ^ 32 - 1; 5]) (probed true))
     = Some (mk_gap 5 5 true).
Proof.
  split_and!; try (vm_compute; reflexivity).
  - vm_compute. discriminate.
  - vm_compute. discriminate.
Qed.

(** C9 as stated fails for the missing-frame count: no reading of the
    snapshot gives it, since two devices that differ in the count only
    return the same snapshot. *)
Lemma stats_snapshot_lacks_missing_count :
  ~ exists read : antsdr_dma_stats -> Z,
      forall d s,
        antsdr_dma_ioctl_get_stats d true = (0, Some s) ->
        read s = missing_frame_count (gap d).
Proof.
  intros [read Hread].
  pose proof (Hread (probed true) _ eq_refl) as H0.
  pose proof (Hread (set_gap (mk_gap 1 0 true) (probed true)) _ eq_refl) as H1.
  change (stats (set_gap (mk_gap 1 0 true) (probed true)))
    with (stats (probed true)) in H1.
  rewrite H0 in H1. vm_compute in H1. discriminate.
Qed.

(** ** The theorems at concrete inputs *)

(* A marker position in a concrete word list is settled by evaluation. *)
Ltac no_header_before :=
  let j := fresh "j" in
  let w := fresh "w" in
  let Hj := fresh "Hj" in
  let Hw := fresh "Hw" in
  intros j w Hj Hw;
  repeat (destruct j as [|j];
          [vm_compute in Hw; injection Hw as <-; reflexivity|]);
  lia.

Ltac no_footer_after n :=
  let j := fresh "j" in
  let w := fresh "w" in
  let Hj := fresh "Hj" in
  let Hw := fresh "Hw" in
  let Hlen := fresh "Hlen" in
  intros j w Hj Hw;
  apply lookup_lt_Some in Hw;
  match type of Hw with
  | (_ < length ?ws)%nat =>
      assert (Hlen : length ws = n) by (vm_compute; reflexivity)
  end;
  lia.

Lemma short5_first_header : first_header (words_of (short_transfer 5)) 0.
Proof.
  split; [|no_header_before].
  eexists. split; vm_compute; reflexivity.
Qed.

Lemma short5_last_footer : last_footer (words_of (short_transfer 5)) 52.
Proof. split; [vm_compute; reflexivity|no_footer_after 53%nat]. Qed.

Lemma mismatch_first_header : first_header (words_of mismatch_transfer) 10.
Proof.
  split; [|no_header_before].
  eexists. split; vm_compute; reflexivity.
Qed.

Lemma mismatch_last_footer : last_footer (words_of mismatch_transfer) 52.
Proof. split; [vm_compute; reflexivity|no_footer_after 53%nat]. Qed.

Lemma probed_ring_wf dest : ring_wf (ring (probed dest)).
Proof. apply (ring_init_wf (fun _ _ => x55)). Qed.

Lemma fill_ring_wf n len d : ring_wf (ring d) -> ring_wf (ring (fill_ring n len d)).
Proof.
  intros Hwf. induction n as [|n IH]; [done|].
  cbn [fill_ring]. by apply ring_put_wf.
Qed.

Lemma kfree_intact_keeps raw : kfree_keeps kfree_intact raw.
Proof. intros d i b Hb. unfold kfree_intact. by rewrite Hb. Qed.

Lemma probed_fbuf_clean dest : fbuf_clean (fbuf (probed dest)).
Proof. apply (frame_buffer_init_clean (fun _ => xaa)). Qed.

Lemma sendmsg_all_pos p : 0 < sendmsg_all p.
Proof. unfold sendmsg_all, ANTSDR_PACKET_HEADER_SIZE. lia. Qed.

Lemma valid_frame_extracted_witness :
  let data := short_transfer 5 in
  let d := probed true in
  (first_header (words_of data) 0
   /\ last_footer (words_of data) 52
   /\ Z.of_nat 52 - Z.of_nat 0 + 1 = expected_frame_words d
   /\ ring_wf (ring d)
   /\ ring_buffer_size (ring d) = RING_BUFFER_SIZE)
  /\ fst (antsdr_parse_fpga_frame 32 d data) = FrameValid (slice data 4 200)
  /\ ring_count (ring d) < ring_size (ring d)
  /\ (exists d', frame_work_frame 32 kfree_intact d data = Some d'
         /\ valid_frames (stats d') = 1
         /\ extracted_frames (stats d') = 1
         /\ take 200 (ring_slot d' 0) = slice data 4 200)
  /\ (exists d', frame_work_frame 32 kfree_poison d data = Some d'
         /\ valid_frames (stats d') = 1
         /\ take 200 (ring_slot d' 0) = replicate 200 x6b).
Proof.
  intros data d.
  assert (H1 := short5_first_header).
  assert (H2 := short5_last_footer).
  assert (H3 : Z.of_nat 52 - Z.of_nat 0 + 1 = expected_frame_words d)
    by (vm_compute; reflexivity).
  assert (H4 := probed_ring_wf true).
  assert (H5 : ring_buffer_size (ring d) = RING_BUFFER_SIZE)
    by (vm_compute; reflexivity).
  assert (H6 : ring_count (ring d) < ring_size (ring d))
    by (vm_compute; reflexivity).
  destruct (valid_frame_extracted 32 kfree_intact d data 0 52 H1 H2 H3 H4 H5)
    as (Hparse & _ & _ & Hroom & _).
  destruct (Hroom H6) as (d' & Hwork & Hvalid & Hextracted & _ & _ & _ & _ & Hkept).
  destruct (valid_frame_extracted 32 kfree_poison d data 0 52 H1 H2 H3 H4 H5)
    as (_ & _ & _ & Hroom' & _).
  destruct (Hroom' H6) as (d'' & Hwork' & Hvalid' & _ & _ & _ & _ & Hfreed & _).
  split; [by split_and!|].
  split; [exact Hparse|].
  split; [exact H6|].
  split.
  - exists d'. split_and!; [exact Hwork|exact Hvalid|exact Hextracted|].
    exact (Hkept (kfree_intact_keeps data)).
  - exists d''. split_and!; [exact Hwork'|exact Hvalid'|exact Hfreed].
Defined.




Lemma gap_track_spec_witness :
  let g := mk_gap 0 6 true in
  0 <= 8 < 2 ^ 32
  /\ last_frame_counter (gap_track g 8) = 8
  /\ missing_frame_count (gap_track g 8) = 1.
Proof.
  intros g.
  assert (Hc : 0 <= 8 < 2 ^ 32) by lia.
  destruct (gap_track_spec 32 kfree_intact g 8 Hc) as (Hlast & _ & _ & Hgap & _).
  split; [exact Hc|]. split; [exact Hlast|].
  rewrite Hgap; [reflexivity|reflexivity|reflexivity].
Defined.

Lemma ring_put_full_or_stored_witness :
  let data := replicate 200 x01 in
  let big := replicate 1604 x01 in
  (ring_wf (ring (probed true))
   /\ ring_count (ring (probed true)) < ring_size (ring (probed true))
   /\ Z.of_nat (length data) <= ring_buffer_size (ring (probed true))
   /\ ring_buffer_size (ring (probed true)) < Z.of_nat (length big)
   /\ ring_wf (ring full_ring_dev)
   /\ ring_count (ring full_ring_dev) = ring_size (ring full_ring_dev))
  /\ fst (antsdr_ring_put (probed true) data) = 0
  /\ ring_count (ring (snd (antsdr_ring_put (probed true) data))) = 1
  /\ antsdr_ring_put (probed true) big = (- EINVAL, probed true)
  /\ fst (antsdr_ring_put full_ring_dev data) < 0
  /\ snd (antsdr_ring_put full_ring_dev data) = full_ring_dev.
Proof.
  intros data big.
  assert (H1 := probed_ring_wf true).
  assert (H2 : ring_count (ring (probed true)) < ring_size (ring (probed true)))
    by (vm_compute; reflexivity).
  assert (H3 : Z.of_nat (length data) <= ring_buffer_size (ring (probed true)))
    by (vm_compute; discriminate).
  assert (H4 : ring_wf (ring full_ring_dev))
    by (apply fill_ring_wf, probed_ring_wf).
  assert (H5 : ring_count (ring full_ring_dev) = ring_size (ring full_ring_dev))
    by (vm_compute; reflexivity).
  assert (H6 : ring_buffer_size (ring (probed true)) < Z.of_nat (length big))
    by (vm_compute; reflexivity).
  destruct (ring_put_full_or_stored 32 (probed true) data H1) as (_ & Hstored & _).
  destruct (Hstored H2 H3) as (Hret & Hcount & _).
  destruct (ring_put_full_or_stored 32 (probed true) big H1) as (_ & _ & _ & Hbig).
  destruct (ring_put_full_or_stored 32 full_ring_dev data H4) as (Hfull & _).
  destruct (Hfull H5) as (Hneg & Hsame).
  split; [by split_and!|].
  split_and!; [exact Hret|rewrite Hcount; reflexivity|exact (Hbig H6)|exact Hneg
               |exact Hsame].
Defined.

Lemma length_mismatch_discarded_witness :
  let d := probed true in
  (first_header (words_of mismatch_transfer) 10
   /\ last_footer (words_of mismatch_transfer) 52
   /\ Z.of_nat 52 - Z.of_nat 10 + 1 <> expected_frame_words d)
  /\ fst (antsdr_parse_fpga_frame 32 d mismatch_transfer) = FrameLengthMismatch
  /\ exists d', frame_work_frame 32 kfree_intact d mismatch_transfer = Some d'
       /\ invalid_frames (stats d') = 1
       /\ ring d' = ring d
       /\ fbuf d' = fbuf d.
Proof.
  intros d.
  assert (H1 := mismatch_first_header).
  assert (H2 := mismatch_last_footer).
  assert (H3 : Z.of_nat 52 - Z.of_nat 10 + 1 <> expected_frame_words d)
    by (vm_compute; discriminate).
  destruct (length_mismatch_discarded 32 kfree_intact d mismatch_transfer 10 52 H1 H2 H3)
    as (Hparse & _ & d' & Hwork & Hinvalid & _ & _ & _ & Hring & Hfbuf & _).
  split; [by split_and!|].
  split; [exact Hparse|].
  exists d'. split_and!; [exact Hwork|exact Hinvalid|exact Hring|exact Hfbuf].
Defined.

Lemma ring_get_reports_slot_capacity_witness :
  let d := foldl ring_apply (antsdr_ring_init (fun _ _ => x55) (probed true))
             [RingPut (replicate 200 x01)] in
  ring_count (ring d) <> 0
  /\ antsdr_ring_get d = (0, Some (0, 1600)).
Proof.
  intros d.
  assert (Hne : ring_count (ring d) <> 0) by (vm_compute; discriminate).
  destruct (ring_get_reports_slot_capacity 32 (fun _ _ => 0) sendmsg_all
              (fun _ _ => x55) (probed true) [RingPut (replicate 200 x01)] Hne)
    as (Hget & _).
  split; [exact Hne|]. exact Hget.
Defined.


(** * Instances of the further properties *)

Lemma probed_fbuf_bounded dest : fbuf_bounded (fbuf (probed dest)).
Proof.
  assert (Hsize : frame_buffer_size (fbuf (probed dest)) = FRAME_DETECTION_BUFFER_SIZE)
    by (destruct dest; vm_compute; reflexivity).
  assert (Hcount : frames_accumulated (fbuf (probed dest)) = 0)
    by (destruct dest; vm_compute; reflexivity).
  assert (Hused : frame_buffer_used (fbuf (probed dest)) = 0)
    by (destruct dest; vm_compute; reflexivity).
  split; rewrite ?Hsize, ?Hcount, ?Hused; [done|lia|lia|done].
Qed.

Lemma long7_first_header :
  first_header (words_of (take (Z.to_nat (FPGA_LONG_PULSE_WORDS * 4)) (long_capture 7))) 0.
Proof.
  split; [|intros j w Hj; lia].
  eexists. split; vm_compute; reflexivity.
Qed.

Lemma long7_last_footer :
  last_footer (words_of (take (Z.to_nat (FPGA_LONG_PULSE_WORDS * 4)) (long_capture 7))) 402.
Proof. split; [vm_compute; reflexivity|no_footer_after 403%nat]. Qed.

Lemma ring_reads_in_put_order_witness :
  let d := probed true in
  let payloads := [replicate 200 x01; replicate 200 x02; replicate 200 x03] in
  let d1 := read_dev (antsdr_dma_read true true (put_all d payloads) 1600) in
  (ring_wf (ring d)
   /\ ring_count (ring d) = 0
   /\ Z.of_nat (length payloads) <= ring_size (ring d)
   /\ Forall (fun p => Z.of_nat (length p) <= ring_buffer_size (ring d)) payloads
   /\ ring_buffer_size (ring d) < 2 ^ 31
   /\ payloads !! 1%nat = Some (replicate 200 x02))
  /\ ring_count (ring (put_all d payloads)) = 3
  /\ read_ret (antsdr_dma_read true true d1 1600) = 1600
  /\ take 200 (read_bytes (antsdr_dma_read true true d1 1600)) = replicate 200 x02
  /\ antsdr_dma_read false true d1 1600 = mk_read (- ENOMEM) [] d1.
Proof.
  intros d payloads d1.
  assert (H1 := probed_ring_wf true).
  assert (H2 : ring_count (ring d) = 0) by (vm_compute; reflexivity).
  assert (H3 : Z.of_nat (length payloads) <= ring_size (ring d))
    by (vm_compute; discriminate).
  assert (H4 : Forall (fun p => Z.of_nat (length p) <= ring_buffer_size (ring d))
                 payloads)
    by (repeat constructor; vm_compute; discriminate).
  assert (H5 : payloads !! 1%nat = Some (replicate 200 x02)) by reflexivity.
  assert (H6 : ring_buffer_size (ring d) < 2 ^ 31) by (vm_compute; reflexivity).
  destruct (ring_reads_in_put_order d payloads 1 _ H1 H2 H3 H4 H6 H5)
    as (Hcount & Hret & Hread & Hnomem).
  split; [by split_and!|].
  split_and!; [exact Hcount|exact Hret|exact Hread|exact (Hnomem true)].
Defined.

Lemma valid_payload_words_witness :
  let data := short_transfer 5 in
  let d := probed true in
  (first_header (words_of data) 0
   /\ last_footer (words_of data) 52
   /\ Z.of_nat 52 - Z.of_nat 0 + 1 = expected_frame_words d)
  /\ exists payload,
       fst (antsdr_parse_fpga_frame 32 d data) = FrameValid payload
       /\ words_of payload = take 50 (drop 1 (words_of data)).
Proof.
  intros data d.
  assert (H1 := short5_first_header).
  assert (H2 := short5_last_footer).
  assert (H3 : Z.of_nat 52 - Z.of_nat 0 + 1 = expected_frame_words d)
    by (vm_compute; reflexivity).
  destruct (valid_payload_words 32 d data 0 52 H1 H2 H3)
    as (payload & Hparse & Hwords & _).
  split; [by split_and!|].
  exists payload. split; [exact Hparse|exact Hwords].
Defined.

Lemma no_start_marker_dropped_witness :
  let data := bytes_of_words [1; FPGA_FOOTER_MARKER; 3] in
  let d := probed true in
  (forall j w, words_of data !! j = Some w -> is_header w = false)
  /\ fst (antsdr_parse_fpga_frame 32 d data) = FrameNoMarkers.
Proof.
  intros data d.
  assert (H1 : forall j w, words_of data !! j = Some w -> is_header w = false).
  { intros [|[|[|j]]] w Hw; vm_compute in Hw;
      [injection Hw as <-; reflexivity..|discriminate]. }
  split; [exact H1|].
  exact (proj1 (no_start_marker_dropped 32 kfree_intact d data H1)).
Defined.

Lemma reprocessing_accounting_witness :
  let d := split_frame_dev 0 9 in
  ring_wf (ring d)
  /\ ring_count (ring (snd (antsdr_frame_buffer_process 32 d)))
     = ring_count (ring d) + fst (antsdr_frame_buffer_process 32 d)
  /\ fst (antsdr_frame_buffer_process 32 d) = 1.
Proof.
  intros d.
  assert (H1 : ring_wf (ring d)) by exact (probed_ring_wf true).
  destruct (reprocessing_accounting 32 (fun _ _ => 0) d H1) as (_ & Hcount & _).
  split; [exact H1|]. split; [exact Hcount|].
  vm_compute. reflexivity.
Defined.

Lemma reprocessing_long_mode_emits_nothing_witness :
  let d := split_frame_dev 1 9 in
  (pulse_mode d <> 0
   /\ ring_buffer_size (ring d) = RING_BUFFER_SIZE
   /\ frame_buffer_used (fbuf d) <= Z.of_nat (length (frame_detection_buffer (fbuf d))))
  /\ fst (antsdr_frame_buffer_process 32 d) = 0
  /\ frame_buffer_used (fbuf d) = 1612.
Proof.
  intros d.
  assert (H1 : pulse_mode d <> 0) by (vm_compute; discriminate).
  assert (H2 : ring_buffer_size (ring d) = RING_BUFFER_SIZE) by (vm_compute; reflexivity).
  assert (H3 : frame_buffer_used (fbuf d)
               <= Z.of_nat (length (frame_detection_buffer (fbuf d))))
    by (vm_compute; discriminate).
  destruct (reprocessing_long_mode_emits_nothing 32 d H1 H2 H3) as (Hnone & _).
  split; [by split_and!|]. split; [exact Hnone|].
  vm_compute. reflexivity.
Defined.

Lemma frame_work_batch_witness :
  let d := set_raw_frame_fifo (short_transfer <$> [5; 6; 8]) (probed true) in
  (fbuf_clean (fbuf d)
   /\ fbuf_bounded (fbuf d)
   /\ Forall frame_fits (raw_frame_fifo d))
  /\ exists d',
       antsdr_frame_work 32 kfree_intact d = Some d'
       /\ raw_frame_fifo d' = []
       /\ frame_work_pending d' = false.
Proof.
  intros d.
  assert (H1 : fbuf_clean (fbuf d)) by exact (probed_fbuf_clean true).
  assert (H2 : fbuf_bounded (fbuf d)) by exact (probed_fbuf_bounded true).
  assert (H3 : Forall frame_fits (raw_frame_fifo d)).
  { repeat constructor; vm_compute; first [reflexivity|discriminate]. }
  destruct (frame_work_batch 32 (fun _ _ => 0) kfree_intact d H1 H2 H3)
    as (d' & Hrun & Hfifo & Hpending & _).
  split; [by split_and!|].
  exists d'. split; [exact Hrun|]. split; [exact Hfifo|exact Hpending].
Defined.

Lemma udp_work_datagrams_witness :
  let d := fill_ring 3 1600 (probed true) in
  let r := antsdr_udp_work 32 (fun _ _ => 0) sendmsg_all true d in
  (ring_wf (ring d) /\ ring_buffer_size (ring d) = RING_BUFFER_SIZE)
  /\ length (snd r) = 6%nat
  /\ forall (k : nat) p, snd r !! k = Some p ->
       hdr.sequence_number (header p) = u32 (0 + Z.of_nat k).
Proof.
  intros d r.
  assert (H1 : ring_wf (ring d)) by (apply fill_ring_wf, probed_ring_wf).
  assert (H2 : ring_buffer_size (ring d) = RING_BUFFER_SIZE)
    by (vm_compute; reflexivity).
  destruct (udp_work_datagrams 32 (fun _ _ => 0) sendmsg_all true d H1 H2)
    as (Hsent & _).
  split; [by split|]. split; [vm_compute; reflexivity|].
  intros k p Hk. exact (proj1 (Hsent k p Hk)).
Defined.

Lemma udp_work_delivers_in_order_witness :
  let d := fill_ring 3 1600 (probed true) in
  let r := antsdr_udp_work 32 (fun _ _ => 0) sendmsg_all true d in
  ((forall p, 0 < sendmsg_all p)
   /\ sock d = true /\ dest_set d = true
   /\ ring_wf (ring d) /\ ring_buffer_size (ring d) = RING_BUFFER_SIZE)
  /\ length (snd r) = 6%nat
  /\ ring_contents (ring (fst r)) = []
  /\ udp_work_pending (fst r) = false.
Proof.
  intros d r.
  assert (H1 := sendmsg_all_pos).
  assert (H2 : sock d = true) by (vm_compute; reflexivity).
  assert (H3 : dest_set d = true) by (vm_compute; reflexivity).
  assert (H4 : ring_wf (ring d)) by (apply fill_ring_wf, probed_ring_wf).
  assert (H5 : ring_buffer_size (ring d) = RING_BUFFER_SIZE)
    by (vm_compute; reflexivity).
  destruct (udp_work_delivers_in_order 32 (fun _ _ => 0) sendmsg_all d H1 H2 H3 H4 H5)
    as (Hlen & _ & Hrest & Hpending).
  assert (Hcount : ring_count (ring d) = 3) by (vm_compute; reflexivity).
  assert (Hcontents : length (ring_contents (ring d)) = 3%nat)
    by (vm_compute; reflexivity).
  rewrite Hcount in Hlen, Hrest, Hpending.
  split; [by split_and!|]. split_and!.
  - exact Hlen.
  - unfold r. rewrite Hrest. apply drop_ge. rewrite Hcontents. vm_compute. lia.
  - exact Hpending.
Defined.

Lemma gap_track_counts_skipped_witness :
  (0 <= 5 /\ counters_ascending 5 [6; 8; 12])
  /\ missing_frame_count (foldl gap_track gap_reset [5; 6; 8; 12]) = 4.
Proof.
  assert (H1 : 0 <= 5) by lia.
  assert (H2 : counters_ascending 5 [6; 8; 12]) by (cbn; lia).
  destruct (gap_track_counts_skipped 5 [6; 8; 12] H1 H2) as (Hmissing & _).
  split; [by split|]. exact Hmissing.
Defined.

Lemma long_frame_reaches_the_network_witness :
  let c := probed_control 1 (long_capture 7) in
  let buf := long_capture 7 in
  let raw := take (Z.to_nat (FPGA_LONG_PULSE_WORDS * 4)) buf in
  ((forall p, 0 < sendmsg_all p)
   /\ pulse_mode (dma_dev c) <> 0
   /\ sock (dma_dev c) = true
   /\ dest_set (dma_dev c) = true
   /\ tx_status_error quiet_completion = false
   /\ raw_alloc_ok quiet_completion = true
   /\ antsdr_get_current_buffer c = Some buf
   /\ FPGA_LONG_PULSE_WORDS * 4 <= Z.of_nat (length buf)
   /\ first_header (words_of raw) 0
   /\ last_footer (words_of raw) 402
   /\ raw_frame_fifo (dma_dev c) = []
   /\ ring_wf (ring (dma_dev c))
   /\ ring_count (ring (dma_dev c)) = 0
   /\ ring_buffer_size (ring (dma_dev c)) = RING_BUFFER_SIZE)
  /\ exists c1 d2 d3 p q,
       antsdr_dma_callback 32 quiet_completion c = Some c1
       /\ antsdr_frame_work 32 kfree_intact (dma_dev c1) = Some d2
       /\ antsdr_udp_work 32 (fun _ _ => 0) sendmsg_all true d2 = (d3, [p; q])
       /\ packet_payload p ++ packet_payload q = slice buf 4 1600.
Proof.
  intros c buf raw.
  assert (H1 := sendmsg_all_pos).
  assert (H2 : pulse_mode (dma_dev c) <> 0) by (vm_compute; discriminate).
  assert (H3 : sock (dma_dev c) = true) by (vm_compute; reflexivity).
  assert (H4 : dest_set (dma_dev c) = true) by (vm_compute; reflexivity).
  assert (H5 : tx_status_error quiet_completion = false) by reflexivity.
  assert (H6 : raw_alloc_ok quiet_completion = true) by reflexivity.
  assert (H7 : antsdr_get_current_buffer c = Some buf) by (vm_compute; reflexivity).
  assert (H8 : FPGA_LONG_PULSE_WORDS * 4 <= Z.of_nat (length buf))
    by (vm_compute; discriminate).
  assert (H9 := long7_first_header).
  assert (H10 := long7_last_footer).
  assert (H11 : raw_frame_fifo (dma_dev c) = []) by (vm_compute; reflexivity).
  assert (H12 : ring_wf (ring (dma_dev c))) by exact (probed_ring_wf true).
  assert (H13 : ring_count (ring (dma_dev c)) = 0) by (vm_compute; reflexivity).
  assert (H14 : ring_buffer_size (ring (dma_dev c)) = RING_BUFFER_SIZE)
    by (vm_compute; reflexivity).
  destruct (long_frame_reaches_the_network 32 (fun _ _ => 0) sendmsg_all kfree_intact
              quiet_completion c buf H1 H2 H3 H4 H5 H6 H7 H8 H9 H10 H11 H12 H13 H14)
    as (c1 & d2 & d3 & p & q & stored & Hcb & Hfw & Hudp & _ & Hkept & _ & Hbytes & _).
  split; [by split_and!|].
  exists c1, d2, d3, p, q. split_and!; [exact Hcb|exact Hfw|exact Hudp|].
  rewrite Hbytes. exact (Hkept (kfree_intact_keeps raw)).
Defined.

Lemma probed_control_layout mode buf0 :
  Z.of_nat (length buf0) = MAX_S2MM_TRANSFER_SIZE ->
  probe_layout (probed_control mode buf0).
Proof.
  intros Hlen. split; try done.
  cbn [probed_control long_dma_buffers].
  constructor; [by exists buf0|].
  apply Forall_replicate. eexists. split; [reflexivity|]. vm_compute. reflexivity.
Qed.

Lemma short_mode_callback_reads_null_buffer_witness :
  let c := probed_control 0 (replicate 2048 x00) in
  probe_layout c
  /\ antsdr_get_current_buffer c = None
  /\ antsdr_dma_callback 32 quiet_completion c = None.
Proof.
  intros c.
  assert (H1 : probe_layout c) by (apply probed_control_layout; vm_compute; reflexivity).
  destruct (short_mode_callback_reads_null_buffer 32 quiet_completion 0 c H1)
    as (_ & _ & _ & _ & Hshort).
  destruct (Hshort ltac:(vm_compute; reflexivity)) as [Hnull Hcb].
  split; [exact H1|]. split; [exact Hnull|].
  apply Hcb; vm_compute; reflexivity.
Defined.


Lemma frame_worker_never_recovers_witness :
  let d := probed true in
  let raw := take 100 (short_transfer 5) in
  (fbuf_clean (fbuf d) /\ Z.of_nat (length raw) mod 4 = 0)
  /\ exists d', frame_work_frame 32 kfree_intact d raw = Some d'.
Proof.
  intros d raw.
  assert (H1 := probed_fbuf_clean true).
  assert (H2 : Z.of_nat (length raw) mod 4 = 0) by (vm_compute; reflexivity).
  destruct (frame_worker_never_recovers 32 kfree_intact d raw H1 H2) as (d' & Hrun & _).
  split; [by split|]. by exists d'.
Defined.

Lemma ring_put_keeps_tail_slot_witness :
  let d := fill_ring 1 200 (probed true) in
  (ring_wf (ring d) /\ 0 < ring_count (ring d))
  /\ ring_slot (snd (antsdr_ring_put d (replicate 200 x07))) 0 = ring_slot d 0.
Proof.
  intros d.
  assert (H1 : ring_wf (ring d)) by (apply fill_ring_wf, probed_ring_wf).
  assert (H2 : 0 < ring_count (ring d)) by (vm_compute; reflexivity).
  split; [by split|].
  exact (ring_put_keeps_tail_slot d (replicate 200 x07) H1 H2).
Defined.

Lemma long_transfer_whole_5 :
  whole_frame (set_pulse_mode 1 (probed true)) (long_transfer 5).
Proof.
  split.
  - split; [|intros j w Hj; lia]. eexists. split; vm_compute; reflexivity.
  - split; [vm_compute; reflexivity|].
    change (Z.to_nat (expected_frame_words (set_pulse_mode 1 (probed true)) - 1))
      with 402%nat.
    no_footer_after 403%nat.
Qed.

Lemma long_transfer_whole_8 :
  whole_frame (set_pulse_mode 1 (probed true)) (long_transfer 8).
Proof.
  split.
  - split; [|intros j w Hj; lia]. eexists. split; vm_compute; reflexivity.
  - split; [vm_compute; reflexivity|].
    change (Z.to_nat (expected_frame_words (set_pulse_mode 1 (probed true)) - 1))
      with 402%nat.
    no_footer_after 403%nat.
Qed.

Lemma frame_work_queues_in_order_witness :
  let d0 := set_pulse_mode 1 (probed true) in
  let d := set_raw_frame_fifo [long_transfer 5; long_transfer 8] d0 in
  ((length (raw_frame_fifo d) <= 50)%nat
   /\ ring_wf (ring d)
   /\ ring_count (ring d) + Z.of_nat (length (raw_frame_fifo d)) <= ring_size (ring d)
   /\ Forall (whole_frame d) (raw_frame_fifo d)
   /\ (expected_frame_words d - 3) * 4 = ring_buffer_size (ring d))
  /\ exists d',
       antsdr_frame_work 32 kfree_intact d = Some d'
       /\ ring_contents (ring d')
          = [slice (long_transfer 5) 4 1600; slice (long_transfer 8) 4 1600]
       /\ missing_frame_count (gap d') = 2.
Proof.
  intros d0 d.
  assert (H1 : (length (raw_frame_fifo d) <= 50)%nat) by (cbn; lia).
  assert (H2 : ring_wf (ring d)) by exact (probed_ring_wf true).
  assert (H3 : ring_count (ring d) + Z.of_nat (length (raw_frame_fifo d))
               <= ring_size (ring d)) by (vm_compute; discriminate).
  assert (H4 : Forall (whole_frame d) (raw_frame_fifo d)).
  { constructor; [exact long_transfer_whole_5|].
    constructor; [exact long_transfer_whole_8|constructor]. }
  assert (H5 : (expected_frame_words d - 3) * 4 = ring_buffer_size (ring d))
    by (vm_compute; reflexivity).
  destruct (frame_work_queues_in_order 32 kfree_intact d H1 H2 H3 H4 H5)
    as (d' & stored & Hrun & _ & _ & Hcontents & _ & Hkept & Hgap & _).
  assert (Hkeeps : Forall (kfree_keeps kfree_intact) (raw_frame_fifo d)).
  { constructor; [apply kfree_intact_keeps|].
    constructor; [apply kfree_intact_keeps|constructor]. }
  split; [by split_and!|].
  exists d'. split; [exact Hrun|]. split.
  - rewrite Hcontents, (Hkept Hkeeps). vm_compute. reflexivity.
  - rewrite Hgap. vm_compute. reflexivity.
Defined.

